(** * openclaw-webex: the outbound delivery and inbound webhook pipelines

    A shallow embedding of [src/send.ts] (WebexSender), [src/webhook.ts]
    (WebexWebhookHandler), [src/channel.ts] (WebexChannel) and the webhook
    router of [src/channel-plugin.ts], and the properties of the
    specification stated over it.

    Conventions.
    - A JavaScript string is represented by the sequence of its UTF-8 bytes
      ([string], one [ascii] per byte), so [Buffer.from(s)] is the identity
      and [Buffer.byteLength(s, 'utf8')] is [String.length].  Substring tests
      against ASCII patterns ([includes], [startsWith]) are unaffected.
    - An optional property is an [option], the value a read of it yields;
      a value is truthy when it is present and, for a string, non-empty.
      Where the code spreads an object, a key it lacks and a key it holds
      with the value [undefined] differ, and the key is a [Js.Property].
    - Integer-valued numbers (status codes, retry budget, attempt counter)
      are [Z].  The numbers the code computes delays with are IEEE 754
      binary64 values ([Float.number]), every operation rounded to nearest,
      ties to even; a number the program is given (a configured delay, a
      literal, a draw of [Math.random]) is written as a rational [Q] and
      stands for the double nearest to it.
    - The surroundings of the program (the network, [Math.random], timers,
      subscriber callbacks) are an explicit [World] threaded through a state
      and exception monad.  A subscriber can raise and can take handlers
      off the channel while it runs; the world records, in order, every
      call, draw, sleep and subscriber invocation. *)

From Stdlib Require Import ZArith QArith Qminmax Qpower Qround.
From Stdlib Require Import String Ascii List Bool.
From Stdlib Require Import Lia Lqa.
From Stdlib Require Import DecimalString.
Import ListNotations.
Local Open Scope string_scope.
Local Open Scope Z_scope.

(* ================================================================== *)
(** * JavaScript strings and optional values *)

Module Js.

(** [s.startsWith(p)] *)
Definition startsWith (s p : string) : bool := String.prefix p s.

(** [s.includes(sub)] *)
Fixpoint includes (s sub : string) : bool :=
  String.prefix sub s ||
  match s with
  | EmptyString => false
  | String _ s' => includes s' sub
  end.

(** Truthiness of a string: every string but the empty one. *)
Definition truthy (s : string) : bool :=
  match s with EmptyString => false | _ => true end.

(** Truthiness of an optional string property ([undefined] is falsy). *)
Definition truthy_opt (o : option string) : bool :=
  match o with Some s => truthy s | None => false end.

(** Truthiness of an optional object or array (any object is truthy). *)
Definition present {A : Type} (o : option A) : bool :=
  match o with Some _ => true | None => false end.

(** [arr.includes(x)] on an array of strings. *)
Fixpoint array_includes (arr : list string) (x : string) : bool :=
  match arr with
  | [] => false
  | y :: arr' => String.eqb y x || array_includes arr' x
  end.

(** [a || b] on optional strings. *)
Definition or_else (o : option string) (d : string) : string :=
  match o with
  | Some s => if truthy s then s else d
  | None => d
  end.

(** [a ?? b] *)
Definition nullish {A : Type} (o : option A) (d : A) : A :=
  match o with Some a => a | None => d end.

(** An optional key of an object.  The object can lack the key, or hold it
  with any value, [undefined] included. *)
Inductive Property (A : Type) : Type :=
| Missing
| Held (v : option A).

Arguments Missing {A}.
Arguments Held {A} v.

(** [o.key]: [undefined] also for a key the object lacks. *)
Definition get {A : Type} (p : Property A) : option A :=
match p with
| Missing => None
| Held v => v
end.

(** [{ ...d, ...o }] at one key: the key of [o] wherever [o] holds it,
  whatever its value, and the key of [d] otherwise. *)
Definition spread {A : Type} (d o : Property A) : Property A :=
match o with
| Missing => d
| Held _ => o
end.

(** A string between double quotes. *)
Definition quote (s : string) : string :=
  String (ascii_of_nat 34) (s ++ String (ascii_of_nat 34) "").

(** ['x'.repeat(n)] *)
Fixpoint repeat (s : string) (n : nat) : string :=
  match n with
  | O => ""
  | S n' => s ++ repeat s n'
  end.

End Js.

(* ================================================================== *)
(** * JavaScript numbers: IEEE 754 binary64 *)

(** A finite double is the rational it denotes, kept in lowest terms; the
    sign of zero, which nothing here observes, is not kept.  An operation
    on finite values is the exact operation followed by [nearest]. *)
Module Float.

Local Open Scope Q_scope.

Inductive number : Type :=
| Finite (q : Q)
| Infinity
| NegInfinity
| NaN.

Definition pow2 (k : Z) : Q := 2 ^ k.

(** The integer nearest to [q], ties to the even one. *)
Definition rne (q : Q) : Z :=
  let f := Qfloor q in
  match Qcompare (q - inject_Z f) (1 # 2) with
  | Lt => f
  | Gt => (f + 1)%Z
  | Eq => if Z.even f then f else (f + 1)%Z
  end.

(** [floor (log2 q)], for a positive [q]. *)
Definition ilog2 (q : Q) : Z :=
  let k := (Z.log2 (Qnum q) - Z.log2 (Z.pos (Qden q)))%Z in
  if Qle_bool (pow2 k) q then k else (k - 1)%Z.

(** The exponent of the unit in the last place at a positive [q]: 53
    significant bits, and no exponent below that of the subnormals. *)
Definition ulp_exponent (q : Q) : Z := Z.max (ilog2 q - 52) (-1074).

(** A positive [q] rounded to a multiple of its unit in the last place. *)
Definition round_magnitude (q : Q) : Q :=
  let e := ulp_exponent q in
  inject_Z (rne (q / pow2 e)) * pow2 e.

(** The double nearest to [q]; a magnitude that rounds to 2^1024 or more
    overflows. *)
Definition nearest (q : Q) : number :=
  match Qcompare q 0 with
  | Eq => Finite 0
  | Gt =>
      let r := round_magnitude q in
      if Qle_bool (pow2 1024) r then Infinity else Finite (Qred r)
  | Lt =>
      let r := round_magnitude (- q) in
      if Qle_bool (pow2 1024) r then NegInfinity else Finite (Qred (- r))
  end.

(** [x * y] *)
Definition mul (x y : number) : number :=
  match x, y with
  | NaN, _ | _, NaN => NaN
  | Finite a, Finite b => nearest (a * b)
  | Finite a, Infinity | Infinity, Finite a =>
      match Qcompare a 0 with
      | Eq => NaN
      | Gt => Infinity
      | Lt => NegInfinity
      end
  | Finite a, NegInfinity | NegInfinity, Finite a =>
      match Qcompare a 0 with
      | Eq => NaN
      | Gt => NegInfinity
      | Lt => Infinity
      end
  | Infinity, Infinity | NegInfinity, NegInfinity => Infinity
  | Infinity, NegInfinity | NegInfinity, Infinity => NegInfinity
  end.

(** [x + y] *)
Definition add (x y : number) : number :=
  match x, y with
  | NaN, _ | _, NaN => NaN
  | Finite a, Finite b => nearest (a + b)
  | Infinity, NegInfinity | NegInfinity, Infinity => NaN
  | Infinity, _ | _, Infinity => Infinity
  | NegInfinity, _ | _, NegInfinity => NegInfinity
  end.

(** [Math.min(x, y)] *)
Definition min (x y : number) : number :=
  match x, y with
  | NaN, _ | _, NaN => NaN
  | NegInfinity, _ | _, NegInfinity => NegInfinity
  | Infinity, z | z, Infinity => z
  | Finite a, Finite b => if Qle_bool a b then x else y
  end.

(** [Math.pow(2, k)] for an integer [k]: the power of two, exact where it
    is a double. *)
Definition Math_pow2 (k : Z) : number := nearest (pow2 k).

(** [x > y] *)
Definition exceeds (x y : number) : bool :=
  match x, y with
  | NaN, _ | _, NaN => false
  | Finite a, Finite b => negb (Qle_bool a b)
  | Infinity, Infinity => false
  | Infinity, _ => true
  | _, Infinity => false
  | NegInfinity, _ => false
  | Finite _, NegInfinity => true
  end.


Definition is_finite (x : number) : bool :=
  match x with Finite _ => true | _ => false end.

End Float.

(* ================================================================== *)
(** * Node's [crypto] and [Buffer] primitives used by the handler *)

Module Crypto.

Local Open Scope list_scope.

Definition bytes := list Z.

Definition bytes_of_string (s : string) : bytes :=
  List.map (fun c => Z.of_N (N_of_ascii c)) (list_ascii_of_string s).

(** ** SHA-1 (FIPS 180-4) on 32-bit words held in [Z] *)

Definition w32 (x : Z) : Z := Z.land x 0xFFFFFFFF.
Definition add32 (x y : Z) : Z := w32 (x + y).
Definition rotl (n x : Z) : Z :=
  w32 (Z.lor (Z.shiftl x n) (Z.shiftr x (32 - n))).

(** Big-endian bytes of a word of [n] bytes. *)
Fixpoint be_bytes (n : nat) (x : Z) : bytes :=
  match n with
  | O => []
  | S n' => Z.land (Z.shiftr x (8 * Z.of_nat n')) 0xFF :: be_bytes n' x
  end.

Definition pad (msg : bytes) : bytes :=
  let len := Z.of_nat (List.length msg) in
  let zeros := Z.to_nat ((55 - len) mod 64) in
  msg ++ [0x80] ++ List.repeat 0 zeros ++ be_bytes 8 (8 * len).

Fixpoint words_of_bytes (fuel : nat) (bs : bytes) : list Z :=
  match fuel, bs with
  | S f, b0 :: b1 :: b2 :: b3 :: rest =>
      (Z.shiftl b0 24 + Z.shiftl b1 16 + Z.shiftl b2 8 + b3)
        :: words_of_bytes f rest
  | _, _ => []
  end.

(** The message schedule, newest word first. *)
Fixpoint schedule (n : nat) (rev_ws : list Z) : list Z :=
  match n with
  | O => rev_ws
  | S n' =>
      let w i := nth i rev_ws 0 in
      schedule n'
        (rotl 1 (Z.lxor (Z.lxor (w 2%nat) (w 7%nat))
                        (Z.lxor (w 13%nat) (w 15%nat))) :: rev_ws)
  end.

Definition State : Type := Z * Z * Z * Z * Z.

Definition round_f (t : nat) (b c d : Z) : Z :=
  if (t <? 20)%nat then Z.lor (Z.land b c) (Z.land (Z.lxor b 0xFFFFFFFF) d)
  else if (t <? 40)%nat then Z.lxor (Z.lxor b c) d
  else if (t <? 60)%nat then
    Z.lor (Z.lor (Z.land b c) (Z.land b d)) (Z.land c d)
  else Z.lxor (Z.lxor b c) d.

Definition round_k (t : nat) : Z :=
  if (t <? 20)%nat then 0x5A827999
  else if (t <? 40)%nat then 0x6ED9EBA1
  else if (t <? 60)%nat then 0x8F1BBCDC
  else 0xCA62C1D6.

Fixpoint rounds (t : nat) (ws : list Z) (s : State) : State :=
  match ws with
  | [] => s
  | wt :: ws' =>
      let '(a, b, c, d, e) := s in
      let tmp :=
        add32 (add32 (add32 (add32 (rotl 5 a) (round_f t b c d)) e)
                     (round_k t)) wt in
      rounds (S t) ws' (tmp, a, rotl 30 b, c, d)
  end.

Definition compress (s : State) (block : list Z) : State :=
  let ws := List.rev (schedule 64 (List.rev block)) in
  let '(a, b, c, d, e) := s in
  let '(a', b', c', d', e') := rounds 0 ws s in
  (add32 a a', add32 b b', add32 c c', add32 d d', add32 e e').

Fixpoint blocks (fuel : nat) (ws : list Z) (s : State) : State :=
  match fuel, ws with
  | S f, _ :: _ => blocks f (List.skipn 16 ws) (compress s (List.firstn 16 ws))
  | _, _ => s
  end.

Definition initial : State :=
  (0x67452301, 0xEFCDAB89, 0x98BADCFE, 0x10325476, 0xC3D2E1F0).

Definition sha1 (msg : bytes) : bytes :=
  let padded := pad msg in
  let ws := words_of_bytes (List.length padded) padded in
  let '(a, b, c, d, e) := blocks (List.length ws) ws initial in
  be_bytes 4 a ++ be_bytes 4 b ++ be_bytes 4 c ++ be_bytes 4 d ++ be_bytes 4 e.

(** ** HMAC (RFC 2104) with SHA-1 *)

Definition hmac_key (key : bytes) : bytes :=
  let k := if (64 <? List.length key)%nat then sha1 key else key in
  k ++ List.repeat 0 (64 - List.length k)%nat.

Definition hmac_sha1 (key msg : bytes) : bytes :=
  let k := hmac_key key in
  let ipad := List.map (fun b => Z.lxor b 0x36) k in
  let opad := List.map (fun b => Z.lxor b 0x5C) k in
  sha1 (opad ++ sha1 (ipad ++ msg)).

(** ** [digest('hex')] *)

Definition hex_digit (n : Z) : ascii :=
  match n with
  | 0 => "0" | 1 => "1" | 2 => "2" | 3 => "3" | 4 => "4" | 5 => "5"
  | 6 => "6" | 7 => "7" | 8 => "8" | 9 => "9" | 10 => "a" | 11 => "b"
  | 12 => "c" | 13 => "d" | 14 => "e" | _ => "f"
  end%char.

Fixpoint hex (bs : bytes) : string :=
  match bs with
  | [] => ""
  | b :: bs' =>
      String (hex_digit (Z.shiftr b 4))
             (String (hex_digit (Z.land b 0xF)) (hex bs'))
  end.

(** [crypto.createHmac('sha1', secret).update(body).digest('hex')] *)
Definition createHmac_sha1_hex (secret body : string) : string :=
  hex (hmac_sha1 (bytes_of_string secret) (bytes_of_string body)).

End Crypto.

(* ================================================================== *)
(** * Errors, results and the effect monad *)

(** The error classes the code raises or inspects.  [GenericError] is a plain
    [Error] (also what [fetch] rejects with); [RangeError] is what
    [crypto.timingSafeEqual] raises and [TypeError] what iterating over
    [undefined] raises.  [OutOfFuel] is not a JavaScript error:
    it marks a retry loop cut off by the fuel of the model; the fuel
    [request] supplies is proved to be enough ([request_fuel_enough]). *)
Inductive Error : Type :=
| GenericError (message : string)
| WebexApiRequestError (message : string) (statusCode : Z)
    (trackingId : option string) (details : option (list string))
| WebhookValidationError (message : string)
| RangeError (message : string)
| TypeError (message : string)
| OutOfFuel.

Definition error_message (e : Error) : string :=
  match e with
  | GenericError m => m
  | WebexApiRequestError m _ _ _ => m
  | WebhookValidationError m => m
  | RangeError m => m
  | TypeError m => m
  | OutOfFuel => ""
  end.

Inductive Result (A : Type) : Type :=
| Return (a : A)
| Throw (e : Error).
Arguments Return {A} a.
Arguments Throw {A} e.

(** Computations over a mutable state [S] that return or throw. *)
Definition Eff (S A : Type) : Type := S -> Result A * S.

Definition ret {S A : Type} (a : A) : Eff S A := fun s => (Return a, s).

Definition throw {S A : Type} (e : Error) : Eff S A := fun s => (Throw e, s).

Definition bind {S A B : Type} (c : Eff S A) (k : A -> Eff S B) : Eff S B :=
  fun s =>
    match c s with
    | (Return a, s') => k a s'
    | (Throw e, s') => (Throw e, s')
    end.

(** [try { c } catch (e) { h e }] *)
Definition try_catch {S A : Type} (c : Eff S A) (h : Error -> Eff S A)
  : Eff S A :=
  fun s =>
    match c s with
    | (Return a, s') => (Return a, s')
    | (Throw e, s') => h e s'
    end.

Declare Scope eff_scope.
Delimit Scope eff_scope with eff.
Notation "x <- c ;; k" := (bind c (fun x => k))
  (at level 61, c at next level, right associativity) : eff_scope.
Notation "c ;;; k" := (bind c (fun _ => k))
  (at level 61, right associativity) : eff_scope.
Local Open Scope eff_scope.

(* ================================================================== *)
(** * Data model ([src/types.ts]) *)

Inductive DmPolicy : Type :=
| allow | deny | allowlisted | allowlist | pairing.

(** The four keys [DEFAULT_CONFIG] has are kept as the object holds them,
    since spreading tells a key that is missing from one that holds
    [undefined]; for the other optional keys only reads matter, and the
    two read alike. *)
Record WebexChannelConfig : Type := mkConfig {
  token : string;
  webhookUrl : string;
  own_dmPolicy : Js.Property DmPolicy;
  allowFrom : option (list string);
  webhookSecret : option string;
  own_apiBaseUrl : Js.Property string;
  own_maxRetries : Js.Property Z;
  own_retryDelayMs : Js.Property Q
}.

(** [config.dmPolicy] *)
Definition dmPolicy (config : WebexChannelConfig) : option DmPolicy :=
  Js.get config.(own_dmPolicy).

(** [config.apiBaseUrl] *)
Definition apiBaseUrl (config : WebexChannelConfig) : option string :=
  Js.get config.(own_apiBaseUrl).

(** [config.maxRetries] *)
Definition maxRetries (config : WebexChannelConfig) : option Z :=
  Js.get config.(own_maxRetries).

(** [config.retryDelayMs] *)
Definition retryDelayMs (config : WebexChannelConfig) : option Q :=
  Js.get config.(own_retryDelayMs).

Inductive RoomType : Type := direct | group.

Record AdaptiveCard : Type := mkCard {
  card_version : string;
  card_body : list string
}.

Record WebexAttachment : Type := mkAttachment {
  contentType : string;
  att_content : AdaptiveCard
}.

Record WebexMessage : Type := mkMessage {
  msg_id : string;
  msg_roomId : string;
  msg_roomType : RoomType;
  msg_text : option string;
  msg_markdown : option string;
  msg_files : option (list string);
  msg_personId : string;
  msg_personEmail : string;
  msg_mentionedPeople : option (list string);
  msg_attachments : option (list WebexAttachment);
  msg_created : string;
  msg_parentId : option string
}.

Inductive WebexWebhookResource : Type :=
| messages | memberships | rooms | attachmentActions | meetings | recordings.

Inductive WebexWebhookEvent : Type :=
| created | updated | deleted | started | ended.

Record WebexWebhookData : Type := mkData {
  data_id : string;
  data_roomId : string;
  data_roomType : RoomType;
  data_personId : string;
  data_personEmail : string;
  data_created : string
}.

Record WebexWebhookPayload : Type := mkPayload {
  payload_id : string;
  payload_name : string;
  payload_targetUrl : string;
  resource : WebexWebhookResource;
  event : WebexWebhookEvent;
  payload_orgId : string;
  payload_createdBy : string;
  payload_appId : string;
  payload_ownedBy : string;
  payload_status : string;
  payload_created : string;
  payload_actorId : string;
  data : WebexWebhookData
}.

Record WebexWebhook : Type := mkWebhook {
  wh_id : string;
  wh_name : string;
  wh_targetUrl : string;
  wh_resource : WebexWebhookResource;
  wh_event : WebexWebhookEvent
}.

Record CreateMessageRequest : Type := mkRequest {
  roomId : option string;
  toPersonId : option string;
  toPersonEmail : option string;
  text : option string;
  markdown : option string;
  files : option (list string);
  attachments : option (list WebexAttachment);
  parentId : option string
}.

Record CreateWebhookRequest : Type := mkWebhookRequest {
  cw_name : string;
  cw_targetUrl : string;
  cw_resource : WebexWebhookResource;
  cw_event : WebexWebhookEvent;
  cw_secret : option string
}.

Record WebexApiError : Type := mkApiError {
  api_message : option string;
  api_errors : option (list string);
  api_trackingId : option string
}.

Record BotInfo : Type := mkBotInfo {
  bot_id : string;
  bot_displayName : string;
  bot_emails : list string
}.

Inductive AttachmentType : Type := file | card.

Record OpenClawAttachment : Type := mkOcAttachment {
  oc_type : AttachmentType;
  oc_url : option string;
  oc_content : option AdaptiveCard
}.

Record OpenClawEnvelope : Type := mkEnvelope {
  env_id : string;
  env_channel : string;
  env_conversationId : string;
  env_author_id : string;
  env_author_email : option string;
  env_author_displayName : option string;
  env_author_isBot : bool;
  env_text : option string;
  env_markdown : option string;
  env_attachments : option (list OpenClawAttachment);
  env_roomType : RoomType;
  env_roomId : string;
  env_timestamp : string;
  env_mentions : option (list string);
  env_parentId : option string;
  env_raw : WebexMessage
}.

Record OutboundContent : Type := mkContent {
  c_text : option string;
  c_markdown : option string;
  c_files : option (list string);
  c_card : option AdaptiveCard
}.

Record OpenClawOutboundMessage : Type := mkOutbound {
  to : string;
  content : OutboundContent;
  out_parentId : option string
}.

Record RetryOptions : Type := mkRetryOptions {
  ro_maxRetries : Z;
  ro_retryDelayMs : Q
}.

Inductive Method : Type := GET | POST | PUT | DELETE.

(** What a request carries before [JSON.stringify]. *)
Inductive Body : Type :=
| MessageBody (r : CreateMessageRequest)
| WebhookBody (r : CreateWebhookRequest).

(** The optional [headers] of the interface, which no caller sets, are left
    out. *)
Record RequestOptions : Type := mkOptions {
  method : Method;
  path : string;
  body : option Body
}.

(* ================================================================== *)
(** * The world outside the program *)

(** A parsed JSON reply, by the shape the code casts it to.
    [JsonUndefined] is the [undefined] returned for a 204 reply. *)
Inductive Json : Type :=
| JsonMessage (m : WebexMessage)
| JsonApiError (e : WebexApiError)
| JsonBotInfo (b : BotInfo)
| JsonWebhook (w : WebexWebhook)
| JsonWebhooks (items : list WebexWebhook)
| JsonOther
| JsonUndefined.

Record HttpRequest : Type := mkHttpRequest {
  url : string;
  http_method : Method;
  headers : list (string * string);
  http_body : option Body
}.

(** A [node-fetch] response; [json] is the outcome of [response.json()],
    which rejects when the body is not JSON. *)
Record Response : Type := mkResponse {
  ok : bool;
  status : Z;
  statusText : string;
  json : Result Json;
  resp_text : string
}.

Inductive FetchOutcome : Type :=
| Resolved (r : Response)
| Rejected (e : Error).

(** A subscriber callback, identified as JavaScript does, by reference.
    What a subscriber does when it is called is part of the world: it can
    raise, and it can take handlers, itself included, off the channel that
    calls it.  Subscribers that register handlers or call another method
    of the channel while they run are not modelled. *)
Definition Handler : Type := nat.

(** What the program does to its surroundings, one event per effect. *)
Inductive Event : Type :=
| Fetched (req : HttpRequest)
| Drew
| Slept (ms : Float.number)
| Notified (h : Handler) (envelope : OpenClawEnvelope).

Record World : Type := mkWorld {
  (** the outcome of the k-th [fetch] (counted from 0) for a given request *)
  net : nat -> HttpRequest -> FetchOutcome;
  (** the requests performed so far, newest first *)
  fetched : list HttpRequest;
  (** the k-th value [Math.random()] returns *)
  random_source : nat -> Q;
  drawn : nat;
  (** the delays slept so far, newest first *)
  slept : list Float.number;
  (** whether a subscriber raises when called with an envelope *)
  handler_fails : Handler -> OpenClawEnvelope -> bool;
  (** the handlers a subscriber passes to [offMessage] while it runs, in
      the order it does *)
  handler_unsubscribes : Handler -> OpenClawEnvelope -> list Handler;
  (** the subscriber invocations so far, newest first *)
  notified : list (Handler * OpenClawEnvelope);
  (** all of the above in the order they happened, newest first *)
  events : list Event
}.

Definition fetch (req : HttpRequest) : Eff World Response :=
  fun w =>
    let w' := mkWorld (net w) (req :: fetched w) (random_source w) (drawn w)
                      (slept w) (handler_fails w) (handler_unsubscribes w)
                      (notified w) (Fetched req :: events w) in
    match net w (List.length (fetched w)) req with
    | Resolved r => (Return r, w')
    | Rejected e => (Throw e, w')
    end.

Definition Math_random : Eff World Q :=
  fun w =>
    (Return (random_source w (drawn w)),
     mkWorld (net w) (fetched w) (random_source w) (S (drawn w))
             (slept w) (handler_fails w) (handler_unsubscribes w)
             (notified w) (Drew :: events w)).

(** [new Promise(resolve => setTimeout(resolve, ms))] *)
Definition sleep (ms : Float.number) : Eff World unit :=
  fun w =>
    (Return tt,
     mkWorld (net w) (fetched w) (random_source w) (drawn w)
             (ms :: slept w) (handler_fails w) (handler_unsubscribes w)
             (notified w) (Slept ms :: events w)).

(** [await handler(envelope)], as far as the world goes: the call is
    recorded, and returns or raises.  What the subscriber does to the
    channel meanwhile is [Channel.run_subscriber]. *)
Definition call_handler (h : Handler) (envelope : OpenClawEnvelope)
  : Eff World unit :=
  fun w =>
    let w' := mkWorld (net w) (fetched w) (random_source w) (drawn w)
                      (slept w) (handler_fails w) (handler_unsubscribes w)
                      ((h, envelope) :: notified w)
                      (Notified h envelope :: events w) in
    if handler_fails w h envelope
    then (Throw (GenericError "handler failed"), w')
    else (Return tt, w').

(** [response.json()] *)
Definition response_json (r : Response) : Eff World Json :=
  fun w => (json r, w).

(** Template-literal rendering of an integer. *)
Definition string_of_number (z : Z) : string :=
  NilZero.string_of_int (Z.to_int z).

(* ================================================================== *)
(** * WebexSender ([src/send.ts]) *)

Module Send.

Definition DEFAULT_API_BASE_URL : string := "https://webexapis.com/v1".
Definition DEFAULT_MAX_RETRIES : Z := 3.
Definition DEFAULT_RETRY_DELAY_MS : Q := 1000.

(** Rate limit status codes that should trigger retry *)
Definition RETRY_STATUS_CODES : list Z := [429; 502; 503; 504].

Record WebexSender : Type := mkSender {
  sender_config : WebexChannelConfig;
  sender_apiBaseUrl : string;
  sender_retryOptions : RetryOptions
}.

Definition new_WebexSender (config : WebexChannelConfig) : WebexSender :=
  mkSender config
    (Js.or_else (apiBaseUrl config) DEFAULT_API_BASE_URL)
    (mkRetryOptions
       (Js.nullish (maxRetries config) DEFAULT_MAX_RETRIES)
       (Js.nullish (retryDelayMs config) DEFAULT_RETRY_DELAY_MS)).

Definition empty_request : CreateMessageRequest :=
  mkRequest None None None None None None None None.

Definition set_roomId (r : CreateMessageRequest) (v : string) :=
  mkRequest (Some v) r.(toPersonId) r.(toPersonEmail) r.(text)
            r.(markdown) r.(files) r.(attachments) r.(parentId).
Definition set_toPersonId (r : CreateMessageRequest) (v : string) :=
  mkRequest r.(roomId) (Some v) r.(toPersonEmail) r.(text)
            r.(markdown) r.(files) r.(attachments) r.(parentId).
Definition set_toPersonEmail (r : CreateMessageRequest) (v : string) :=
  mkRequest r.(roomId) r.(toPersonId) (Some v) r.(text)
            r.(markdown) r.(files) r.(attachments) r.(parentId).
Definition set_markdown (r : CreateMessageRequest) (v : option string) :=
  mkRequest r.(roomId) r.(toPersonId) r.(toPersonEmail) r.(text)
            v r.(files) r.(attachments) r.(parentId).
Definition set_files (r : CreateMessageRequest) (v : list string) :=
  mkRequest r.(roomId) r.(toPersonId) r.(toPersonEmail) r.(text)
            r.(markdown) (Some v) r.(attachments) r.(parentId).
Definition set_attachments (r : CreateMessageRequest)
  (v : list WebexAttachment) :=
  mkRequest r.(roomId) r.(toPersonId) r.(toPersonEmail) r.(text)
            r.(markdown) r.(files) (Some v) r.(parentId).
Definition set_parentId (r : CreateMessageRequest) (v : option string) :=
  mkRequest r.(roomId) r.(toPersonId) r.(toPersonEmail) r.(text)
            r.(markdown) r.(files) r.(attachments) v.

Section WithBuffer.

(** [Buffer.from(s, 'base64').toString('utf-8')]; [None] when it throws
    (the code guards the call with try/catch). *)
Variable base64_decode : string -> option string.

(** Build a Webex message request from an OpenClaw outbound message *)
Definition buildMessageRequest (message : OpenClawOutboundMessage)
  : CreateMessageRequest :=
  let request := empty_request in
  (* Determine target: roomId, personId, or email *)
  let to := message.(to) in
  let request :=
    if Js.includes to "@" then set_toPersonEmail request to
    else if Js.startsWith to "Y2lzY29zcGFyazovL3" then
      match base64_decode to with
      | Some decoded =>
          if Js.includes decoded "/ROOM/" then set_roomId request to
          else if Js.includes decoded "/PEOPLE/"
               then set_toPersonId request to
          else set_roomId request to
      | None => set_roomId request to
      end
    else set_roomId request to in
  (* Set content *)
  let request :=
    if Js.truthy_opt message.(content).(c_text)
    then set_markdown request message.(content).(c_text)
    else request in
  let request :=
    if Js.truthy_opt message.(content).(c_markdown)
    then set_markdown request message.(content).(c_markdown)
    else request in
  let request :=
    match message.(content).(c_files) with
    | Some (f0 :: _) => set_files request [f0]
    | _ => request
    end in
  let request :=
    match message.(content).(c_card) with
    | Some c =>
        set_attachments request
          [mkAttachment "application/vnd.microsoft.card.adaptive" c]
    | None => request
    end in
  (* Set threading *)
  let request :=
    if Js.truthy_opt message.(out_parentId)
    then set_parentId request message.(out_parentId)
    else request in
  request.

End WithBuffer.

(** [!arr?.length] *)
Definition no_length {A : Type} (o : option (list A)) : bool :=
  match o with
  | Some (_ :: _) => false
  | _ => true
  end.

(** Validate a message request before sending *)
Definition validateMessageRequest (request : CreateMessageRequest)
  : Eff World unit :=
  if negb (Js.truthy_opt request.(roomId))
     && negb (Js.truthy_opt request.(toPersonId))
     && negb (Js.truthy_opt request.(toPersonEmail))
  then throw (GenericError
    "Message must have a target: roomId, toPersonId, or toPersonEmail")
  else
  if negb (Js.truthy_opt request.(text))
     && negb (Js.truthy_opt request.(markdown))
     && no_length request.(files) && no_length request.(attachments)
  then throw (GenericError
    "Message must have content: text, markdown, files, or attachments")
  else
  (* Text has a max size of 7439 bytes *)
  if Js.truthy_opt request.(text)
     && (Z.of_nat (String.length (Js.nullish request.(text) "")) >? 7439)
  then throw (GenericError
    "Message text exceeds maximum size of 7439 bytes")
  else ret tt.

Definition as_api_error (j : Result Json) : option WebexApiError :=
  match j with
  | Return (JsonApiError e) => Some e
  | _ => None
  end.

(** Parse error response from Webex API *)
Definition parseErrorResponse (response : Response) : Eff World Error :=
  errorData <- try_catch
      (j <- response_json response ;; ret (as_api_error (Return j)))
      (fun _ => ret None) ;;
  let message :=
    Js.or_else
      (match errorData with Some d => d.(api_message) | None => None end)
      ("HTTP " ++ string_of_number response.(status) ++ ": "
         ++ response.(statusText)) in
  ret (WebexApiRequestError message response.(status)
         (match errorData with Some d => d.(api_trackingId) | None => None end)
         (match errorData with Some d => d.(api_errors) | None => None end)).

(** Execute a single API request *)
Definition executeRequest (this : WebexSender) (options : RequestOptions)
  : Eff World Json :=
  let url := this.(sender_apiBaseUrl) ++ options.(path) in
  let headers :=
    [("Authorization", ("Bearer " ++ this.(sender_config).(token))%string);
     ("Content-Type", "application/json")]%list in
  response <- fetch (mkHttpRequest url options.(method) headers
                                   options.(body)) ;;
  if negb response.(ok) then
    error <- parseErrorResponse response ;;
    throw error
  else if response.(status) =? 204 then
    (* DELETE requests return 204 No Content *)
    ret JsonUndefined
  else response_json response.

(** Determine if a request should be retried *)
Definition shouldRetry (error : Error) (attempt : Z) : bool :=
  match error with
  | WebexApiRequestError _ statusCode _ _ =>
      existsb (Z.eqb statusCode) RETRY_STATUS_CODES
  | _ =>
      (* Retry network errors *)
      Js.includes (error_message error) "ECONNRESET"
      || Js.includes (error_message error) "ETIMEDOUT"
      || Js.includes (error_message error) "ENOTFOUND"
  end.

(** Calculate backoff delay with exponential backoff and jitter *)
Definition calculateBackoff (this : WebexSender) (attempt : Z)
  : Eff World Float.number :=
  let baseDelay :=
    Float.nearest this.(sender_retryOptions).(ro_retryDelayMs) in
  let exponentialDelay :=
    Float.mul baseDelay (Float.Math_pow2 (attempt - 1)) in
  r <- Math_random ;;
  let jitter :=
    Float.mul (Float.mul (Float.nearest r) (Float.nearest 0.3))
              exponentialDelay in
  (* Cap at 30 seconds *)
  ret (Float.min (Float.add exponentialDelay jitter) (Float.nearest 30000)).

(** [throw lastError || new Error('Request failed after retries')] *)
Definition throw_last {A : Type} (lastError : option Error)
  : Eff World A :=
  throw (match lastError with
         | Some e => e
         | None => GenericError "Request failed after retries"
         end).

(** The [while] loop of [request]; each turn of the loop uses one unit
    of [fuel]. *)
Fixpoint request_loop (fuel : nat) (this : WebexSender)
  (options : RequestOptions) (attempt : Z) (lastError : option Error)
  : Eff World Json :=
  match fuel with
  | O => throw OutOfFuel
  | S fuel' =>
      if attempt <=? this.(sender_retryOptions).(ro_maxRetries) then
        try_catch (executeRequest this options)
          (fun error =>
             let lastError := Some error in
             let attempt := attempt + 1 in
             if attempt >? this.(sender_retryOptions).(ro_maxRetries)
             then throw_last lastError
             else if negb (shouldRetry error attempt)
             then throw_last lastError
             else
               (* Exponential backoff with jitter *)
               delay <- calculateBackoff this attempt ;;
               sleep delay ;;;
               request_loop fuel' this options attempt lastError)
      else throw_last lastError
  end.

(** Make an API request with retry logic *)
Definition request (this : WebexSender) (options : RequestOptions)
  : Eff World Json :=
  request_loop (S (Z.to_nat (this.(sender_retryOptions).(ro_maxRetries) + 1)))
               this options 0 None.

(** Create a message via the Webex API *)
Definition createMessage (this : WebexSender)
  (request_ : CreateMessageRequest) : Eff World Json :=
  validateMessageRequest request_ ;;;
  request this (mkOptions POST "/messages" (Some (MessageBody request_))).

(** Send a message to Webex *)
Definition send (base64_decode : string -> option string)
  (this : WebexSender) (message : OpenClawOutboundMessage)
  : Eff World Json :=
  let request := buildMessageRequest base64_decode message in
  createMessage this request.

(** Send a text message to a room *)
Definition sendToRoom (this : WebexSender) (roomId text : string)
  (markdown : option string) : Eff World Json :=
  createMessage this
    (mkRequest (Some roomId) None None (Some text) markdown None None None).

(** Send a direct message to a person by ID *)
Definition sendDirectById (this : WebexSender) (personId text : string)
  (markdown : option string) : Eff World Json :=
  createMessage this
    (mkRequest None (Some personId) None (Some text) markdown None None None).

(** Send a direct message to a person by email *)
Definition sendDirectByEmail (this : WebexSender) (email text : string)
  (markdown : option string) : Eff World Json :=
  createMessage this
    (mkRequest None None (Some email) (Some text) markdown None None None).

(** Send a message with file attachment *)
Definition sendWithFile (this : WebexSender) (roomId text fileUrl : string)
  : Eff World Json :=
  createMessage this
    (mkRequest (Some roomId) None None (Some text) None (Some [fileUrl])
               None None).

(** Send a threaded reply *)
Definition sendReply (this : WebexSender) (roomId parentId text : string)
  (markdown : option string) : Eff World Json :=
  createMessage this
    (mkRequest (Some roomId) None None (Some text) markdown None None
               (Some parentId)).

(** Get a message by ID *)
Definition getMessage (this : WebexSender) (messageId : string)
  : Eff World Json :=
  request this (mkOptions GET ("/messages/" ++ messageId) None).

(** Delete a message by ID *)
Definition deleteMessage (this : WebexSender) (messageId : string)
  : Eff World unit :=
  request this (mkOptions DELETE ("/messages/" ++ messageId) None) ;;;
  ret tt.

End Send.

(* ================================================================== *)
(** * WebexWebhookHandler ([src/webhook.ts]) *)

Module Webhook.

Definition DEFAULT_API_BASE_URL : string := "https://webexapis.com/v1".

Record WebexWebhookHandler : Type := mkHandler {
  handler_config : WebexChannelConfig;
  handler_apiBaseUrl : string;
  botId : option string
}.

Definition new_WebexWebhookHandler (config : WebexChannelConfig)
  : WebexWebhookHandler :=
  mkHandler config (Js.or_else (apiBaseUrl config) DEFAULT_API_BASE_URL)
            None.

Definition json_headers (this : WebexWebhookHandler)
  : list (string * string) :=
  [("Authorization", ("Bearer " ++ this.(handler_config).(token))%string);
   ("Content-Type", "application/json")]%list.

Definition status_line (response : Response) : string :=
  string_of_number response.(status) ++ " " ++ response.(statusText).

(** The [id] property of a parsed reply. *)
Definition json_id (j : Json) : option string :=
  match j with
  | JsonMessage m => Some m.(msg_id)
  | JsonBotInfo b => Some b.(bot_id)
  | JsonWebhook w => Some w.(wh_id)
  | _ => None
  end.

(** Get bot information *)
Definition getBotInfo (this : WebexWebhookHandler) : Eff World Json :=
  response <- fetch (mkHttpRequest
                       (this.(handler_apiBaseUrl) ++ "/people/me")
                       GET (json_headers this) None) ;;
  if negb response.(ok) then
    throw (GenericError ("Failed to get bot info: " ++ status_line response))
  else response_json response.

(** Initialize the webhook handler (fetch bot info) *)
Definition initialize (this : WebexWebhookHandler)
  : Eff World WebexWebhookHandler :=
  botInfo <- getBotInfo this ;;
  ret (mkHandler this.(handler_config) this.(handler_apiBaseUrl)
                 (json_id botInfo)).

Definition getConfig (this : WebexWebhookHandler) : WebexChannelConfig :=
  this.(handler_config).

(** Get the bot ID (after initialization) *)
Definition getBotId (this : WebexWebhookHandler) : option string :=
  this.(botId).

(** [crypto.timingSafeEqual(Buffer.from(a), Buffer.from(b))]: raises a
    [RangeError] when the two buffers differ in byte length. *)
Definition timingSafeEqual (a b : string) : Result bool :=
  if (String.length a =? String.length b)%nat
  then Return (String.eqb a b)
  else Throw (RangeError "Input buffers must have the same byte length").

Section WithJSON.

(** [JSON.stringify(payload)] *)
Variable JSON_stringify : WebexWebhookPayload -> string.

(** Verify webhook signature using HMAC-SHA1 *)
Definition verifySignature (this : WebexWebhookHandler)
  (payload : WebexWebhookPayload) (signature : string)
  (originalBody : option string) : Result bool :=
  if negb (Js.truthy_opt this.(handler_config).(webhookSecret)) then
    Return true
  else
    let expectedSignature :=
      Crypto.createHmac_sha1_hex
        (Js.nullish this.(handler_config).(webhookSecret) "")
        (Js.nullish originalBody (JSON_stringify payload)) in
    timingSafeEqual signature expectedSignature.

End WithJSON.

(** Check if the sender is allowed based on DM policy *)
Definition isAllowedSender (this : WebexWebhookHandler)
  (data : WebexWebhookData) : bool :=
  match dmPolicy this.(handler_config) with
  | Some allow => true
  | Some deny => false
  | Some allowlisted =>
      match this.(handler_config).(allowFrom) with
      | None => false
      | Some [] => false
      | Some allowFrom =>
          Js.array_includes allowFrom data.(data_personId)
          || Js.array_includes allowFrom data.(data_personEmail)
      end
  | _ => false
  end.

(** [response.json() as Promise<WebexMessage>]: an unchecked cast; a reply
    of another shape reads as a message without content. *)
Definition as_message (j : Json) : WebexMessage :=
  match j with
  | JsonMessage m => m
  | _ => mkMessage "" "" group None None None "" "" None None "" None
  end.

(** Fetch full message details from Webex API *)
Definition fetchMessage (this : WebexWebhookHandler) (messageId : string)
  : Eff World WebexMessage :=
  response <- fetch (mkHttpRequest
                       (this.(handler_apiBaseUrl) ++ "/messages/" ++ messageId)
                       GET (json_headers this) None) ;;
  if negb response.(ok) then
    throw (GenericError ("Failed to fetch message: " ++ status_line response))
  else
    j <- response_json response ;;
    ret (as_message j).

(** Normalize a Webex message to OpenClaw envelope format *)
Definition normalizeMessage (message : WebexMessage) : OpenClawEnvelope :=
  let attachments : list OpenClawAttachment := [] in
  (* Convert file attachments *)
  let attachments :=
    match message.(msg_files) with
    | Some fs =>
        (attachments
           ++ List.map (fun fileUrl => mkOcAttachment file (Some fileUrl) None)
                       fs)%list
    | None => attachments
    end in
  (* Convert card attachments *)
  let attachments :=
    match message.(msg_attachments) with
    | Some atts =>
        (attachments
           ++ List.map (fun a => mkOcAttachment card None
                                   (Some a.(att_content))) atts)%list
    | None => attachments
    end in
  mkEnvelope
    message.(msg_id)
    "webex"
    message.(msg_roomId)
    message.(msg_personId)
    (Some message.(msg_personEmail))
    None   (* Would need additional API call to get *)
    false  (* Messages from bot are filtered out earlier *)
    message.(msg_text)
    message.(msg_markdown)
    (match attachments with [] => None | _ => Some attachments end)
    message.(msg_roomType)
    message.(msg_roomId)
    message.(msg_created)
    message.(msg_mentionedPeople)
    message.(msg_parentId)
    message.

Definition resource_eqb (a b : WebexWebhookResource) : bool :=
  match a, b with
  | messages, messages | memberships, memberships | rooms, rooms
  | attachmentActions, attachmentActions | meetings, meetings
  | recordings, recordings => true
  | _, _ => false
  end.

Definition event_eqb (a b : WebexWebhookEvent) : bool :=
  match a, b with
  | created, created | updated, updated | deleted, deleted
  | started, started | ended, ended => true
  | _, _ => false
  end.

Definition roomType_eqb (a b : RoomType) : bool :=
  match a, b with
  | direct, direct | group, group => true
  | _, _ => false
  end.

(** [personId === this.botId] *)
Definition is_bot (personId : string) (botId : option string) : bool :=
  match botId with
  | Some b => String.eqb personId b
  | None => false
  end.

(** Handle an incoming webhook request *)
Definition handleWebhook (this : WebexWebhookHandler)
  (payload : WebexWebhookPayload) : Eff World (option OpenClawEnvelope) :=
  (* Only handle message created events *)
  if negb (resource_eqb payload.(resource) messages)
     || negb (event_eqb payload.(event) created)
  then ret None
  (* Ignore messages from the bot itself *)
  else if is_bot payload.(data).(data_personId) this.(botId)
  then ret None
  (* Check DM policy *)
  else if roomType_eqb payload.(data).(data_roomType) direct
          && negb (isAllowedSender this payload.(data))
  then ret None
  else
    (* Fetch full message details (webhook only contains IDs) *)
    message <- fetchMessage this payload.(data).(data_id) ;;
    (* Normalize to OpenClaw envelope *)
    ret (Some (normalizeMessage message)).

(** [data.items] of a parsed reply. *)
Definition json_items (j : Json) : option (list WebexWebhook) :=
  match j with
  | JsonWebhooks items => Some items
  | _ => None
  end.

(** List all webhooks *)
Definition listWebhooks (this : WebexWebhookHandler)
  : Eff World (option (list WebexWebhook)) :=
  response <- fetch (mkHttpRequest (this.(handler_apiBaseUrl) ++ "/webhooks")
                       GET (json_headers this) None) ;;
  if negb response.(ok) then
    throw (GenericError ("Failed to list webhooks: " ++ status_line response))
  else
    data <- response_json response ;;
    ret (json_items data).

(** Create a webhook *)
Definition createWebhook (this : WebexWebhookHandler)
  (request : CreateWebhookRequest) : Eff World Json :=
  response <- fetch (mkHttpRequest (this.(handler_apiBaseUrl) ++ "/webhooks")
                       POST (json_headers this)
                       (Some (WebhookBody request))) ;;
  if negb response.(ok) then
    throw (GenericError ("Failed to create webhook: " ++ status_line response
                           ++ " - " ++ response.(resp_text)))
  else response_json response.

(** Delete a webhook *)
Definition deleteWebhook (this : WebexWebhookHandler) (webhookId : string)
  : Eff World unit :=
  response <- fetch (mkHttpRequest
                       (this.(handler_apiBaseUrl) ++ "/webhooks/" ++ webhookId)
                       DELETE
                       [("Authorization",
                         ("Bearer " ++ this.(handler_config).(token))%string)]
                       None) ;;
  if negb response.(ok) && negb (response.(status) =? 404) then
    throw (GenericError ("Failed to delete webhook: " ++ status_line response))
  else ret tt.

(** [for (const webhook of existing) { if (...) await deleteWebhook }] *)
Fixpoint delete_matching (this : WebexWebhookHandler) (targetUrl : string)
  (existing : list WebexWebhook) : Eff World unit :=
  match existing with
  | [] => ret tt
  | webhook :: rest =>
      (if String.eqb webhook.(wh_targetUrl) targetUrl
       then deleteWebhook this webhook.(wh_id)
       else ret tt) ;;;
      delete_matching this targetUrl rest
  end.

(** Register webhooks with Webex *)
Definition registerWebhooks (this : WebexWebhookHandler)
  : Eff World (list Json) :=
  (* First, list existing webhooks and remove duplicates *)
  existing <- listWebhooks this ;;
  let targetUrl := this.(handler_config).(webhookUrl) in
  (* Delete existing webhooks with the same target URL *)
  match existing with
  | None => throw (TypeError "existing is not iterable")
  | Some existing => delete_matching this targetUrl existing
  end ;;;
  (* Webhook for new messages *)
  messageCreatedWebhook <-
    createWebhook this
      (mkWebhookRequest "OpenClaw Message Handler" targetUrl messages created
                        this.(handler_config).(webhookSecret)) ;;
  ret [messageCreatedWebhook].

End Webhook.

(* ================================================================== *)
(** * WebexChannel ([src/channel.ts]) *)

Module Channel.

Record WebexChannel : Type := mkChannel {
  config : option WebexChannelConfig;
  sender : option Send.WebexSender;
  webhookHandler : option Webhook.WebexWebhookHandler;
  messageHandlers : list Handler;
  initialized : bool
}.

(** [new WebexChannel()] *)
Definition createWebexChannel : WebexChannel :=
  mkChannel None None None [] false.

(** The channel object together with the world it runs in. *)
Definition St : Type := (WebexChannel * World)%type.

Definition this_ : Eff St WebexChannel := fun s => (Return (fst s), s).

Definition assign (f : WebexChannel -> WebexChannel) : Eff St unit :=
  fun s => (Return tt, (f (fst s), snd s)).

(** Run a computation of a collaborator, which sees only the world. *)
Definition await {A : Type} (c : Eff World A) : Eff St A :=
  fun s =>
    match c (snd s) with
    | (r, w') => (r, (fst s, w'))
    end.

(** Default configuration values *)
Definition DEFAULT_dmPolicy : Js.Property DmPolicy :=
  Js.Held (Some allow).
Definition DEFAULT_apiBaseUrl : Js.Property string :=
  Js.Held (Some "https://webexapis.com/v1").
Definition DEFAULT_maxRetries : Js.Property Z := Js.Held (Some 3).
Definition DEFAULT_retryDelayMs : Js.Property Q :=
  Js.Held (Some (1000 : Q)).

(** [{ ...DEFAULT_CONFIG, ...config }]: a default is kept only for a key
    [config] lacks; a key [config] holds with the value [undefined] stays
    [undefined]. *)
Definition merge_defaults (config : WebexChannelConfig)
  : WebexChannelConfig :=
  mkConfig config.(token) config.(webhookUrl)
    (Js.spread DEFAULT_dmPolicy config.(own_dmPolicy))
    config.(allowFrom) config.(webhookSecret)
    (Js.spread DEFAULT_apiBaseUrl config.(own_apiBaseUrl))
    (Js.spread DEFAULT_maxRetries config.(own_maxRetries))
    (Js.spread DEFAULT_retryDelayMs config.(own_retryDelayMs)).

Definition policy_is_allowlisted (p : option DmPolicy) : bool :=
  match p with Some allowlisted => true | _ => false end.

Section WithPlatform.

(** Whether [new URL(s)] succeeds. *)
Variable URL_parses : string -> bool.
Variable base64_decode : string -> option string.

(** Validate configuration *)
Definition validateConfig (config : WebexChannelConfig) : Eff St unit :=
  if negb (Js.truthy config.(token)) then
    throw (GenericError "Webex channel config requires a token")
  else if negb (Js.truthy config.(webhookUrl)) then
    throw (GenericError "Webex channel config requires a webhookUrl")
  else if negb (Js.present (dmPolicy config)) then
    throw (GenericError "Webex channel config requires a dmPolicy")
  else if policy_is_allowlisted (dmPolicy config)
          && Send.no_length config.(allowFrom) then
    throw (GenericError
      ("Webex channel config requires allowFrom when dmPolicy is "
         ++ Js.quote "allowlisted"))
  else if negb (URL_parses config.(webhookUrl)) then
    throw (GenericError
      "Webex channel config webhookUrl must be a valid URL")
  else ret tt.

(** Initialize the channel with configuration *)
Definition initialize (config_ : WebexChannelConfig) : Eff St unit :=
  (* Validate required config *)
  validateConfig config_ ;;;
  (* Merge with defaults *)
  let merged := merge_defaults config_ in
  assign (fun c => mkChannel (Some merged) c.(sender) c.(webhookHandler)
                             c.(messageHandlers) c.(initialized)) ;;;
  (* Initialize sender *)
  assign (fun c => mkChannel c.(config) (Some (Send.new_WebexSender merged))
                             c.(webhookHandler) c.(messageHandlers)
                             c.(initialized)) ;;;
  (* Initialize webhook handler *)
  let handler := Webhook.new_WebexWebhookHandler merged in
  assign (fun c => mkChannel c.(config) c.(sender) (Some handler)
                             c.(messageHandlers) c.(initialized)) ;;;
  handler' <- await (Webhook.initialize handler) ;;
  assign (fun c => mkChannel c.(config) c.(sender) (Some handler')
                             c.(messageHandlers) c.(initialized)) ;;;
  assign (fun c => mkChannel c.(config) c.(sender) c.(webhookHandler)
                             c.(messageHandlers) true).

Definition not_initialized_error : Error :=
  GenericError "Webex channel is not initialized. Call initialize() first.".

(** Ensure the channel is initialized; returns the collaborators the
    callers go on to dereference. *)
Definition ensureInitialized
  : Eff St (Send.WebexSender * Webhook.WebexWebhookHandler) :=
  c <- this_ ;;
  match c.(initialized), c.(config), c.(sender), c.(webhookHandler) with
  | true, Some _, Some s, Some h => ret (s, h)
  | _, _, _, _ => throw not_initialized_error
  end.

(** Send a message *)
Definition send (message : OpenClawOutboundMessage) : Eff St Json :=
  sh <- ensureInitialized ;;
  await (Send.send base64_decode (fst sh) message).

(** Send a simple text message to a room *)
Definition sendText (roomId text : string) : Eff St Json :=
  send (mkOutbound roomId (mkContent (Some text) None None None) None).

(** Send a markdown message to a room *)
Definition sendMarkdown (roomId markdown : string) : Eff St Json :=
  send (mkOutbound roomId (mkContent None (Some markdown) None None) None).

(** Send a direct message to a person *)
Definition sendDirect (personIdOrEmail text : string) : Eff St Json :=
  send (mkOutbound personIdOrEmail
                   (mkContent (Some text) None None None) None).

(** Reply to a message in a thread *)
Definition reply (roomId parentId text : string) : Eff St Json :=
  send (mkOutbound roomId (mkContent (Some text) None None None)
                   (Some parentId)).

(** [arr.splice(arr.indexOf(x), 1)] when [x] occurs in [arr] *)
Fixpoint remove_first (x : Handler) (arr : list Handler) : list Handler :=
  match arr with
  | [] => []
  | y :: arr' => if Nat.eqb y x then arr' else y :: remove_first x arr'
  end.

(** Remove a message handler *)
Definition offMessage (handler : Handler) : Eff St unit :=
  assign (fun c => mkChannel c.(config) c.(sender) c.(webhookHandler)
                             (remove_first handler c.(messageHandlers))
                             c.(initialized)).

Fixpoint offMessage_each (handlers : list Handler) : Eff St unit :=
  match handlers with
  | [] => ret tt
  | handler :: rest => offMessage handler ;;; offMessage_each rest
  end.

(** [await handler(envelope)]: the subscriber takes the handlers it
    chooses off the channel, and returns or raises. *)
Definition run_subscriber (handler : Handler)
  (envelope : OpenClawEnvelope) : Eff St unit :=
  taken <- (fun s =>
              (Return (handler_unsubscribes (snd s) handler envelope),
               s)) ;;
  offMessage_each taken ;;;
  await (call_handler handler envelope).

(** [for (const handler of this.messageHandlers)] from position [index]
    on.  The iterator reads the array itself at every step, the array
    [offMessage] splices, and stops at the first position beyond its
    end; [fuel] bounds the number of steps.  An error raised by a
    handler is logged and dropped. *)
Fixpoint notify_from (fuel index : nat) (envelope : OpenClawEnvelope)
  : Eff St unit :=
  match fuel with
  | O => ret tt
  | S fuel' =>
      c <- this_ ;;
      match nth_error c.(messageHandlers) index with
      | None => ret tt
      | Some handler =>
          try_catch (run_subscriber handler envelope)
                    (fun _ => ret tt) ;;;
          notify_from fuel' (S index) envelope
      end
  end.

(** Notify all registered handlers of a new message.  The array does
    not grow while the loop runs, so its length at the start is fuel
    enough. *)
Definition notifyHandlers (envelope : OpenClawEnvelope) : Eff St unit :=
  c <- this_ ;;
  notify_from (List.length c.(messageHandlers)) 0 envelope.

(** Handle incoming webhook.  The call passes [signature] as a second
    argument to [WebexWebhookHandler.handleWebhook], which declares one
    parameter: the surplus argument is discarded. *)
Definition handleWebhook (payload : WebexWebhookPayload)
  (signature : option string) : Eff St (option OpenClawEnvelope) :=
  sh <- ensureInitialized ;;
  envelope <- await (Webhook.handleWebhook (snd sh) payload) ;;
  match envelope with
  | Some e =>
      (* Notify all registered handlers *)
      notifyHandlers e ;;;
      ret envelope
  | None => ret envelope
  end.

(** Register a message handler *)
Definition onMessage (handler : Handler) : Eff St unit :=
  assign (fun c => mkChannel c.(config) c.(sender) c.(webhookHandler)
                             (c.(messageHandlers) ++ [handler])%list
                             c.(initialized)).

(** Register webhooks with Webex *)
Definition registerWebhooks : Eff St (list Json) :=
  sh <- ensureInitialized ;;
  await (Webhook.registerWebhooks (snd sh)).

(** Get the sender instance for advanced operations *)
Definition getSender : Eff St Send.WebexSender :=
  sh <- ensureInitialized ;;
  ret (fst sh).

(** Get the webhook handler instance for advanced operations *)
Definition getWebhookHandler : Eff St Webhook.WebexWebhookHandler :=
  sh <- ensureInitialized ;;
  ret (snd sh).

(** Get the current configuration *)
Definition getConfig : Eff St (option WebexChannelConfig) :=
  c <- this_ ;;
  ret c.(config).

(** Check if the channel is initialized *)
Definition isInitialized : Eff St bool :=
  c <- this_ ;;
  ret c.(initialized).

(** Cleanup and shutdown *)
Definition shutdown : Eff St unit :=
  assign (fun c => mkChannel c.(config) c.(sender) c.(webhookHandler)
                             [] c.(initialized)) ;;;
  assign (fun c => mkChannel c.(config) None c.(webhookHandler)
                             c.(messageHandlers) c.(initialized)) ;;;
  assign (fun c => mkChannel c.(config) c.(sender) None
                             c.(messageHandlers) c.(initialized)) ;;;
  assign (fun c => mkChannel None c.(sender) c.(webhookHandler)
                             c.(messageHandlers) c.(initialized)) ;;;
  assign (fun c => mkChannel c.(config) c.(sender) c.(webhookHandler)
                             c.(messageHandlers) false).

End WithPlatform.

End Channel.

(* ================================================================== *)
(** * A concrete platform and the inputs of the test suites *)

Module Node.

Local Open Scope list_scope.

(** The value of a character of the base64 alphabet (either variant). *)
Definition b64_value (c : ascii) : option Z :=
  let n := Z.of_N (N_of_ascii c) in
  if (65 <=? n) && (n <=? 90) then Some (n - 65)
  else if (97 <=? n) && (n <=? 122) then Some (n - 71)
  else if (48 <=? n) && (n <=? 57) then Some (n + 4)
  else if (n =? 43) || (n =? 45) then Some 62
  else if (n =? 47) || (n =? 95) then Some 63
  else None.

(** Characters outside the alphabet are skipped; padding ends the input. *)
Fixpoint sextets (s : string) : list Z :=
  match s with
  | EmptyString => []
  | String c s' =>
      if Ascii.eqb c "="%char then []
      else match b64_value c with
           | Some v => v :: sextets s'
           | None => sextets s'
           end
  end.

Fixpoint octets (vs : list Z) : list Z :=
  match vs with
  | a :: b :: c :: d :: rest =>
      let n := Z.shiftl a 18 + Z.shiftl b 12 + Z.shiftl c 6 + d in
      Z.shiftr n 16 :: Z.land (Z.shiftr n 8) 0xFF :: Z.land n 0xFF
        :: octets rest
  | [a; b; c] =>
      let n := Z.shiftl a 18 + Z.shiftl b 12 + Z.shiftl c 6 in
      [Z.shiftr n 16; Z.land (Z.shiftr n 8) 0xFF]
  | [a; b] => [Z.shiftr (Z.shiftl a 18 + Z.shiftl b 12) 16]
  | _ => []
  end.

Definition string_of_bytes (bs : list Z) : string :=
  string_of_list_ascii (List.map (fun b => ascii_of_N (Z.to_N b)) bs).

(** [Buffer.from(s, 'base64').toString('utf-8')], which never throws.
    The bytes are kept as they are; the replacement of malformed UTF-8
    leaves ASCII substrings unchanged. *)
Definition base64_decode (s : string) : option string :=
  Some (string_of_bytes (octets (sextets s))).

Definition URL_parses (s : string) : bool :=
  Js.startsWith s "https://" || Js.startsWith s "http://".

Definition resource_name (r : WebexWebhookResource) : string :=
  match r with
  | messages => "messages" | memberships => "memberships"
  | rooms => "rooms" | attachmentActions => "attachmentActions"
  | meetings => "meetings" | recordings => "recordings"
  end.

Definition event_name (e : WebexWebhookEvent) : string :=
  match e with
  | created => "created" | updated => "updated" | deleted => "deleted"
  | started => "started" | ended => "ended"
  end.

Definition roomType_name (t : RoomType) : string :=
  match t with direct => "direct" | group => "group" end.

Definition member (k v : string) : string :=
  (Js.quote k ++ ":" ++ Js.quote v)%string.

Fixpoint join (l : list string) : string :=
  match l with
  | [] => ""
  | [x] => x
  | x :: l' => (x ++ "," ++ join l')%string
  end.

(** [JSON.stringify] of a payload whose properties were created in the
    order of the interface and whose strings need no escaping. *)
Definition JSON_stringify (p : WebexWebhookPayload) : string :=
  let d := p.(data) in
  ("{" ++ join
     [member "id" p.(payload_id); member "name" p.(payload_name);
      member "targetUrl" p.(payload_targetUrl);
      member "resource" (resource_name p.(resource));
      member "event" (event_name p.(event));
      member "orgId" p.(payload_orgId);
      member "createdBy" p.(payload_createdBy);
      member "appId" p.(payload_appId);
      member "ownedBy" p.(payload_ownedBy);
      member "status" p.(payload_status);
      member "created" p.(payload_created);
      member "actorId" p.(payload_actorId);
      (Js.quote "data" ++ ":{" ++ join
         [member "id" d.(data_id); member "roomId" d.(data_roomId);
          member "roomType" (roomType_name d.(data_roomType));
          member "personId" d.(data_personId);
          member "personEmail" d.(data_personEmail);
          member "created" d.(data_created)] ++ "}")%string]
   ++ "}")%string.

End Node.

Module Fixtures.

Local Open Scope list_scope.

(** [config] of the test suites *)
Definition config : WebexChannelConfig :=
  mkConfig "test-token" "https://example.com/webhook"
           (Js.Held (Some allow)) None None
           Js.Missing Js.Missing Js.Missing.

Definition with_secret (c : WebexChannelConfig) (secret : string) :=
  mkConfig c.(token) c.(webhookUrl) c.(own_dmPolicy) c.(allowFrom)
           (Some secret) c.(own_apiBaseUrl) c.(own_maxRetries)
           c.(own_retryDelayMs).

Definition with_retries (c : WebexChannelConfig) (n : Z) (ms : Q) :=
  mkConfig c.(token) c.(webhookUrl) c.(own_dmPolicy) c.(allowFrom)
           c.(webhookSecret) c.(own_apiBaseUrl)
           (Js.Held (Some n)) (Js.Held (Some ms)).

Definition with_policy (c : WebexChannelConfig) (p : DmPolicy)
  (allowFrom : option (list string)) :=
  mkConfig c.(token) c.(webhookUrl) (Js.Held (Some p)) allowFrom
           c.(webhookSecret) c.(own_apiBaseUrl) c.(own_maxRetries)
           c.(own_retryDelayMs).

Definition mockBotInfo : BotInfo :=
  mkBotInfo "bot-123" "Test Bot" ["bot@example.com"].

Definition mockMessage : WebexMessage :=
  mkMessage "message-123" "room-123" group (Some "Hello, world!")
            (Some "**Hello**, world!") None "person-123"
            "person@example.com" None None "2024-01-01T00:00:00.000Z" None.

(** [createPayload()] with the room type as a parameter *)
Definition createPayload (roomType : RoomType) : WebexWebhookPayload :=
  mkPayload "webhook-id" "Test Webhook" "https://example.com/webhook"
            messages created "org-123" "user-123" "app-123" "creator"
            "active" "2024-01-01T00:00:00.000Z" "actor-123"
            (mkData "message-123" "room-123" roomType "person-123"
                    "person@example.com" "2024-01-01T00:00:00.000Z").

(** [createMockResponse(data, ok, status, statusText)] *)
Definition createMockResponse (data : Json) (ok : bool) (status : Z)
  (statusText : string) : FetchOutcome :=
  Resolved (mkResponse ok status statusText (Return data) "").

Definition ok_response (data : Json) : FetchOutcome :=
  createMockResponse data true 200 "OK".

Definition error_response (message : string) (status : Z)
  (statusText : string) : FetchOutcome :=
  createMockResponse (JsonApiError (mkApiError (Some message) None None))
                     false status statusText.

(** A world whose network answers the k-th [fetch] with the k-th entry of
    [script], whose [Math.random] yields [r], and whose subscribers never
    raise. *)
Definition world_of (script : list FetchOutcome) (r : Q) : World :=
  mkWorld
    (fun k _ => nth k script (Rejected (GenericError "no reply scripted")))
    [] (fun _ => r) 0%nat [] (fun _ _ => false) (fun _ _ => []) [] [].

Definition handler_with (c : WebexChannelConfig)
  : Webhook.WebexWebhookHandler :=
  Webhook.mkHandler c
    (Js.or_else (apiBaseUrl c) Webhook.DEFAULT_API_BASE_URL)
    (Some "bot-123").

Definition outbound_text (to text : string) : OpenClawOutboundMessage :=
  mkOutbound to (mkContent (Some text) None None None) None.

(** [fastSender] of the retry tests, with the retry budget as a
    parameter *)
Definition fastSender (maxRetries : Z) : Send.WebexSender :=
  Send.new_WebexSender (with_retries config maxRetries 10).


Definition post_message : RequestOptions :=
  mkOptions POST "/messages"
    (Some (MessageBody
             (mkRequest (Some "room-123") None None (Some "Hello!") None
                        None None None))).

Definition rate_limited : FetchOutcome :=
  error_response "Rate limited" 429 "Too Many Requests".

Definition bad_request : FetchOutcome :=
  error_response "Bad Request" 400 "Bad Request".

Definition allowlistHandler : Webhook.WebexWebhookHandler :=
  handler_with (with_policy config allowlisted (Some ["person-123"])).

Definition invalidSignature : string :=
  "0000000000000000000000000000000000000000".

Definition no_content : OutboundContent := mkContent None None None None.

Definition no_content_reply : FetchOutcome :=
  Resolved (mkResponse true 204 "No Content"
              (Throw (GenericError "Unexpected end of JSON input")) "").

Definition stale_webhook : WebexWebhook :=
  mkWebhook "old-webhook-1" "Old Webhook" "https://example.com/webhook"
            messages created.

Definition other_webhook : WebexWebhook :=
  mkWebhook "other-webhook" "Other" "https://other.example.com/hook"
            messages created.

Definition new_webhook : WebexWebhook :=
  mkWebhook "new-webhook" "OpenClaw Message Handler"
            "https://example.com/webhook" messages created.

(** Replies to listing, one deletion and the creation. *)
Definition register_script : list FetchOutcome :=
  [ok_response (JsonWebhooks [other_webhook; stale_webhook]);
   createMockResponse JsonOther true 204 "No Content";
   ok_response (JsonWebhook new_webhook)].

Definition secretHandler : Webhook.WebexWebhookHandler :=
  handler_with (with_secret config "test-secret").

(** A channel initialized with [c] in a world that answers the identity
    request with [mockBotInfo] and later requests from [script]. *)
Definition initialized_channel (c : WebexChannelConfig)
  (script : list FetchOutcome) (r : Q) : Channel.St :=
  snd (Channel.initialize Node.URL_parses c
         (Channel.createWebexChannel,
          world_of (ok_response (JsonBotInfo mockBotInfo) :: script) r)).

End Fixtures.

(* ================================================================== *)
(** * Vocabulary of the specification *)

Module Spec.

Local Open Scope list_scope.

(** The three target classes of a provider request. *)
Inductive Target : Type :=
| RoomTarget (id : string)
| PersonByIdTarget (id : string)
| PersonByEmailTarget (email : string).

(** The target of a request that names exactly one. *)
Definition target_of (r : CreateMessageRequest) : option Target :=
  match r.(roomId), r.(toPersonId), r.(toPersonEmail) with
  | Some id, None, None => Some (RoomTarget id)
  | None, Some id, None => Some (PersonByIdTarget id)
  | None, None, Some e => Some (PersonByEmailTarget e)
  | _, _, _ => None
  end.

(** A network-level failure: an error that is not an API error and whose
    message names a connection reset, a timeout or a DNS failure. *)
Definition network_failure (e : Error) : Prop :=
  match e with
  | WebexApiRequestError _ _ _ _ => False
  | _ =>
      Js.includes (error_message e) "ECONNRESET" = true
      \/ Js.includes (error_message e) "ETIMEDOUT" = true
      \/ Js.includes (error_message e) "ENOTFOUND" = true
  end.

(** An API error carrying one of the transient HTTP statuses. *)
Definition transient_status (e : Error) : Prop :=
  match e with
  | WebexApiRequestError _ statusCode _ _ =>
      statusCode = 429 \/ statusCode = 502 \/ statusCode = 503
      \/ statusCode = 504
  | _ => False
  end.

Definition transient (e : Error) : Prop :=
  transient_status e \/ network_failure e.

(** The request [executeRequest] hands to [fetch]. *)
Definition http_request (this : Send.WebexSender) (options : RequestOptions)
  : HttpRequest :=
  mkHttpRequest
    (this.(Send.sender_apiBaseUrl) ++ options.(path))%string
    options.(method)
    [("Authorization",
      ("Bearer " ++ this.(Send.sender_config).(token))%string);
     ("Content-Type", "application/json")]
    options.(body).

(** The outcome the network holds for the k-th call from world [w] on. *)
Definition outcome (w : World) (req : HttpRequest) (k : nat) : FetchOutcome :=
  net w (List.length (fetched w) + k)%nat req.

(** The error [parseErrorResponse] builds from a reply. *)
Definition api_error_of (r : Response) : Error :=
  let errorData := Send.as_api_error r.(json) in
  WebexApiRequestError
    (Js.or_else
       (match errorData with Some d => d.(api_message) | None => None end)
       ("HTTP " ++ string_of_number r.(status) ++ ": " ++ r.(statusText)))
    r.(status)
    (match errorData with Some d => d.(api_trackingId) | None => None end)
    (match errorData with Some d => d.(api_errors) | None => None end).

(** What one call of the executor yields on a given network outcome. *)
Definition attempt_result (o : FetchOutcome) : Result Json :=
  match o with
  | Rejected e => Throw e
  | Resolved r =>
      if negb r.(ok) then Throw (api_error_of r)
      else if r.(status) =? 204 then Return JsonUndefined
      else r.(json)
  end.

(** The world after one [fetch] of [req]. *)
Definition after_fetch (req : HttpRequest) (w : World) : World :=
  mkWorld (net w) (req :: fetched w) (random_source w) (drawn w)
          (slept w) (handler_fails w) (handler_unsubscribes w)
          (notified w) (Fetched req :: events w).

(** The world after the backoff delay of a retry has been computed and
    slept. *)
Definition after_backoff (this : Send.WebexSender) (attempt : Z) (w : World)
  : World :=
  snd ((delay <- Send.calculateBackoff this attempt ;; sleep delay) w).

(** A network outcome on which the executor fails with a transient error. *)
Definition transient_failure (o : FetchOutcome) : Prop :=
  exists e, attempt_result o = Throw e /\ transient e.

(** The number of executor calls made between two worlds. *)
Definition calls (w w' : World) : Z :=
  Z.of_nat (List.length (fetched w')) - Z.of_nat (List.length (fetched w)).

(** What [handleWebhook] does once a notification has passed its filters:
    fetch the full message and normalize it. *)
Definition enrich (this : Webhook.WebexWebhookHandler)
  (payload : WebexWebhookPayload) : Eff World (option OpenClawEnvelope) :=
  message <- Webhook.fetchMessage this payload.(data).(data_id) ;;
  ret (Some (Webhook.normalizeMessage message)).

(** A notification that passes the resource, event and self filters. *)
Definition accepted (this : Webhook.WebexWebhookHandler)
  (payload : WebexWebhookPayload) : Prop :=
  payload.(resource) = messages /\ payload.(event) = created
  /\ this.(Webhook.botId) <> Some payload.(data).(data_personId).

(** The sender's person id or email is in a non-empty allow-list. *)
Definition sender_listed (this : Webhook.WebexWebhookHandler)
  (payload : WebexWebhookPayload) : Prop :=
  exists allowFrom_,
    this.(Webhook.handler_config).(allowFrom) = Some allowFrom_
    /\ allowFrom_ <> []
    /\ (In payload.(data).(data_personId) allowFrom_
        \/ In payload.(data).(data_personEmail) allowFrom_).

(** The claim that a signature of the wrong length makes [verifySignature]
    return [false]. *)
Definition length_mismatch_returns_false
  (JSON_stringify : WebexWebhookPayload -> string)
  (this : Webhook.WebexWebhookHandler) (payload : WebexWebhookPayload)
  (signature : string) (originalBody : option string) : Prop :=
  Js.truthy_opt this.(Webhook.handler_config).(webhookSecret) = true ->
  String.length signature <>
    String.length
      (Crypto.createHmac_sha1_hex
         (Js.nullish this.(Webhook.handler_config).(webhookSecret) "")
         (Js.nullish originalBody (JSON_stringify payload))) ->
  Webhook.verifySignature JSON_stringify this payload signature originalBody
  = Return false.



(** The operations a client performs on a channel. *)
Inductive Op : Type :=
| OpInitialize (config : WebexChannelConfig)
| OpOnMessage (h : Handler)
| OpOffMessage (h : Handler)
| OpHandleWebhook (payload : WebexWebhookPayload) (signature : option string)
| OpSend (message : OpenClawOutboundMessage)
| OpRegisterWebhooks
| OpShutdown.

Definition registers (h : Handler) (op : Op) : Prop :=
  match op with
  | OpOnMessage h' => h' = h
  | _ => False
  end.

Section WithPlatform.

Variable URL_parses : string -> bool.
Variable base64_decode : string -> option string.

(** The state a channel and its world are left in by an operation,
    whether it returns or throws. *)
Definition run_op (op : Op) (s : Channel.St) : Channel.St :=
  match op with
  | OpInitialize config => snd (Channel.initialize URL_parses config s)
  | OpOnMessage h => snd (Channel.onMessage h s)
  | OpOffMessage h => snd (Channel.offMessage h s)
  | OpHandleWebhook payload signature =>
      snd (Channel.handleWebhook payload signature s)
  | OpSend message => snd (Channel.send base64_decode message s)
  | OpRegisterWebhooks => snd (Channel.registerWebhooks s)
  | OpShutdown => snd (Channel.shutdown s)
  end.

Definition run_ops (ops : list Op) (s : Channel.St) : Channel.St :=
  fold_left (fun s op => run_op op s) ops s.

End WithPlatform.

(** A computation that invokes no subscriber. *)
Definition quiet {A : Type} (c : Eff World A) : Prop :=
  forall w, notified (snd (c w)) = notified w.

(** A computation after which the subscribers take the same handlers off
    as before. *)
Definition same_subscribers {A : Type} (c : Eff World A) : Prop :=
  forall w, handler_unsubscribes (snd (c w)) = handler_unsubscribes w.

(** Between two worlds, subscriber [h] has not been invoked. *)
Definition not_invoked (h : Handler) (w w' : World) : Prop :=
  exists new,
    notified w' = new ++ notified w /\ ~ In h (List.map fst new).

(** The delays slept between two worlds, newest first. *)
Definition slept_since (w w' : World) : list Float.number :=
  firstn (List.length (slept w') - List.length (slept w)) (slept w').

(** The requests fetched between two worlds, newest first. *)
Definition fetched_since (w w' : World) : list HttpRequest :=
  firstn (List.length (fetched w') - List.length (fetched w)) (fetched w').

(** Everything that happened between two worlds, newest first. *)
Definition events_since (w w' : World) : list Event :=
  firstn (List.length (events w') - List.length (events w)) (events w').

(** The events of [n] calls of [req] with the delays [ds] (newest first)
    slept between them, newest first: after each call but the last, a
    draw of [Math.random] and then a sleep. *)
Fixpoint retry_events (req : HttpRequest) (n : nat)
  (ds : list Float.number) : list Event :=
  match n, ds with
  | O, _ => []
  | S O, _ => [Fetched req]
  | S n', d :: ds' => Fetched req :: Slept d :: Drew :: retry_events req n' ds'
  | S _, [] => [Fetched req]
  end.

(** What a run of the retry loop from attempt counter [a] leaves behind:
    [n] calls, all of the same request, a sleep and a random draw between
    two consecutive calls and none after the last, and the outcome of the
    last call as its result. *)
Definition loop_trace (this : Send.WebexSender) (options : RequestOptions)
  (a : Z) (w : World) (r : Result Json) (w' : World) (n : nat) : Prop :=
  net w' = net w
  /\ fetched w' = List.repeat (http_request this options) n ++ fetched w
  /\ (Z.of_nat n
      <= Z.max 0 (this.(Send.sender_retryOptions).(ro_maxRetries) + 1 - a))
  /\ (a <= this.(Send.sender_retryOptions).(ro_maxRetries) -> (1 <= n)%nat)
  /\ (exists ds,
        slept w' = ds ++ slept w
        /\ List.length ds = Nat.pred n
        /\ Forall (fun d => Float.exceeds d (Float.nearest 30000) = false) ds
        /\ events w' = (retry_events (http_request this options) n ds
                         ++ events w)%list)
  /\ drawn w' = (drawn w + Nat.pred n)%nat
  /\ notified w' = notified w
  /\ ((1 <= n)%nat ->
      r = attempt_result (outcome w (http_request this options) (Nat.pred n))).

(** The request [fetchMessage] sends for a notification. *)
Definition message_request (this : Webhook.WebexWebhookHandler)
  (payload : WebexWebhookPayload) : HttpRequest :=
  mkHttpRequest
    (this.(Webhook.handler_apiBaseUrl) ++ "/messages/"
       ++ payload.(data).(data_id))%string
    GET (Webhook.json_headers this) None.

(** The requests of [registerWebhooks]. *)
Definition list_request (this : Webhook.WebexWebhookHandler) : HttpRequest :=
  mkHttpRequest (this.(Webhook.handler_apiBaseUrl) ++ "/webhooks")%string
    GET (Webhook.json_headers this) None.

Definition delete_request (this : Webhook.WebexWebhookHandler)
  (webhookId : string) : HttpRequest :=
  mkHttpRequest
    (this.(Webhook.handler_apiBaseUrl) ++ "/webhooks/" ++ webhookId)%string
    DELETE
    [("Authorization",
      ("Bearer " ++ this.(Webhook.handler_config).(token))%string)]
    None.

Definition create_request (this : Webhook.WebexWebhookHandler)
  : HttpRequest :=
  mkHttpRequest (this.(Webhook.handler_apiBaseUrl) ++ "/webhooks")%string
    POST (Webhook.json_headers this)
    (Some (WebhookBody
             (mkWebhookRequest "OpenClaw Message Handler"
                this.(Webhook.handler_config).(webhookUrl)
                messages created
                this.(Webhook.handler_config).(webhookSecret)))).

(** The request of [getBotInfo]. *)
Definition identity_request (this : Webhook.WebexWebhookHandler)
  : HttpRequest :=
  mkHttpRequest (this.(Webhook.handler_apiBaseUrl) ++ "/people/me")%string
    GET (Webhook.json_headers this) None.

(** The existing webhooks [registerWebhooks] has to delete: those with
    the configured target URL. *)
Definition duplicates (this : Webhook.WebexWebhookHandler)
  (existing : list WebexWebhook) : list WebexWebhook :=
  List.filter
    (fun webhook =>
       String.eqb webhook.(wh_targetUrl)
                  this.(Webhook.handler_config).(webhookUrl))
    existing.

(** The webhooks the provider lists in answer to the first call from [w]. *)
Definition listed (this : Webhook.WebexWebhookHandler) (w : World)
  : list WebexWebhook :=
  match outcome w (list_request this) 0 with
  | Resolved r =>
      match json r with
      | Return (JsonWebhooks items) => items
      | _ => []
      end
  | Rejected _ => []
  end.

Definition is_delete (q : HttpRequest) : bool :=
  match q.(http_method) with DELETE => true | _ => false end.

Definition is_post (q : HttpRequest) : bool :=
  match q.(http_method) with POST => true | _ => false end.

(** A configuration [validateConfig] accepts: a token, a webhook URL that
    parses, a policy, and an allow-list when the policy asks for one. *)
Definition config_accepted (URL_parses : string -> bool)
  (config : WebexChannelConfig) : bool :=
  Js.truthy config.(token)
  && Js.truthy config.(webhookUrl)
  && Js.present (dmPolicy config)
  && negb (Channel.policy_is_allowlisted (dmPolicy config)
           && Send.no_length config.(allowFrom))
  && URL_parses config.(webhookUrl).

(** The subscribers invoked between two worlds. *)
Definition invoked_since (w w' : World) : list Handler :=
  List.map fst
    (firstn (List.length (notified w') - List.length (notified w))
            (notified w')).

End Spec.

(** The scenario of the shutdown test: a channel is initialized, subscriber 7
    registers, and the channel is shut down and initialized again before a
    webhook arrives. *)
Module Scenario.

Local Open Scope list_scope.

Definition script : list FetchOutcome :=
  [Fixtures.ok_response (JsonBotInfo Fixtures.mockBotInfo);
   Fixtures.ok_response (JsonBotInfo Fixtures.mockBotInfo);
   Fixtures.ok_response (JsonMessage Fixtures.mockMessage)].

Definition run (ops : list Spec.Op) (s : Channel.St) : Channel.St :=
  Spec.run_ops Node.URL_parses Node.base64_decode ops s.

Definition fresh : Channel.St :=
  (Channel.createWebexChannel, Fixtures.world_of script (1 # 2)).

Definition subscribed : Channel.St :=
  run [Spec.OpInitialize Fixtures.config; Spec.OpOnMessage 7%nat] fresh.

Definition webhook : Spec.Op :=
  Spec.OpHandleWebhook (Fixtures.createPayload group) None.

(** An initialized channel with subscribers 7 and 8, in a world where
    subscriber 7 raises and the next reply is a message. *)
Definition two_subscribers : Channel.St :=
  run [Spec.OpInitialize Fixtures.config; Spec.OpOnMessage 7%nat;
       Spec.OpOnMessage 8%nat]
    (Channel.createWebexChannel,
     mkWorld
       (fun k _ =>
          nth k [Fixtures.ok_response (JsonBotInfo Fixtures.mockBotInfo);
                 Fixtures.ok_response (JsonMessage Fixtures.mockMessage)]
              (Rejected (GenericError "no reply scripted")))
       [] (fun _ => 1 # 2) 0%nat [] (fun h _ => Nat.eqb h 7)
       (fun _ _ => []) [] []).

(** The same channel in a world where no subscriber raises and
    subscriber 7 takes itself off the channel when it is called. *)
Definition self_unsubscribing : Channel.St :=
  run [Spec.OpInitialize Fixtures.config; Spec.OpOnMessage 7%nat;
       Spec.OpOnMessage 8%nat]
    (Channel.createWebexChannel,
     mkWorld
       (fun k _ =>
          nth k [Fixtures.ok_response (JsonBotInfo Fixtures.mockBotInfo);
                 Fixtures.ok_response (JsonMessage Fixtures.mockMessage)]
              (Rejected (GenericError "no reply scripted")))
       [] (fun _ => 1 # 2) 0%nat [] (fun _ _ => false)
       (fun h _ => if Nat.eqb h 7 then [7%nat] else []) [] []).

Definition missing_token : WebexChannelConfig :=
  mkConfig "" "https://example.com/webhook" (Js.Held (Some allow))
           None None Js.Missing Js.Missing Js.Missing.

(** [{ ...config, maxRetries: undefined, retryDelayMs: undefined }] *)
Definition undefined_retries : WebexChannelConfig :=
  mkConfig Fixtures.config.(token) Fixtures.config.(webhookUrl)
           Fixtures.config.(own_dmPolicy) Fixtures.config.(allowFrom)
           Fixtures.config.(webhookSecret)
           Fixtures.config.(own_apiBaseUrl)
           (Js.Held None) (Js.Held None).

End Scenario.

(* ================================================================== *)
(** * The plugin's webhook router ([src/channel-plugin.ts]) *)

(** [String.prototype.trim] on the UTF-8 bytes of a string: the white space
    and line terminators of ECMAScript are the bytes 9 to 13 and 32, and the
    encodings of U+00A0, U+1680, U+2000 to U+200A, U+2028, U+2029, U+202F,
    U+205F, U+3000 and U+FEFF. *)
Module Trim.

Definition code (a : ascii) : Z := Z.of_N (N_of_ascii a).

Definition ws1 (a : ascii) : bool :=
  ((9 <=? code a) && (code a <=? 13)) || (code a =? 32).

Definition ws2 (a b : ascii) : bool :=
  (code a =? 0xC2) && (code b =? 0xA0).

Definition ws3 (a b c : ascii) : bool :=
  ((code a =? 0xE1) && (code b =? 0x9A) && (code c =? 0x80))
  || ((code a =? 0xE2) && (code b =? 0x80)
      && (((0x80 <=? code c) && (code c <=? 0x8A))
          || (code c =? 0xA8) || (code c =? 0xA9) || (code c =? 0xAF)))
  || ((code a =? 0xE2) && (code b =? 0x81) && (code c =? 0x9F))
  || ((code a =? 0xE3) && (code b =? 0x80) && (code c =? 0x80))
  || ((code a =? 0xEF) && (code b =? 0xBB) && (code c =? 0xBF)).

(** What follows one leading white-space character, if there is one. *)
Definition after_space (s : string) : option string :=
  match s with
  | String a r1 =>
      if ws1 a then Some r1
      else match r1 with
           | String b r2 =>
               if ws2 a b then Some r2
               else match r2 with
                    | String c r3 => if ws3 a b c then Some r3 else None
                    | EmptyString => None
                    end
           | EmptyString => None
           end
  | EmptyString => None
  end.

(** The same on a reversed string: what precedes one trailing white-space
    character. *)
Definition before_space_rev (s : string) : option string :=
  match s with
  | String a r1 =>
      if ws1 a then Some r1
      else match r1 with
           | String b r2 =>
               if ws2 b a then Some r2
               else match r2 with
                    | String c r3 => if ws3 c b a then Some r3 else None
                    | EmptyString => None
                    end
           | EmptyString => None
           end
  | EmptyString => None
  end.

Fixpoint strip (step : string -> option string) (fuel : nat) (s : string)
  : string :=
  match fuel with
  | O => s
  | S fuel' =>
      match step s with
      | Some rest => strip step fuel' rest
      | None => s
      end
  end.

Definition reverse (s : string) : string :=
  string_of_list_ascii (List.rev (list_ascii_of_string s)).

Definition trimStart (s : string) : string :=
  strip after_space (String.length s) s.

Definition trimEnd (s : string) : string :=
  reverse (strip before_space_rev (String.length s) (reverse s)).

(** [s.trim()] *)
Definition trim (s : string) : string := trimEnd (trimStart s).

End Trim.

Module Plugin.

Local Open Scope eff_scope.

(** [s.endsWith(suffix)] *)
Definition endsWith (s suffix : string) : bool :=
  Js.startsWith (Trim.reverse s) (Trim.reverse suffix).

(** [s.slice(0, -1)] on a string whose last character is one byte *)
Definition drop_last (s : string) : string :=
  match Trim.reverse s with
  | String _ r => Trim.reverse r
  | EmptyString => EmptyString
  end.

(** The length test asks whether anything follows the leading slash,
    which is the same counted in bytes as in UTF-16 code units. *)
Definition normalizeWebhookPath (raw : string) : string :=
  let trimmed := Trim.trim raw in
  if negb (Js.truthy trimmed) then "/"
  else
    let withSlash :=
      if Js.startsWith trimmed "/" then trimmed else "/" ++ trimmed in
    if (1 <? String.length withSlash)%nat && endsWith withSlash "/"
    then drop_last withSlash
    else withSlash.


(** ** The registry of webhook targets *)

(** Resolved account configuration *)
Record ResolvedWebexAccount : Type := mkAccount {
  accountId : string;
  account_name : option string;
  enabled : bool;
  configured : bool;
  account_config : WebexChannelConfig;
  account_token : option string;
  account_webhookUrl : option string
}.

(** Webhook target registration for HTTP handler *)
Record WebexWebhookTarget : Type := mkTarget {
  account : ResolvedWebexAccount;
  target_config : WebexChannelConfig;
  webhookHandler : Webhook.WebexWebhookHandler
}.

(** A JavaScript [Map] with string keys, in insertion order. *)
Section JsMap.

Context {V : Type}.

(** [m.set(key, v)]: an existing key keeps its place. *)
Fixpoint map_set (key : string) (v : V) (m : list (string * V))
  : list (string * V) :=
  match m with
  | [] => [(key, v)]
  | (k, x) :: m' =>
      if String.eqb k key then (k, v) :: m'
      else (k, x) :: map_set key v m'
  end.

(** [m.get(key)] *)
Fixpoint map_get (key : string) (m : list (string * V)) : option V :=
  match m with
  | [] => None
  | (k, x) :: m' => if String.eqb k key then Some x else map_get key m'
  end.

(** [m.delete(key)] *)
Definition map_delete (key : string) (m : list (string * V))
  : list (string * V) :=
  List.filter (fun kx => negb (String.eqb (fst kx) key)) m.

End JsMap.

(** ** The host's runtime *)

(** The host's configuration object, known by reference only;
    [EmptyObject] is the literal [{}]. *)
Inductive HostConfig : Type :=
| EmptyObject
| LoadedConfig (ref : nat).

(** The context payload for the host's message pipeline. *)
Record CtxPayload : Type := mkCtx {
  ctx_Body : string;
  ctx_RawBody : string;
  ctx_CommandBody : string;
  ctx_From : string;
  ctx_To : string;
  ctx_SessionKey : string;
  ctx_AccountId : string;
  ctx_ChatType : RoomType;
  ctx_SenderName : string;
  ctx_SenderId : string;
  ctx_Provider : string;
  ctx_Surface : string;
  ctx_MessageSid : string;
  ctx_Timestamp : string;
  ctx_OriginatingChannel : string;
  ctx_OriginatingTo : string;
  ctx_MessageThreadId : option string
}.

(** What the host hands to [deliver]. *)
Record ReplyPayload : Type := mkReply {
  reply_text : option string;
  reply_media : option string
}.

(** The argument of the host's dispatch function; [onError], which only
    logs, and the empty [replyOptions] are left out. *)
Record DispatchArgs : Type := mkDispatch {
  dispatch_ctx : CtxPayload;
  dispatch_cfg : HostConfig;
  deliver : ReplyPayload -> Eff World unit
}.

(** The two functions of the host's runtime the plugin looks for; each may
    be missing.  They are the host's code: any computation over the
    world, which may raise, but which does not call back into this
    module.  [loadConfig] may return [null] or [undefined]. *)
Record PluginRuntime : Type := mkRuntime {
  loadConfig : option (Eff World (option HostConfig));
  dispatchReplyWithBufferedBlockDispatcher
    : option (DispatchArgs -> Eff World unit)
}.

(** The two variables of the module. *)
Record State : Type := mkState {
  pluginRuntime : option PluginRuntime;
  webhookTargets : list (string * WebexWebhookTarget)
}.

Definition initial_state : State := mkState None [].

(** The module's variables together with the world. *)
Definition St : Type := (State * World)%type.

Definition get_state : Eff St State := fun s => (Return (fst s), s).

Definition assign (f : State -> State) : Eff St unit :=
  fun s => (Return tt, (f (fst s), snd s)).

(** Run a computation that sees only the world. *)
Definition await {A : Type} (c : Eff World A) : Eff St A :=
  fun s =>
    match c (snd s) with
    | (r, w') => (r, (fst s, w'))
    end.

Definition setPluginRuntime (runtime : PluginRuntime) : Eff St unit :=
  assign (fun st => mkState (Some runtime) st.(webhookTargets)).

(** Registers a target and returns the closure that removes the key it
    was stored under. *)
Definition registerWebexWebhookTarget (path_ : string)
  (target : WebexWebhookTarget) : Eff St (Eff St unit) :=
  let key := normalizeWebhookPath path_ in
  assign (fun st => mkState st.(pluginRuntime)
                            (map_set key target st.(webhookTargets))) ;;;
  ret (assign (fun st => mkState st.(pluginRuntime)
                                 (map_delete key st.(webhookTargets)))).

(** ** HTTP requests and responses *)

(** How a request stream ends: with ['end'] or with ['error']. *)
Inductive StreamEnd : Type :=
| stream_end
| stream_error (message : string).

(** An incoming request: its line, its headers (names in lower case, as
    Node gives them) and its body as the stream delivers it, chunk by
    chunk. *)
Record IncomingMessage : Type := mkIncoming {
  req_url : option string;
  req_method : option string;
  req_headers : list (string * string);
  req_chunks : list string;
  req_close : StreamEnd
}.

(** A response that has not been sent yet: its status code, the calls of
    [setHeader] so far (oldest first) and the body [end] was called
    with. *)
Record ServerResponse : Type := mkServerResponse {
  statusCode : Z;
  header_calls : list (string * string);
  ended : option string
}.

Definition fresh_response : ServerResponse := mkServerResponse 200 [] None.

Definition set_statusCode (code : Z) (res : ServerResponse)
  : ServerResponse :=
  mkServerResponse code res.(header_calls) res.(ended).

Definition setHeader (name value : string) (res : ServerResponse)
  : ServerResponse :=
  mkServerResponse res.(statusCode)
                   (res.(header_calls) ++ [(name, value)])%list
                   res.(ended).

Definition res_end (chunk : string) (res : ServerResponse)
  : ServerResponse :=
  mkServerResponse res.(statusCode) res.(header_calls) (Some chunk).

(** [req.headers[name]] *)
Fixpoint header (name : string) (hs : list (string * string))
  : option string :=
  match hs with
  | [] => None
  | (n, v) :: hs' => if String.eqb n name then Some v else header name hs'
  end.

(** The value of a body that parsed, by the shape the handler casts it
    to: a notification of the declared type, or any other JSON value,
    given with what [handleWebhook] does when it reads that value. *)
Inductive ParsedBody : Type :=
| PayloadValue (payload : WebexWebhookPayload)
| OtherValue (run : Webhook.WebexWebhookHandler
                    -> Eff World (option OpenClawEnvelope)).

(** What [readJsonBody] resolves with: [{ ok: true, value }] or
    [{ ok: false, error }]. *)
Inductive BodyResult : Type :=
| body_value (value : ParsedBody)
| body_error (error : string).

(** What [startAccount] is called with; [log], which only logs, and the
    unused [runtime] are left out.  [setStatus] is the host's code, under
    the same assumption as the runtime; it is given the account id and
    the base URL. *)
Record StartContext : Type := mkStartContext {
  ctx_account : ResolvedWebexAccount;
  setStatus : string -> string -> Eff World unit
}.

Definition string_opt_eqb (o : option string) (s : string) : bool :=
  match o with Some x => String.eqb x s | None => false end.

Section WithPlatform.

(** [new URL(u, "http://localhost").pathname], [None] when the
    constructor throws. *)
Variable URL_pathname : string -> option string.
(** [JSON.parse] of the bytes read as UTF-8, [None] when it throws. *)
Variable JSON_parse : string -> option ParsedBody.
Variable base64_decode : string -> option string.

(** The promise of [readJsonBody] is settled by the first event that
    resolves it: a chunk that takes the total over [maxBytes], the end
    of the stream or its error.  The error always has a message, so
    the fallback of [body.error ?? "invalid payload"] is never taken. *)
Fixpoint read_events (maxBytes total : Z) (chunks incoming : list string)
  (close : StreamEnd) : BodyResult :=
  match incoming with
  | chunk :: rest =>
      let total := total + Z.of_nat (String.length chunk) in
      if total >? maxBytes then body_error "payload too large"
      else read_events maxBytes total (chunks ++ [chunk])%list rest close
  | [] =>
      match close with
      | stream_end =>
          match JSON_parse (String.concat "" chunks) with
          | Some parsed => body_value parsed
          | None => body_error "invalid json"
          end
      | stream_error message => body_error message
      end
  end.

Definition readJsonBody (req : IncomingMessage) (maxBytes : Z)
  : BodyResult :=
  read_events maxBytes 0 [] req.(req_chunks) req.(req_close).

(** The context payload built from an envelope. *)
Definition ctxPayload (account_ : ResolvedWebexAccount)
  (envelope : OpenClawEnvelope) : CtxPayload :=
  mkCtx
    (Js.nullish envelope.(env_text) "")
    (Js.nullish envelope.(env_text) "")
    (Js.nullish envelope.(env_text) "")
    ("webex:" ++ envelope.(env_author_id))
    ("webex:" ++ envelope.(env_conversationId))
    ("agent:main:webex:" ++ envelope.(env_conversationId))
    account_.(accountId)
    (match envelope.(env_roomType) with
     | direct => direct
     | group => group
     end)
    (Js.nullish envelope.(env_author_displayName)
       (Js.nullish envelope.(env_author_email) envelope.(env_author_id)))
    envelope.(env_author_id)
    "webex"
    "webex"
    envelope.(env_id)
    envelope.(env_timestamp)
    "webex"
    ("webex:" ++ envelope.(env_conversationId))
    envelope.(env_parentId).

(** The [deliver] callback handed to the host. *)
Definition deliver_reply (sender : Send.WebexSender)
  (envelope : OpenClawEnvelope) (payload : ReplyPayload)
  : Eff World unit :=
  if Js.truthy_opt payload.(reply_text) then
    Send.send base64_decode sender
      (mkOutbound envelope.(env_conversationId)
         (mkContent payload.(reply_text) None None None)
         envelope.(env_parentId)) ;;;
    ret tt
  else ret tt.

Definition ok_body : string := "{" ++ Js.quote "ok" ++ ":true}".

Definition error_body : string :=
  "{" ++ Js.quote "error" ++ ":" ++ Js.quote "Internal error" ++ "}".

(** The handler [createWebhookHandler] returns.  It yields whether the
    request was handled, and the response as it leaves it. *)
Definition createWebhookHandler (req : IncomingMessage)
  (res : ServerResponse) : Eff St (bool * ServerResponse) :=
  match URL_pathname (Js.nullish req.(req_url) "/") with
  | None => throw (TypeError "Invalid URL")
  | Some pathname =>
    let path_ := normalizeWebhookPath pathname in
    (* Check if path matches /webhooks/webex/* *)
    if negb (Js.startsWith path_ "/webhooks/webex/") then ret (false, res)
    else
      st <- get_state ;;
      match map_get path_ st.(webhookTargets) with
      | None => ret (false, res)
      | Some target =>
        if negb (string_opt_eqb req.(req_method) "POST") then
          ret (true,
               res_end "Method Not Allowed"
                 (setHeader "Allow" "POST" (set_statusCode 405 res)))
        else
          match readJsonBody req (1024 * 1024) with
          | body_error error =>
              ret (true,
                   res_end error
                     (set_statusCode
                        (if String.eqb error "payload too large"
                         then 413 else 400) res))
          | body_value value =>
            let account_ := target.(account) in
            let webhookHandler_ := target.(webhookHandler) in
            try_catch
              (let signature := header "x-spark-signature"
                                       req.(req_headers) in
               envelope <-
                 await match value with
                       | PayloadValue payload =>
                           Webhook.handleWebhook webhookHandler_ payload
                       | OtherValue run => run webhookHandler_
                       end ;;
               st' <- get_state ;;
               match envelope, st'.(pluginRuntime) with
               | Some envelope, Some runtime =>
                   cfg <- await match runtime.(loadConfig) with
                                | Some load =>
                                    loaded <- load ;;
                                    ret (Js.nullish loaded EmptyObject)
                                | None => ret EmptyObject
                                end ;;
                   match runtime.(dispatchReplyWithBufferedBlockDispatcher)
                   with
                   | Some dispatchReply =>
                       (* Create a sender for replies *)
                       let sender :=
                         Send.new_WebexSender
                           account_.(account_config) in
                       await (dispatchReply
                                (mkDispatch
                                   (ctxPayload account_ envelope) cfg
                                   (deliver_reply sender envelope)))
                   | None => ret tt
                   end
               | _, _ => ret tt
               end ;;;
               ret (true,
                    res_end ok_body
                      (setHeader "Content-Type" "application/json"
                         (set_statusCode 200 res))))
              (fun err =>
                 ret (true,
                      res_end error_body
                        (setHeader "Content-Type" "application/json"
                           (set_statusCode 500 res))))
          end
      end
  end.

(** [gateway.startAccount]: returns the cleanup function. *)
Definition startAccount (ctx : StartContext) : Eff St (Eff St unit) :=
  let account_ := ctx.(ctx_account) in
  await (ctx.(setStatus) account_.(accountId)
           (Js.nullish (apiBaseUrl account_.(account_config))
                       "https://webexapis.com/v1")) ;;;
  (* Initialize webhook handler *)
  webhookHandler_ <-
    await (Webhook.initialize
             (Webhook.new_WebexWebhookHandler
                account_.(account_config))) ;;
  (* Register webhooks with Webex *)
  try_catch
    (await (Webhook.registerWebhooks webhookHandler_) ;;; ret tt)
    (fun err => ret tt) ;;;
  (* Register webhook target for HTTP handler *)
  let webhookPath := "/webhooks/webex/" ++ account_.(accountId) in
  unregister <-
    registerWebexWebhookTarget webhookPath
      (mkTarget account_ account_.(account_config) webhookHandler_) ;;
  (* Return cleanup function *)
  ret unregister.

End WithPlatform.

End Plugin.

(** Examples for the router: a host, an account and requests. *)
Module Host.

Local Open Scope list_scope.

Fixpoint before_query (s : string) : string :=
  match s with
  | EmptyString => EmptyString
  | String c s' =>
      if Ascii.eqb c "?" then EmptyString else String c (before_query s')
  end.

(** The pathname of a request target in origin form, without dot
    segments or characters that need escaping. *)
Definition URL_pathname (u : string) : option string :=
  Some (before_query u).

Definition notification : WebexWebhookPayload :=
  Fixtures.createPayload group.

(** [JSON.parse] on the bodies of the examples: the serialized
    notification, the literal [null], on which reading a property
    raises, and text that is not JSON. *)
Definition JSON_parse (body_ : string) : option Plugin.ParsedBody :=
  if String.eqb body_ (Node.JSON_stringify notification) then
    Some (Plugin.PayloadValue notification)
  else if String.eqb body_ "null" then
    Some (Plugin.OtherValue
            (fun _ => throw (TypeError
               "Cannot read properties of null (reading 'resource')")))
  else None.

Definition account : Plugin.ResolvedWebexAccount :=
  Plugin.mkAccount "default" None true true Fixtures.config
                   (Some "test-token")
                   (Some "https://example.com/webhook").

Definition target : Plugin.WebexWebhookTarget :=
  Plugin.mkTarget account Fixtures.config
                  (Fixtures.handler_with Fixtures.config).

(** A host that answers every message with one reply. *)
Definition runtime : Plugin.PluginRuntime :=
  Plugin.mkRuntime
    None
    (Some (fun args =>
             Plugin.deliver args (Plugin.mkReply (Some "pong") None))).

Definition serving : Plugin.State :=
  Plugin.mkState (Some runtime) [("/webhooks/webex/default", target)].

Definition request (method_ : string) (chunks : list string)
  : Plugin.IncomingMessage :=
  Plugin.mkIncoming (Some "/webhooks/webex/default/?source=webex")
                    (Some method_) [] chunks Plugin.stream_end.

(** The serialized notification, cut into two chunks. *)
Definition notification_chunks : list string :=
  let body_ := Node.JSON_stringify notification in
  [String.substring 0 10 body_;
   String.substring 10 (String.length body_ - 10) body_].

Definition start_context : Plugin.StartContext :=
  Plugin.mkStartContext account (fun _ _ => ret tt).

End Host.
Example sha1_abc :
  Crypto.hex (Crypto.sha1 (Crypto.bytes_of_string "abc"))
  = "a9993e364706816aba3e25717850c26c9cd0d89d".
Proof. vm_compute. reflexivity. Qed.

Example sha1_empty :
  Crypto.hex (Crypto.sha1 []) = "da39a3ee5e6b4b0d3255bfef95601890afd80709".
Proof. vm_compute. reflexivity. Qed.

Example hmac_sha1_fox :
  Crypto.createHmac_sha1_hex "key" "The quick brown fox jumps over the lazy dog"
  = "de7c9b85b8b78aa6bc8a7a36f70a90701c9db4d9".
Proof. vm_compute. reflexivity. Qed.

Example hmac_sha1_empty :
  Crypto.createHmac_sha1_hex "" "" = "fbdb1d1b18aa6c08324b7d64b71fb76370690e1d".
Proof. vm_compute. reflexivity. Qed.

(* ================================================================== *)
(** * Signature verification *)

Lemma hex_length (bs : Crypto.bytes) :
  String.length (Crypto.hex bs) = (2 * List.length bs)%nat.
Proof.
  induction bs as [| b bs IH]; simpl; [reflexivity |].
  rewrite IH. lia.
Qed.

Lemma sha1_length (msg : Crypto.bytes) :
  List.length (Crypto.sha1 msg) = 20%nat.
Proof.
  unfold Crypto.sha1.
  destruct (Crypto.blocks _ _ Crypto.initial) as [[[[a b] c] d] e].
  rewrite !length_app. reflexivity.
Qed.

(** The hex digest of an HMAC-SHA1 is always 40 characters long. *)
Lemma createHmac_sha1_hex_length (secret body : string) :
  String.length (Crypto.createHmac_sha1_hex secret body) = 40%nat.
Proof.
  unfold Crypto.createHmac_sha1_hex, Crypto.hmac_sha1.
  rewrite hex_length, sha1_length. reflexivity.
Qed.

Lemma timingSafeEqual_same_length (a b : string) :
  String.length a = String.length b ->
  Webhook.timingSafeEqual a b = Return (String.eqb a b).
Proof.
  intros H. unfold Webhook.timingSafeEqual.
  rewrite H, Nat.eqb_refl. reflexivity.
Qed.

Lemma timingSafeEqual_other_length (a b : string) :
  String.length a <> String.length b ->
  Webhook.timingSafeEqual a b
  = Throw (RangeError "Input buffers must have the same byte length").
Proof.
  intros H. unfold Webhook.timingSafeEqual.
  apply Nat.eqb_neq in H. rewrite H. reflexivity.
Qed.

Section VerifySignature.

Variable JSON_stringify : WebexWebhookPayload -> string.
Variable this : Webhook.WebexWebhookHandler.
Variable payload : WebexWebhookPayload.

Let secret := this.(Webhook.handler_config).(webhookSecret).

(** Without a secret every signature verifies. *)
Lemma verifySignature_no_secret (signature : string) (body : option string) :
  Js.truthy_opt secret = false ->
  Webhook.verifySignature JSON_stringify this payload signature body
  = Return true.
Proof.
  intros H. unfold Webhook.verifySignature. fold secret.
  rewrite H. reflexivity.
Qed.

(** With a secret, a signature of the digest's length verifies exactly
    when it is the digest. *)
Lemma verifySignature_same_length (signature : string) (body : option string) :
  Js.truthy_opt secret = true ->
  String.length signature = 40%nat ->
  Webhook.verifySignature JSON_stringify this payload signature body
  = Return (String.eqb signature
              (Crypto.createHmac_sha1_hex (Js.nullish secret "")
                 (Js.nullish body (JSON_stringify payload)))).
Proof.
  intros H L. unfold Webhook.verifySignature. fold secret.
  rewrite H. simpl. apply timingSafeEqual_same_length.
  rewrite createHmac_sha1_hex_length. exact L.
Qed.

(** C2, as amended: with a secret configured, a signature whose byte length
    differs from that of the hex-encoded HMAC-SHA1 of the body does not
    make [verifySignature] return [false]: the constant-time comparison
    raises a [RangeError], which escapes to the caller.  The mismatch never
    passes: the call does not return [true]. *)
Theorem verifySignature_length_mismatch_throws
  (signature : string) (body : option string) :
  Js.truthy_opt secret = true ->
  String.length signature <>
    String.length (Crypto.createHmac_sha1_hex (Js.nullish secret "")
                     (Js.nullish body (JSON_stringify payload))) ->
  Webhook.verifySignature JSON_stringify this payload signature body
  = Throw (RangeError "Input buffers must have the same byte length")
  /\ Webhook.verifySignature JSON_stringify this payload signature body
     <> Return true.
Proof.
  intros H L.
  assert (E : Webhook.verifySignature JSON_stringify this payload signature body
              = Throw (RangeError "Input buffers must have the same byte length")).
  { unfold Webhook.verifySignature. fold secret. rewrite H. simpl.
    apply timingSafeEqual_other_length. exact L. }
  split; [exact E | rewrite E; discriminate].
Qed.

End VerifySignature.

Lemma verifySignature_length_mismatch_throws_witness :
  Webhook.verifySignature Node.JSON_stringify Fixtures.secretHandler
    (Fixtures.createPayload group) "short" None
  = Throw (RangeError "Input buffers must have the same byte length")
  /\ Webhook.verifySignature Node.JSON_stringify Fixtures.secretHandler
       (Fixtures.createPayload group) "short" None
     <> Return true.
Proof.
  apply (verifySignature_length_mismatch_throws Node.JSON_stringify
           Fixtures.secretHandler (Fixtures.createPayload group) "short" None).
  - reflexivity.
  - vm_compute. lia.
Defined.

(** C2, as stated, fails on the signature ["short"]: the call raises instead
    of returning [false]. *)
Lemma verifySignature_short_does_not_return_false :
  ~ Spec.length_mismatch_returns_false Node.JSON_stringify Fixtures.secretHandler
      (Fixtures.createPayload group) "short" None.
Proof.
  unfold Spec.length_mismatch_returns_false. intros H.
  assert (E : Webhook.verifySignature Node.JSON_stringify Fixtures.secretHandler
                (Fixtures.createPayload group) "short" None = Return false).
  { apply H; [reflexivity |].
    rewrite createHmac_sha1_hex_length. simpl. lia. }
  vm_compute in E. discriminate E.
Qed.

(* ================================================================== *)
(** * The retry loop of [WebexSender.request] *)

Lemma includes_orb_true (a b c : bool) :
  a || b || c = true <-> a = true \/ b = true \/ c = true.
Proof. destruct a, b, c; simpl; intuition congruence. Qed.

(** The retry predicate accepts exactly the transient errors. *)
Lemma shouldRetry_transient (e : Error) (attempt : Z) :
  Send.shouldRetry e attempt = true <-> Spec.transient e.
Proof.
  unfold Spec.transient.
  destruct e as [m | m statusCode t d | m | m | m |]; simpl;
    try (rewrite includes_orb_true; tauto).
  - rewrite !orb_true_iff, !Z.eqb_eq. intuition congruence.
  - intuition congruence.
Qed.


Section Retry.

Variable this : Send.WebexSender.
Variable options : RequestOptions.

Let M := this.(Send.sender_retryOptions).(ro_maxRetries).
Let req := Spec.http_request this options.

(** One call of the executor performs one [fetch] and classifies its
    outcome. *)
Lemma executeRequest_run (w : World) :
  Send.executeRequest this options w
  = (Spec.attempt_result (Spec.outcome w req 0), Spec.after_fetch req w).
Proof.
  unfold Spec.outcome. rewrite Nat.add_0_r.
  unfold Send.executeRequest, bind, fetch. fold (Spec.http_request this options).
  fold req. destruct (net w (List.length (fetched w)) req) as [r | e];
    simpl; [| reflexivity].
  destruct (ok r); simpl.
  - destruct (status r =? 204); reflexivity.
  - unfold Send.parseErrorResponse, try_catch, bind, response_json, ret, throw,
      Spec.api_error_of.
    destruct (json r) as [j | e]; reflexivity.
Qed.

Lemma after_backoff_net (a : Z) (w : World) :
  net (Spec.after_backoff this a w) = net w.
Proof. reflexivity. Qed.

Lemma after_backoff_fetched (a : Z) (w : World) :
  fetched (Spec.after_backoff this a w) = fetched w.
Proof. reflexivity. Qed.

(** ** One turn of the loop *)

Lemma loop_returns (fuel : nat) (a : Z) (last : option Error) (w : World)
  (j : Json) :
  a <= M ->
  Spec.attempt_result (Spec.outcome w req 0) = Return j ->
  Send.request_loop (S fuel) this options a last w
  = (Return j, Spec.after_fetch req w).
Proof.
  intros Ha Hj. simpl. fold M.
  apply Z.leb_le in Ha. rewrite Ha.
  unfold try_catch. rewrite executeRequest_run, Hj. reflexivity.
Qed.

Lemma loop_exhausted (fuel : nat) (a : Z) (last : option Error) (w : World)
  (e : Error) :
  a = M ->
  Spec.attempt_result (Spec.outcome w req 0) = Throw e ->
  Send.request_loop (S fuel) this options a last w
  = (Throw e, Spec.after_fetch req w).
Proof.
  intros Ha He. simpl. fold M. subst a.
  rewrite Z.leb_refl.
  unfold try_catch. rewrite executeRequest_run, He.
  assert (G : (M + 1 >? M) = true) by (apply Z.gtb_lt; lia).
  rewrite G. reflexivity.
Qed.


Lemma loop_retries (fuel : nat) (a : Z) (last : option Error) (w : World)
  (e : Error) :
  a + 1 <= M ->
  Spec.attempt_result (Spec.outcome w req 0) = Throw e ->
  Spec.transient e ->
  Send.request_loop (S fuel) this options a last w
  = Send.request_loop fuel this options (a + 1) (Some e)
      (Spec.after_backoff this (a + 1) (Spec.after_fetch req w)).
Proof.
  intros Ha He Ht. simpl. fold M.
  assert (L : (a <=? M) = true) by (apply Z.leb_le; lia). rewrite L.
  unfold try_catch. rewrite executeRequest_run, He.
  assert (G : (a + 1 >? M) = false)
    by (rewrite Z.gtb_ltb; apply Z.ltb_ge; lia).
  rewrite G.
  apply (shouldRetry_transient e (a + 1)) in Ht. rewrite Ht.
  reflexivity.
Qed.

(** ** Several turns *)

Lemma outcome_after_retry (a : Z) (w : World) (k : nat) :
  Spec.outcome (Spec.after_backoff this a (Spec.after_fetch req w)) req k
  = Spec.outcome w req (S k).
Proof.
  unfold Spec.outcome. simpl. f_equal. lia.
Qed.

(** [k] transient failures in a row, within the budget, bring the loop
    [k] turns further, with [k] calls made. *)
Lemma loop_skips_transient (k : nat) :
  forall (fuel : nat) (a : Z) (last : option Error) (w : World),
    a + Z.of_nat k <= M ->
    (forall i, (i < k)%nat ->
               Spec.transient_failure (Spec.outcome w req i)) ->
    exists last' w',
      Send.request_loop (k + fuel) this options a last w
      = Send.request_loop fuel this options (a + Z.of_nat k) last' w'
      /\ net w' = net w
      /\ (forall i, Spec.outcome w' req i = Spec.outcome w req (k + i))
      /\ Spec.calls w w' = Z.of_nat k.
Proof.
  induction k as [| k IH]; intros fuel a last w Ha Hk.
  - exists last, w. simpl. rewrite Z.add_0_r.
    repeat split; try reflexivity. unfold Spec.calls. lia.
  - destruct (Hk 0%nat ltac:(lia)) as (e & He & Ht).
    change (S k + fuel)%nat with (S (k + fuel)).
    rewrite (loop_retries _ _ _ _ e) by (try assumption; lia).
    set (w1 := Spec.after_backoff this (a + 1) (Spec.after_fetch req w)).
    destruct (IH fuel (a + 1) (Some e) w1) as (last' & w' & E & N & O & C).
    + lia.
    + intros i Hi. unfold w1. rewrite outcome_after_retry.
      apply Hk. lia.
    + exists last', w'. rewrite E.
      replace (a + 1 + Z.of_nat k) with (a + Z.of_nat (S k)) by lia.
      repeat split.
      * rewrite N. reflexivity.
      * intros i. rewrite O. unfold w1. rewrite outcome_after_retry.
        f_equal.
      * unfold Spec.calls in *. unfold w1 in C. simpl in C.
        simpl. lia.
Qed.

(** The loop never undoes a call. *)
Lemma loop_fetched_grows (fuel : nat) :
  forall (a : Z) (last : option Error) (w : World),
    (List.length (fetched w)
     <= List.length
          (fetched (snd (Send.request_loop fuel this options a last w))))%nat.
Proof.
  induction fuel as [| fuel IH]; intros a last w; simpl; [lia |].
  destruct (a <=? _); [| destruct last; simpl; lia].
  unfold try_catch. rewrite executeRequest_run.
  destruct (Spec.attempt_result _) as [j | e]; simpl; [lia |].
  destruct (a + 1 >? _); [simpl; lia |].
  destruct (Send.shouldRetry e (a + 1)); simpl; [| lia].
  specialize (IH (a + 1) (Some e)
                (Spec.after_backoff this (a + 1) (Spec.after_fetch req w))).
  rewrite after_backoff_fetched in IH. simpl in IH.
  etransitivity; [| exact IH]. lia.
Qed.

Lemma loop_calls_nonneg (fuel : nat) (a : Z) (last : option Error)
  (w : World) :
  0 <= Spec.calls w (snd (Send.request_loop fuel this options a last w)).
Proof.
  unfold Spec.calls.
  pose proof (loop_fetched_grows fuel a last w). lia.
Qed.

(** A turn taken within the budget makes at least one call. *)
Lemma loop_calls_pos (fuel : nat) (a : Z) (last : option Error) (w : World) :
  a <= M ->
  1 <= Spec.calls w (snd (Send.request_loop (S fuel) this options a last w)).
Proof.
  intros Ha. unfold Spec.calls. simpl. fold M.
  apply Z.leb_le in Ha. rewrite Ha.
  unfold try_catch. rewrite executeRequest_run.
  destruct (Spec.attempt_result _) as [j | e]; cbn [snd];
    [unfold Spec.after_fetch; cbn [fetched List.length]; lia |].
  destruct (a + 1 >? M);
    [unfold Spec.after_fetch; cbn [throw snd fetched List.length Send.throw_last];
     lia |].
  destruct (Send.shouldRetry e (a + 1));
    [| unfold Spec.after_fetch;
       cbn [negb throw snd fetched List.length Send.throw_last]; lia].
  cbn [negb].
  pose proof (loop_fetched_grows fuel (a + 1) (Some e)
                (Spec.after_backoff this (a + 1) (Spec.after_fetch req w)))
    as G.
  rewrite after_backoff_fetched in G.
  unfold Spec.after_fetch in G at 1. cbn [fetched List.length] in G.
  change ((delay <- Send.calculateBackoff this (a + 1);;
           sleep delay;;; Send.request_loop fuel this options (a + 1) (Some e))
            (Spec.after_fetch req w))
    with (Send.request_loop fuel this options (a + 1) (Some e)
            (Spec.after_backoff this (a + 1) (Spec.after_fetch req w))).
  lia.
Qed.

(** ** The fuel [request] gives the loop is enough: more changes nothing *)

Lemma request_loop_more_fuel (extra fuel : nat) :
  forall (a : Z) (last : option Error) (w : World),
    (Z.to_nat (M + 1 - a) < fuel)%nat ->
    Send.request_loop (fuel + extra) this options a last w
    = Send.request_loop fuel this options a last w.
Proof.
  induction fuel as [| fuel IH]; intros a last w Hf; [lia |].
  cbn [Nat.add Send.request_loop]. fold M.
  destruct (a <=? M) eqn:Ha; [| reflexivity].
  apply Z.leb_le in Ha.
  unfold try_catch. rewrite executeRequest_run.
  destruct (Spec.attempt_result _) as [j | e]; [reflexivity |].
  destruct (a + 1 >? M); [reflexivity |].
  destruct (Send.shouldRetry e (a + 1)); [| reflexivity].
  cbn [negb].
  change ((delay <- Send.calculateBackoff this (a + 1);;
           sleep delay;;;
           Send.request_loop (fuel + extra) this options (a + 1) (Some e))
            (Spec.after_fetch req w))
    with (Send.request_loop (fuel + extra) this options (a + 1) (Some e)
            (Spec.after_backoff this (a + 1) (Spec.after_fetch req w))).
  rewrite IH by lia. reflexivity.
Qed.

Lemma request_fuel_enough (extra : nat) (w : World) :
  Send.request_loop (S (Z.to_nat (M + 1)) + extra) this options 0 None w
  = Send.request this options w.
Proof.
  unfold Send.request. fold M.
  apply request_loop_more_fuel. rewrite Z.sub_0_r. lia.
Qed.

(** ** The retry count *)

(** C4: with [maxRetries = M], after [N] consecutive transient failures
    followed by a success the executor has been called [N + 1] times and
    the request returns, when [N <= M]; when more than [M] consecutive
    failures are transient the executor is called exactly [M + 1] times
    and the error of the last call is raised. *)
Theorem retry_count (w : World) (N : nat) :
  0 <= M ->
  (forall k, (k < N)%nat -> Spec.transient_failure (Spec.outcome w req k)) ->
  (Z.of_nat N <= M ->
   forall j, Spec.attempt_result (Spec.outcome w req N) = Return j ->
     exists w', Send.request this options w = (Return j, w')
                /\ Spec.calls w w' = Z.of_nat N + 1)
  /\ (M < Z.of_nat N ->
      exists e w',
        Spec.attempt_result (Spec.outcome w req (Z.to_nat M)) = Throw e
        /\ Send.request this options w = (Throw e, w')
        /\ Spec.calls w w' = M + 1).
Proof.
  intros HM Hfail. split.
  - intros HN j Hj. unfold Send.request. fold M.
    replace (S (Z.to_nat (M + 1)))
      with (N + S (Z.to_nat (M + 1) - N))%nat by lia.
    destruct (loop_skips_transient N (S (Z.to_nat (M + 1) - N)) 0 None w)
      as (last' & w' & E & _ & O & C); [lia | exact Hfail |].
    rewrite E. exists (Spec.after_fetch req w').
    rewrite (loop_returns _ _ _ _ j);
      [| lia | rewrite O, Nat.add_0_r; exact Hj].
    split; [reflexivity |].
    unfold Spec.calls in *. unfold Spec.after_fetch.
    cbn [fetched List.length]. lia.
  - intros HN. unfold Send.request. fold M.
    replace (S (Z.to_nat (M + 1))) with (Z.to_nat M + 2)%nat by lia.
    destruct (loop_skips_transient (Z.to_nat M) 2 0 None w)
      as (last' & w' & E & _ & O & C);
      [lia | intros i Hi; apply Hfail; lia |].
    destruct (Hfail (Z.to_nat M) ltac:(lia)) as (e & He & _).
    exists e, (Spec.after_fetch req w'). split; [exact He |].
    rewrite E.
    rewrite (loop_exhausted _ _ _ _ e);
      [| lia | rewrite O, Nat.add_0_r; exact He].
    split; [reflexivity |].
    unfold Spec.calls in *. unfold Spec.after_fetch.
    cbn [fetched List.length]. lia.
Qed.

(** ** The retry decision *)




End Retry.

Lemma rate_limited_transient :
  Spec.transient_failure Fixtures.rate_limited.
Proof.
  exists (WebexApiRequestError "Rate limited" 429 None None).
  split; [reflexivity | left; simpl; auto].
Qed.

Lemma retry_count_witness :
  (exists w',
      Send.request (Fixtures.fastSender 3) Fixtures.post_message
        (Fixtures.world_of
           [Fixtures.rate_limited;
            Fixtures.ok_response (JsonMessage Fixtures.mockMessage)] (1 # 2))
      = (Return (JsonMessage Fixtures.mockMessage), w')
      /\ Spec.calls
           (Fixtures.world_of
              [Fixtures.rate_limited;
               Fixtures.ok_response (JsonMessage Fixtures.mockMessage)] (1 # 2))
           w' = 2)
  /\ (exists e w',
         Send.request (Fixtures.fastSender 3) Fixtures.post_message
           (Fixtures.world_of (List.repeat Fixtures.rate_limited 6) (1 # 2))
         = (Throw e, w')
         /\ Spec.calls
              (Fixtures.world_of (List.repeat Fixtures.rate_limited 6) (1 # 2))
              w' = 4).
Proof.
  split.
  - destruct (retry_count (Fixtures.fastSender 3) Fixtures.post_message
                (Fixtures.world_of
                   [Fixtures.rate_limited;
                    Fixtures.ok_response (JsonMessage Fixtures.mockMessage)]
                   (1 # 2)) 1) as [H _].
    + simpl. lia.
    + intros k Hk. destruct k as [| k]; [| lia].
      exact rate_limited_transient.
    + apply H; [simpl; lia | reflexivity].
  - destruct (retry_count (Fixtures.fastSender 3) Fixtures.post_message
                (Fixtures.world_of (List.repeat Fixtures.rate_limited 6)
                   (1 # 2)) 5) as [_ H].
    + simpl. lia.
    + intros k Hk.
      do 5 (destruct k as [| k]; [exact rate_limited_transient |]). lia.
    + destruct H as (e & w' & _ & E & C); [simpl; lia |].
      exists e, w'. split; [exact E | exact C].
Defined.



(* ================================================================== *)
(** * Floating-point numbers *)

(** ** The model against known values *)

Example nearest_tenth :
  Float.nearest 0.1 = Float.Finite (3602879701896397 # 36028797018963968).
Proof. vm_compute. reflexivity. Qed.

(** [0.1 + 0.2] is [0.30000000000000004]. *)
Example add_tenth_fifth :
  Float.add (Float.nearest 0.1) (Float.nearest 0.2)
  = Float.Finite (1351079888211149 # 4503599627370496).
Proof. vm_compute. reflexivity. Qed.

(** [0.1 * 3] is [0.30000000000000004], not the double nearest to 0.3. *)
Example mul_tenth_three :
  Float.mul (Float.nearest 0.1) (Float.nearest 3)
  = Float.Finite (1351079888211149 # 4503599627370496)
  /\ Float.nearest 0.3
     = Float.Finite (5404319552844595 # 18014398509481984).
Proof. split; vm_compute; reflexivity. Qed.

(** Half the smallest subnormal is a tie and rounds to zero; three halves
    of it round to twice it. *)
Example subnormal_ties :
  Float.nearest (Float.pow2 (-1075)) = Float.Finite 0
  /\ Float.nearest (3 * Float.pow2 (-1075))
     = Float.nearest (Float.pow2 (-1073)).
Proof. split; vm_compute; reflexivity. Qed.

(** The largest double, and the overflow threshold half a unit above it. *)
Example overflow_threshold :
  Float.nearest (Float.pow2 1024 - Float.pow2 970) = Float.Infinity
  /\ Float.nearest (Float.pow2 1024 - Float.pow2 970 - 1)
     = Float.nearest (Float.pow2 1024 - Float.pow2 971)
  /\ Float.is_finite (Float.nearest (Float.pow2 1024 - Float.pow2 971))
     = true
  /\ Float.Math_pow2 1024 = Float.Infinity
  /\ Float.mul (Float.nearest 0) Float.Infinity = Float.NaN.
Proof. repeat split; vm_compute; reflexivity. Qed.

(** ** Rounding is monotone and leaves doubles alone *)

Section Rounding.

Local Open Scope Q_scope.




Lemma pow2_lt (a b : Z) : (a < b)%Z -> Float.pow2 a < Float.pow2 b.
Proof. intro H. apply Qpower_lt_compat_l; [exact H|]. reflexivity. Qed.




























Lemma Qred_fixed (q : Q) : Qred (Qred q) = Qred q.
Proof. apply Qred_complete, Qred_correct. Qed.


End Rounding.

(* ================================================================== *)
(** * Backoff *)

Section Backoff.

Local Open Scope Q_scope.



(** [Math.min(x, cap)] never exceeds the cap. *)
Lemma min_capped (x : Float.number) (c : Q) :
Float.exceeds (Float.min x (Float.Finite c)) (Float.Finite c) = false.
Proof.
destruct x as [q| | |]; cbn [Float.min Float.exceeds]; try reflexivity.
- destruct (Qle_bool q c) eqn:E; cbn [Float.exceeds].
  + now rewrite E.
  + assert (R : Qle_bool c c = true) by (apply Qle_bool_iff; lra).
    now rewrite R.
- assert (R : Qle_bool c c = true) by (apply Qle_bool_iff; lra).
  now rewrite R.
Qed.



(** The delay is always capped, whatever the numbers; computing it draws
  one random number. *)
Lemma calculateBackoff_capped (this : Send.WebexSender) (a : Z) (w : World) :
exists delay,
  Send.calculateBackoff this a w
  = (Return delay,
     mkWorld (net w) (fetched w) (random_source w) (S (drawn w))
             (slept w) (handler_fails w) (handler_unsubscribes w)
             (notified w) (Drew :: events w))
  /\ Float.exceeds delay (Float.nearest 30000) = false.
Proof.
eexists. split; [reflexivity|].
change (Float.nearest 30000) with (Float.Finite 30000).
apply min_capped.
Qed.



(** The delay of the second retry of a sender with base delay 10 and a draw
  of one half is 23 ms. *)
Example calculateBackoff_second_retry :
fst (Send.calculateBackoff (Fixtures.fastSender 3) 2
       (Fixtures.world_of [] (1 # 2)))
= Return (Float.Finite 23).
Proof. vm_compute. reflexivity. Qed.


End Backoff.


(* ================================================================== *)
(** * [buildMessageRequest]: target and content *)

Section BuildMessageRequest.

Variable base64_decode : string -> option string.
Variable message : OpenClawOutboundMessage.

Let to_ := message.(to).
Let request := Send.buildMessageRequest base64_decode message.

(** The content and threading steps leave the target alone, so the target
    is the one the first step chose. *)
Lemma buildMessageRequest_target :
  Spec.target_of request
  = Some (if Js.includes to_ "@" then Spec.PersonByEmailTarget to_
          else if Js.startsWith to_ "Y2lzY29zcGFyazovL3" then
            match base64_decode to_ with
            | Some decoded =>
                if Js.includes decoded "/ROOM/" then Spec.RoomTarget to_
                else if Js.includes decoded "/PEOPLE/"
                     then Spec.PersonByIdTarget to_
                else Spec.RoomTarget to_
            | None => Spec.RoomTarget to_
            end
          else Spec.RoomTarget to_).
Proof.
  unfold request, Send.buildMessageRequest. fold to_.
  destruct (Js.truthy_opt (c_text (content message)));
    destruct (Js.truthy_opt (c_markdown (content message)));
    destruct (c_files (content message)) as [[| f0 fs] |];
    destruct (c_card (content message));
    destruct (Js.truthy_opt (out_parentId message));
    destruct (Js.includes to_ "@"); try reflexivity;
    destruct (Js.startsWith to_ "Y2lzY29zcGFyazovL3"); try reflexivity;
    destruct (base64_decode to_) as [decoded |]; try reflexivity;
    destruct (Js.includes decoded "/ROOM/"); try reflexivity;
    destruct (Js.includes decoded "/PEOPLE/"); reflexivity.
Qed.

(** C7: the request targets a person by email exactly when [to] contains
    an at sign; otherwise, when [to] starts with the prefix of opaque
    identifiers, the decoded value decides: the room segment gives a room
    target, else the person segment gives a person-by-id target, and a
    value with neither segment or a failed decoding gives a room target;
    every other [to] is the room identifier as it stands. *)
Theorem buildMessageRequest_target_classes :
  (Js.includes to_ "@" = true
   <-> Spec.target_of request = Some (Spec.PersonByEmailTarget to_))
  /\ (Js.includes to_ "@" = false ->
      Js.startsWith to_ "Y2lzY29zcGFyazovL3" = true ->
      (forall decoded,
          base64_decode to_ = Some decoded ->
          Js.includes decoded "/ROOM/" = true ->
          Spec.target_of request = Some (Spec.RoomTarget to_))
      /\ (forall decoded,
             base64_decode to_ = Some decoded ->
             Js.includes decoded "/ROOM/" = false ->
             Js.includes decoded "/PEOPLE/" = true ->
             Spec.target_of request = Some (Spec.PersonByIdTarget to_))
      /\ (forall decoded,
             base64_decode to_ = Some decoded ->
             Js.includes decoded "/ROOM/" = false ->
             Js.includes decoded "/PEOPLE/" = false ->
             Spec.target_of request = Some (Spec.RoomTarget to_))
      /\ (base64_decode to_ = None ->
          Spec.target_of request = Some (Spec.RoomTarget to_)))
  /\ (Js.includes to_ "@" = false ->
      Js.startsWith to_ "Y2lzY29zcGFyazovL3" = false ->
      Spec.target_of request = Some (Spec.RoomTarget to_)).
Proof.
  rewrite buildMessageRequest_target.
  split; [| split].
  - split.
    + intros H. rewrite H. reflexivity.
    + destruct (Js.includes to_ "@"); [reflexivity |].
      destruct (Js.startsWith to_ "Y2lzY29zcGFyazovL3");
        [| discriminate].
      destruct (base64_decode to_) as [decoded |]; [| discriminate].
      destruct (Js.includes decoded "/ROOM/"); [discriminate |].
      destruct (Js.includes decoded "/PEOPLE/"); discriminate.
  - intros HA HP. rewrite HA, HP.
    repeat split.
    + intros decoded HD HR. rewrite HD, HR. reflexivity.
    + intros decoded HD HR HQ. rewrite HD, HR, HQ. reflexivity.
    + intros decoded HD HR HQ. rewrite HD, HR, HQ. reflexivity.
    + intros HD. rewrite HD. reflexivity.
  - intros HA HP. rewrite HA, HP. reflexivity.
Qed.

(** [text] is the one field [buildMessageRequest] never assigns. *)
Lemma buildMessageRequest_text_unset : request.(text) = None.
Proof.
  unfold request, Send.buildMessageRequest. fold to_.
  destruct (Js.truthy_opt (c_text (content message)));
    destruct (Js.truthy_opt (c_markdown (content message)));
    destruct (c_files (content message)) as [[| f0 fs] |];
    destruct (c_card (content message));
    destruct (Js.truthy_opt (out_parentId message));
    destruct (Js.includes to_ "@"); try reflexivity;
    destruct (Js.startsWith to_ "Y2lzY29zcGFyazovL3"); try reflexivity;
    destruct (base64_decode to_) as [decoded |]; try reflexivity;
    destruct (Js.includes decoded "/ROOM/"); try reflexivity;
    destruct (Js.includes decoded "/PEOPLE/"); reflexivity.
Qed.

(** C10: the request's [text] is never set; a non-empty [content.text]
    goes to [markdown], and a non-empty [content.markdown] replaces it, so
    that with both supplied only the markdown value is sent. *)
Theorem buildMessageRequest_content :
  request.(text) = None
  /\ (Js.truthy_opt message.(content).(c_text) = true ->
      Js.truthy_opt message.(content).(c_markdown) = false ->
      request.(markdown) = message.(content).(c_text))
  /\ (Js.truthy_opt message.(content).(c_text) = true ->
      Js.truthy_opt message.(content).(c_markdown) = true ->
      request.(markdown) = message.(content).(c_markdown))
  /\ (Js.truthy_opt message.(content).(c_text) = false ->
      request.(markdown)
      = if Js.truthy_opt message.(content).(c_markdown)
        then message.(content).(c_markdown) else None).
Proof.
  unfold request, Send.buildMessageRequest. fold to_.
  destruct (Js.truthy_opt (c_text (content message)));
    destruct (Js.truthy_opt (c_markdown (content message)));
    destruct (c_files (content message)) as [[| f0 fs] |];
    destruct (c_card (content message));
    destruct (Js.truthy_opt (out_parentId message));
    destruct (Js.includes to_ "@");
    destruct (Js.startsWith to_ "Y2lzY29zcGFyazovL3");
    destruct (base64_decode to_) as [decoded |];
    try destruct (Js.includes decoded "/ROOM/");
    try destruct (Js.includes decoded "/PEOPLE/");
    cbn; repeat split; intros; congruence.
Qed.

(** Hence the size check of [validateMessageRequest], which reads
    [request.text], never fires on a request built by [send]. *)
Lemma validateMessageRequest_never_checks_built_text (w : World) :
  fst (Send.validateMessageRequest request w)
  <> Throw (GenericError "Message text exceeds maximum size of 7439 bytes").
Proof.
  unfold Send.validateMessageRequest.
  rewrite buildMessageRequest_text_unset. simpl.
  destruct (_ && _); [discriminate |].
  destruct (_ && _); discriminate.
Qed.

(** A message with a target and a non-empty text passes validation
    whatever the length of the text. *)
Lemma validateMessageRequest_accepts_any_text (w : World) :
  Js.truthy to_ = true ->
  Js.truthy_opt message.(content).(c_text) = true ->
  Send.validateMessageRequest request w = (Return tt, w).
Proof.
  intros HT HC.
  unfold Send.validateMessageRequest.
  rewrite buildMessageRequest_text_unset.
  unfold request, Send.buildMessageRequest. fold to_. rewrite HC.
  destruct (Js.truthy_opt (c_markdown (content message))) eqn:HM;
    destruct (c_files (content message)) as [[| f0 fs] |];
    destruct (c_card (content message));
    destruct (Js.truthy_opt (out_parentId message));
    destruct (Js.includes to_ "@");
    destruct (Js.startsWith to_ "Y2lzY29zcGFyazovL3");
    destruct (base64_decode to_) as [decoded |];
    try destruct (Js.includes decoded "/ROOM/");
    try destruct (Js.includes decoded "/PEOPLE/");
    cbn; rewrite ?HT, ?HC, ?HM; reflexivity.
Qed.

(** So [send] takes such a message to the network, however long its text:
    with a retry budget that is not negative, at least one call is made. *)
Lemma send_text_of_any_length_reaches_network (this : Send.WebexSender)
  (w : World) :
  0 <= this.(Send.sender_retryOptions).(ro_maxRetries) ->
  Js.truthy to_ = true ->
  Js.truthy_opt message.(content).(c_text) = true ->
  1 <= Spec.calls w (snd (Send.send base64_decode this message w)).
Proof.
  intros HM HT HC. unfold Send.send, Send.createMessage, bind.
  fold request. rewrite (validateMessageRequest_accepts_any_text w HT HC).
  unfold Send.request. apply loop_calls_pos. exact HM.
Qed.

End BuildMessageRequest.

Lemma buildMessageRequest_target_classes_witness :
  Spec.target_of
    (Send.buildMessageRequest Node.base64_decode
       (Fixtures.outbound_text "Y2lzY29zcGFyazovL3VzL1BFT1BMRS8xMjM0" "Hello!"))
  = Some (Spec.PersonByIdTarget "Y2lzY29zcGFyazovL3VzL1BFT1BMRS8xMjM0")
  /\ Spec.target_of
       (Send.buildMessageRequest Node.base64_decode
          (Fixtures.outbound_text "room-123" "Hello, world!"))
     = Some (Spec.RoomTarget "room-123").
Proof.
  split.
  - destruct (buildMessageRequest_target_classes Node.base64_decode
                (Fixtures.outbound_text
                   "Y2lzY29zcGFyazovL3VzL1BFT1BMRS8xMjM0" "Hello!"))
      as (_ & H & _).
    destruct (H eq_refl eq_refl) as (_ & P & _).
    apply (P "ciscospark://us/PEOPLE/1234"); reflexivity.
  - destruct (buildMessageRequest_target_classes Node.base64_decode
                (Fixtures.outbound_text "room-123" "Hello, world!"))
      as (_ & _ & H).
    apply H; reflexivity.
Defined.

Lemma buildMessageRequest_content_witness :
  (Send.buildMessageRequest Node.base64_decode
     (mkOutbound "room-123"
        (mkContent (Some "Hello!") (Some "**Hello!**") None None) None))
    .(markdown) = Some "**Hello!**".
Proof.
  destruct (buildMessageRequest_content Node.base64_decode
              (mkOutbound "room-123"
                 (mkContent (Some "Hello!") (Some "**Hello!**") None None)
                 None))
    as (_ & _ & H & _).
  apply H; reflexivity.
Defined.

(* ================================================================== *)
(** * The size limit of plain text *)

(** C3 at the input of the test suite, a text of 8000 bytes: [send] moves
    the text to [markdown], validation passes, one call reaches the network
    and the reply is returned; [sendToRoom], which sets [text], rejects the
    same text before any call. *)
Theorem send_oversized_text_reaches_network :
  let oversized := Js.repeat "x" (Z.to_nat 8000) in
  let w := Fixtures.world_of
             [Fixtures.ok_response (JsonMessage Fixtures.mockMessage)] (1 # 2) in
  let sender := Send.new_WebexSender Fixtures.config in
  (Z.of_nat (String.length oversized) >? 7439) = true
  /\ fst (Send.send Node.base64_decode sender
            (Fixtures.outbound_text "room-123" oversized) w)
     = Return (JsonMessage Fixtures.mockMessage)
  /\ Spec.calls w
       (snd (Send.send Node.base64_decode sender
               (Fixtures.outbound_text "room-123" oversized) w)) = 1
  /\ fst (Send.sendToRoom sender "room-123" oversized None w)
     = Throw (GenericError "Message text exceeds maximum size of 7439 bytes")
  /\ Spec.calls w (snd (Send.sendToRoom sender "room-123" oversized None w))
     = 0.
Proof.
  cbv zeta. repeat split; vm_compute; reflexivity.
Qed.

(* ================================================================== *)
(** * The inbound pipeline: filters and direct-message policy *)

Lemma array_includes_In (arr : list string) (x : string) :
  Js.array_includes arr x = true <-> In x arr.
Proof.
  induction arr as [| y arr IH]; simpl.
  - split; [discriminate | contradiction].
  - rewrite orb_true_iff, String.eqb_eq, IH. reflexivity.
Qed.

Section DmPolicy.

Variable this : Webhook.WebexWebhookHandler.
Variable payload : WebexWebhookPayload.

Let policy := dmPolicy this.(Webhook.handler_config).

(** Enrichment never yields [null]: it returns an envelope or raises. *)
Lemma enrich_not_null (w : World) :
  fst (Spec.enrich this payload w) <> Return None.
Proof.
  unfold Spec.enrich, Webhook.fetchMessage, bind, fetch, ret, throw,
    response_json.
  destruct (net w _ _) as [r | e]; simpl; [| discriminate].
  destruct (ok r); simpl; [| discriminate].
  destruct (json r); simpl; discriminate.
Qed.

(** Enrichment makes a network call; returning [null] makes none. *)
Lemma enrich_calls (w : World) :
  Spec.calls w (snd (Spec.enrich this payload w)) = 1.
Proof.
  unfold Spec.calls, Spec.enrich, Webhook.fetchMessage, bind, fetch, ret,
    throw, response_json.
  destruct (net w _ _) as [r | e]; cbn [snd fetched List.length]; [| lia].
  destruct (ok r); cbn [negb snd fetched List.length]; [| lia].
  destruct (json r); cbn [snd fetched List.length]; lia.
Qed.

Lemma is_bot_false :
  this.(Webhook.botId) <> Some payload.(data).(data_personId) ->
  Webhook.is_bot payload.(data).(data_personId) this.(Webhook.botId) = false.
Proof.
  intros H. unfold Webhook.is_bot.
  destruct (Webhook.botId this) as [b |]; [| reflexivity].
  apply String.eqb_neq. intros E. apply H. rewrite E. reflexivity.
Qed.

(** An accepted notification is denied exactly when it is direct and its
    sender is not allowed. *)
Lemma handleWebhook_accepted :
  Spec.accepted this payload ->
  Webhook.handleWebhook this payload
  = if Webhook.roomType_eqb payload.(data).(data_roomType) direct
       && negb (Webhook.isAllowedSender this payload.(data))
    then ret None
    else Spec.enrich this payload.
Proof.
  intros (R & E & B). unfold Webhook.handleWebhook.
  rewrite R, E, (is_bot_false B). reflexivity.
Qed.

Lemma isAllowedSender_allowlisted :
  policy = Some allowlisted ->
  Webhook.isAllowedSender this payload.(data) = true
  <-> Spec.sender_listed this payload.
Proof.
  intros P. unfold Webhook.isAllowedSender, Spec.sender_listed.
  fold policy. rewrite P.
  destruct (allowFrom (Webhook.handler_config this)) as [[| a l] |].
  - split; [discriminate | intros (l' & E & N & _); congruence].
  - rewrite orb_true_iff, !array_includes_In. split.
    + intros H. exists (a :: l). repeat split; [discriminate | exact H].
    + intros (l' & E & _ & H). injection E as <-. exact H.
  - split; [discriminate | intros (l' & E & _); discriminate].
Qed.

(** C8: for an accepted notification of a direct conversation, policy
    [allow] proceeds to enrichment, [deny] returns [null], and
    [allowlisted] proceeds exactly when the sender's person id or email is
    in a non-empty allow-list and returns [null] otherwise; for any other
    conversation type the policy is not consulted. Proceeding and returning
    [null] are distinct outcomes. *)
Theorem dm_policy (w : World) :
  Spec.accepted this payload ->
  (payload.(data).(data_roomType) = direct ->
   (policy = Some allow ->
    Webhook.handleWebhook this payload w = Spec.enrich this payload w)
   /\ (policy = Some deny ->
       Webhook.handleWebhook this payload w = (Return None, w))
   /\ (policy = Some allowlisted ->
       (Spec.sender_listed this payload ->
        Webhook.handleWebhook this payload w = Spec.enrich this payload w)
       /\ (~ Spec.sender_listed this payload ->
           Webhook.handleWebhook this payload w = (Return None, w))))
  /\ (payload.(data).(data_roomType) <> direct ->
      Webhook.handleWebhook this payload w = Spec.enrich this payload w)
  /\ fst (Spec.enrich this payload w) <> Return None.
Proof.
  intros A. rewrite (handleWebhook_accepted A).
  split; [| split; [| apply enrich_not_null]].
  - intros D. rewrite D. cbn [Webhook.roomType_eqb andb].
    split; [| split].
    + intros P. unfold Webhook.isAllowedSender. fold policy. rewrite P.
      reflexivity.
    + intros P. unfold Webhook.isAllowedSender. fold policy. rewrite P.
      reflexivity.
    + intros P. split.
      * intros L. apply (isAllowedSender_allowlisted P) in L.
        rewrite L. reflexivity.
      * intros L.
        destruct (Webhook.isAllowedSender this (data payload)) eqn:I;
          [| reflexivity].
        apply (isAllowedSender_allowlisted P) in I. contradiction.
  - intros D.
    destruct (data_roomType (data payload)); [contradiction | reflexivity].
Qed.

End DmPolicy.

Lemma dm_policy_witness :
  Webhook.handleWebhook Fixtures.allowlistHandler
    (Fixtures.createPayload direct)
    (Fixtures.world_of
       [Fixtures.ok_response (JsonMessage Fixtures.mockMessage)] (1 # 2))
  = Spec.enrich Fixtures.allowlistHandler (Fixtures.createPayload direct)
      (Fixtures.world_of
         [Fixtures.ok_response (JsonMessage Fixtures.mockMessage)] (1 # 2)).
Proof.
  destruct (dm_policy Fixtures.allowlistHandler (Fixtures.createPayload direct)
              (Fixtures.world_of
                 [Fixtures.ok_response (JsonMessage Fixtures.mockMessage)]
                 (1 # 2))) as (H & _).
  - repeat split; try reflexivity. discriminate.
  - destruct (H eq_refl) as (_ & _ & L). destruct (L eq_refl) as (P & _).
    apply P. exists ["person-123"].
    repeat split; [discriminate | left; left; reflexivity].
Defined.

(** The matrix of the test suite, evaluated. *)
Example dm_policy_matrix :
  let w := Fixtures.world_of
             [Fixtures.ok_response (JsonMessage Fixtures.mockMessage)] (1 # 2) in
  let run c := fst (Webhook.handleWebhook (Fixtures.handler_with c)
                      (Fixtures.createPayload direct) w) in
  let envelope := Return (Some (Webhook.normalizeMessage Fixtures.mockMessage)) in
  run Fixtures.config = envelope
  /\ run (Fixtures.with_policy Fixtures.config deny None) = Return None
  /\ run (Fixtures.with_policy Fixtures.config allowlisted (Some [])) = Return None
  /\ run (Fixtures.with_policy Fixtures.config allowlisted None) = Return None
  /\ run (Fixtures.with_policy Fixtures.config allowlisted
            (Some ["person-123"])) = envelope
  /\ run (Fixtures.with_policy Fixtures.config allowlisted
            (Some ["person@example.com"])) = envelope
  /\ run (Fixtures.with_policy Fixtures.config allowlisted
            (Some ["someone-else"])) = Return None
  /\ fst (Webhook.handleWebhook
            (Fixtures.handler_with (Fixtures.with_policy Fixtures.config deny None))
            (Fixtures.createPayload group) w) = envelope.
Proof. cbv zeta. repeat split; vm_compute; reflexivity. Qed.

(* ================================================================== *)
(** * The signature check of the inbound pipeline *)

(** The handler's [handleWebhook] receives no signature, so the channel's
    result cannot depend on the one it was given. *)
Lemma handleWebhook_ignores_signature (payload : WebexWebhookPayload)
  (signature signature' : option string) (s : Channel.St) :
  Channel.handleWebhook payload signature s
  = Channel.handleWebhook payload signature' s.
Proof. reflexivity. Qed.

(** C1 at the input of the test suite: with the secret ["test-secret"]
    configured and a signature of forty zeros, the verifier rejects the
    signature, yet [handleWebhook] fetches the message and returns an
    envelope: neither the channel nor the handler consults the verifier. *)
Theorem handleWebhook_accepts_invalid_signature :
  let c := Fixtures.with_secret Fixtures.config "test-secret" in
  let payload := Fixtures.createPayload group in
  let s := Fixtures.initialized_channel c
             [Fixtures.ok_response (JsonMessage Fixtures.mockMessage)] (1 # 2) in
  Webhook.verifySignature Node.JSON_stringify Fixtures.secretHandler payload
    Fixtures.invalidSignature None = Return false
  /\ Channel.initialized (fst s) = true
  /\ fst (Channel.handleWebhook payload (Some Fixtures.invalidSignature) s)
     = Return (Some (Webhook.normalizeMessage Fixtures.mockMessage))
  /\ fst (Webhook.handleWebhook Fixtures.secretHandler payload
            (Fixtures.world_of
               [Fixtures.ok_response (JsonMessage Fixtures.mockMessage)]
               (1 # 2)))
     = Return (Some (Webhook.normalizeMessage Fixtures.mockMessage)).
Proof. cbv zeta. repeat split; vm_compute; reflexivity. Qed.

(* ================================================================== *)
(** * The lifecycle of a channel *)

(** ** Computations that invoke no subscriber *)

Lemma quiet_ret {A : Type} (a : A) : Spec.quiet (ret a).
Proof. intros w. reflexivity. Qed.

Lemma quiet_throw {A : Type} (e : Error) : Spec.quiet (@throw World A e).
Proof. intros w. reflexivity. Qed.

Lemma quiet_bind {A B : Type} (c : Eff World A) (k : A -> Eff World B) :
  Spec.quiet c -> (forall a, Spec.quiet (k a)) -> Spec.quiet (bind c k).
Proof.
  intros Hc Hk w. unfold bind. specialize (Hc w).
  destruct (c w) as [[a | e] w']; simpl in *.
  - rewrite Hk. exact Hc.
  - exact Hc.
Qed.

Lemma quiet_try_catch {A : Type} (c : Eff World A) (h : Error -> Eff World A) :
  Spec.quiet c -> (forall e, Spec.quiet (h e)) -> Spec.quiet (try_catch c h).
Proof.
  intros Hc Hh w. unfold try_catch. specialize (Hc w).
  destruct (c w) as [[a | e] w']; simpl in *.
  - exact Hc.
  - rewrite Hh. exact Hc.
Qed.

Lemma quiet_fetch (req : HttpRequest) : Spec.quiet (fetch req).
Proof. intros w. unfold fetch. destruct (net w _ _); reflexivity. Qed.

Lemma quiet_response_json (r : Response) : Spec.quiet (response_json r).
Proof. intros w. reflexivity. Qed.

Lemma quiet_Math_random : Spec.quiet Math_random.
Proof. intros w. reflexivity. Qed.

Lemma quiet_sleep (ms : Float.number) : Spec.quiet (sleep ms).
Proof. intros w. reflexivity. Qed.

Lemma quiet_if {A : Type} (b : bool) (c d : Eff World A) :
  Spec.quiet c -> Spec.quiet d -> Spec.quiet (if b then c else d).
Proof. destruct b; auto. Qed.

Create HintDb quiet.
#[local] Hint Resolve quiet_ret quiet_throw quiet_fetch quiet_response_json
  quiet_Math_random quiet_sleep : quiet.
#[local] Hint Extern 2 (Spec.quiet (bind _ _)) =>
  apply quiet_bind; [| intro] : quiet.
#[local] Hint Extern 2 (Spec.quiet (try_catch _ _)) =>
  apply quiet_try_catch; [| intro] : quiet.
#[local] Hint Extern 2 (Spec.quiet (if _ then _ else _)) =>
  apply quiet_if : quiet.

Lemma quiet_request_loop (fuel : nat) (this : Send.WebexSender)
  (options : RequestOptions) :
  forall (a : Z) (last : option Error),
    Spec.quiet (Send.request_loop fuel this options a last).
Proof.
  induction fuel as [| fuel IH]; intros a last; simpl.
  - auto with quiet.
  - unfold Send.executeRequest, Send.parseErrorResponse, Send.throw_last,
      Send.calculateBackoff.
    auto 12 with quiet.
Qed.

Lemma quiet_send (base64_decode : string -> option string)
  (this : Send.WebexSender) (message : OpenClawOutboundMessage) :
  Spec.quiet (Send.send base64_decode this message).
Proof.
  unfold Send.send, Send.createMessage, Send.validateMessageRequest,
    Send.request.
  pose proof quiet_request_loop.
  auto 12 with quiet.
Qed.

Lemma quiet_handleWebhook (this : Webhook.WebexWebhookHandler)
  (payload : WebexWebhookPayload) :
  Spec.quiet (Webhook.handleWebhook this payload).
Proof.
  unfold Webhook.handleWebhook, Webhook.fetchMessage.
  auto 12 with quiet.
Qed.

Lemma quiet_initialize (this : Webhook.WebexWebhookHandler) :
  Spec.quiet (Webhook.initialize this).
Proof.
  unfold Webhook.initialize, Webhook.getBotInfo.
  auto 12 with quiet.
Qed.

Lemma quiet_delete_matching (this : Webhook.WebexWebhookHandler)
  (targetUrl : string) (existing : list WebexWebhook) :
  Spec.quiet (Webhook.delete_matching this targetUrl existing).
Proof.
  induction existing as [| webhook rest IH]; simpl.
  - auto with quiet.
  - unfold Webhook.deleteWebhook. auto 12 with quiet.
Qed.

Lemma quiet_registerWebhooks (this : Webhook.WebexWebhookHandler) :
  Spec.quiet (Webhook.registerWebhooks this).
Proof.
  unfold Webhook.registerWebhooks, Webhook.listWebhooks, Webhook.createWebhook.
  apply quiet_bind; [auto 12 with quiet |].
  intros [existing |]; pose proof quiet_delete_matching; auto 12 with quiet.
Qed.

(** ** Computations that leave the subscribers as they are *)

Lemma same_subscribers_ret {A : Type} (a : A) :
  Spec.same_subscribers (@ret World A a).
Proof. intros w. reflexivity. Qed.

Lemma same_subscribers_throw {A : Type} (e : Error) :
  Spec.same_subscribers (@throw World A e).
Proof. intros w. reflexivity. Qed.

Lemma same_subscribers_bind {A B : Type} (c : Eff World A)
  (k : A -> Eff World B) :
  Spec.same_subscribers c -> (forall a, Spec.same_subscribers (k a)) ->
  Spec.same_subscribers (bind c k).
Proof.
  intros Hc Hk w. unfold bind. specialize (Hc w).
  destruct (c w) as [[a | e] w']; simpl in *.
  - rewrite Hk. exact Hc.
  - exact Hc.
Qed.

Lemma same_subscribers_try_catch {A : Type} (c : Eff World A)
  (h : Error -> Eff World A) :
  Spec.same_subscribers c -> (forall e, Spec.same_subscribers (h e)) ->
  Spec.same_subscribers (try_catch c h).
Proof.
  intros Hc Hh w. unfold try_catch. specialize (Hc w).
  destruct (c w) as [[a | e] w']; simpl in *.
  - exact Hc.
  - rewrite Hh. exact Hc.
Qed.

Lemma same_subscribers_fetch (req : HttpRequest) :
  Spec.same_subscribers (fetch req).
Proof. intros w. unfold fetch. destruct (net w _ _); reflexivity. Qed.

Lemma same_subscribers_response_json (r : Response) :
  Spec.same_subscribers (response_json r).
Proof. intros w. reflexivity. Qed.

Lemma same_subscribers_if {A : Type} (b : bool) (c d : Eff World A) :
  Spec.same_subscribers c -> Spec.same_subscribers d ->
  Spec.same_subscribers (if b then c else d).
Proof. destruct b; auto. Qed.

Create HintDb subscribers.
#[local] Hint Resolve same_subscribers_ret same_subscribers_throw
  same_subscribers_fetch same_subscribers_response_json : subscribers.
#[local] Hint Extern 2 (Spec.same_subscribers (bind _ _)) =>
  apply same_subscribers_bind; [| intro] : subscribers.
#[local] Hint Extern 2 (Spec.same_subscribers (try_catch _ _)) =>
  apply same_subscribers_try_catch; [| intro] : subscribers.
#[local] Hint Extern 2 (Spec.same_subscribers (if _ then _ else _)) =>
  apply same_subscribers_if : subscribers.

Lemma same_subscribers_handleWebhook (this : Webhook.WebexWebhookHandler)
  (payload : WebexWebhookPayload) :
  Spec.same_subscribers (Webhook.handleWebhook this payload).
Proof.
  unfold Webhook.handleWebhook, Webhook.fetchMessage.
  auto 12 with subscribers.
Qed.

(** ** What each operation does to the subscriber list and to the record of
       invocations *)

Lemma remove_first_subset (x h : Handler) (arr : list Handler) :
  In h (Channel.remove_first x arr) -> In h arr.
Proof.
  induction arr as [| y arr IH]; simpl; [contradiction |].
  destruct (Nat.eqb y x); simpl; tauto.
Qed.

Lemma remove_first_length (x : Handler) (arr : list Handler) :
  (List.length (Channel.remove_first x arr) <= List.length arr)%nat.
Proof.
  induction arr as [| y arr IH]; simpl; [lia |].
  destruct (Nat.eqb y x); simpl; lia.
Qed.

Lemma remove_first_absent (x : Handler) (arr : list Handler) :
  ~ In x arr -> Channel.remove_first x arr = arr.
Proof.
  induction arr as [| y arr IH]; simpl; [reflexivity |].
  intros N. destruct (Nat.eqb_spec y x) as [-> | _].
  - exfalso. apply N. left. reflexivity.
  - rewrite IH; [reflexivity | tauto].
Qed.

(** The channel with another list of subscribers. *)
Lemma offMessage_each_run (taken : list Handler) :
  forall (c : Channel.WebexChannel) (w : World),
    exists l,
      Channel.offMessage_each taken (c, w)
      = (Return tt,
         (Channel.mkChannel (Channel.config c) (Channel.sender c)
            (Channel.webhookHandler c) l (Channel.initialized c), w))
      /\ (forall h, In h l -> In h (Channel.messageHandlers c))
      /\ (List.length l <= List.length (Channel.messageHandlers c))%nat
      /\ ((forall h, In h taken -> ~ In h (Channel.messageHandlers c)) ->
          l = Channel.messageHandlers c).
Proof.
  induction taken as [| x taken IH]; intros c w.
  - exists (Channel.messageHandlers c). destruct c. cbn.
    repeat split; auto.
  - cbn [Channel.offMessage_each]. unfold bind at 1.
    unfold Channel.offMessage, Channel.assign. cbn [fst snd].
    destruct (IH (Channel.mkChannel (Channel.config c) (Channel.sender c)
                    (Channel.webhookHandler c)
                    (Channel.remove_first x (Channel.messageHandlers c))
                    (Channel.initialized c)) w) as (l & E & S & L & D).
    cbn [Channel.config Channel.sender Channel.webhookHandler
           Channel.messageHandlers Channel.initialized] in *.
    exists l. split; [exact E |]. split; [| split].
    + intros h I. exact (remove_first_subset _ _ _ (S h I)).
    + pose proof (remove_first_length x (Channel.messageHandlers c)). lia.
    + intros N.
      assert (R : Channel.remove_first x (Channel.messageHandlers c)
                  = Channel.messageHandlers c).
      { apply remove_first_absent, N. left. reflexivity. }
      rewrite R in D. apply D. intros h I. apply N. right. exact I.
Qed.

(** One step of the notification loop: the subscriber is recorded as
    invoked, its error, if any, is dropped, and the list of subscribers is
    what it leaves of it. *)
Lemma run_subscriber_run (h : Handler) (envelope : OpenClawEnvelope)
  (c : Channel.WebexChannel) (w : World) :
  exists l,
    try_catch (Channel.run_subscriber h envelope) (fun _ => ret tt) (c, w)
    = (Return tt,
       (Channel.mkChannel (Channel.config c) (Channel.sender c)
          (Channel.webhookHandler c) l (Channel.initialized c),
        snd (call_handler h envelope w)))
    /\ (forall h', In h' l -> In h' (Channel.messageHandlers c))
    /\ (List.length l <= List.length (Channel.messageHandlers c))%nat
    /\ ((forall h', In h' (handler_unsubscribes w h envelope) ->
                    ~ In h' (Channel.messageHandlers c)) ->
        l = Channel.messageHandlers c).
Proof.
  destruct (offMessage_each_run (handler_unsubscribes w h envelope) c w)
    as (l & E & S & L & D).
  exists l. split; [| split; [exact S | split; [exact L | exact D]]].
  unfold try_catch, Channel.run_subscriber, bind. cbn [fst snd].
  rewrite E. unfold Channel.await. cbn [fst snd].
  unfold call_handler. destruct (handler_fails w h envelope); reflexivity.
Qed.

Lemma call_handler_world (h : Handler) (envelope : OpenClawEnvelope)
  (w : World) :
  notified (snd (call_handler h envelope w)) = (h, envelope) :: notified w
  /\ fetched (snd (call_handler h envelope w)) = fetched w
  /\ handler_unsubscribes (snd (call_handler h envelope w))
     = handler_unsubscribes w.
Proof.
  unfold call_handler. destruct (handler_fails w h envelope);
    repeat split; reflexivity.
Qed.

(** The loop returns, invokes subscribers of the list it started with only,
    and leaves a part of that list. *)
Lemma notify_from_effect (envelope : OpenClawEnvelope) (fuel : nat) :
  forall (index : nat) (c : Channel.WebexChannel) (w : World),
    exists l w' new,
      Channel.notify_from fuel index envelope (c, w)
      = (Return tt,
         (Channel.mkChannel (Channel.config c) (Channel.sender c)
            (Channel.webhookHandler c) l (Channel.initialized c), w'))
      /\ (forall h, In h l -> In h (Channel.messageHandlers c))
      /\ notified w' = (new ++ notified w)%list
      /\ (forall h, In h (List.map fst new) ->
                    In h (Channel.messageHandlers c)).
Proof.
  induction fuel as [| fuel IH]; intros index c w.
  - exists (Channel.messageHandlers c), w, []. destruct c. cbn.
    repeat split; auto. contradiction.
  - cbn [Channel.notify_from]. unfold bind at 1, Channel.this_.
    cbn [fst snd].
    destruct (nth_error (Channel.messageHandlers c) index) as [h |] eqn:N.
    + unfold bind at 1.
      destruct (run_subscriber_run h envelope c w) as (l1 & E & S1 & _ & _).
      rewrite E.
      destruct (call_handler_world h envelope w) as (NT & _ & _).
      destruct (IH (S index)
                  (Channel.mkChannel (Channel.config c) (Channel.sender c)
                     (Channel.webhookHandler c) l1 (Channel.initialized c))
                  (snd (call_handler h envelope w)))
        as (l & w' & new & E' & S & NT' & M).
      cbn [Channel.config Channel.sender Channel.webhookHandler
             Channel.messageHandlers Channel.initialized] in *.
      exists l, w', (new ++ [(h, envelope)])%list.
      split; [exact E' |]. split; [auto |]. split.
      * rewrite NT', NT, <- app_assoc. reflexivity.
      * intros x I. rewrite map_app, in_app_iff in I.
        destruct I as [I | [<- | []]]; [auto |].
        exact (nth_error_In _ _ N).
    + exists (Channel.messageHandlers c), w, []. destruct c. cbn.
      repeat split; auto. contradiction.
Qed.

(** The loop has fuel enough: more of it changes nothing.  So the loop
    ends because it has reached the end of the array. *)
Lemma notify_from_fuel (envelope : OpenClawEnvelope) (fuel : nat) :
  forall (more index : nat) (c : Channel.WebexChannel) (w : World),
    (List.length (Channel.messageHandlers c) - index <= fuel)%nat ->
    Channel.notify_from (fuel + more) index envelope (c, w)
    = Channel.notify_from fuel index envelope (c, w).
Proof.
  induction fuel as [| fuel IH]; intros more index c w L.
  - destruct more as [| more]; [reflexivity |].
    cbn [Nat.add Channel.notify_from]. unfold bind, Channel.this_.
    cbn [fst snd].
    destruct (nth_error (Channel.messageHandlers c) index) eqn:N;
      [| reflexivity].
    assert (I : nth_error (Channel.messageHandlers c) index <> None)
      by (rewrite N; discriminate).
    apply nth_error_Some in I. lia.
  - cbn [Nat.add Channel.notify_from]. unfold bind at 1 3, Channel.this_.
    cbn [fst snd].
    destruct (nth_error (Channel.messageHandlers c) index) as [h |] eqn:N;
      [| reflexivity].
    unfold bind at 1 2.
    destruct (run_subscriber_run h envelope c w) as (l1 & E & _ & L1 & _).
    rewrite E. apply IH.
    cbn [Channel.messageHandlers].
    assert (I : nth_error (Channel.messageHandlers c) index <> None)
      by (rewrite N; discriminate).
    apply nth_error_Some in I. lia.
Qed.

(** When no subscriber still to be called takes a registered handler off,
    the loop invokes them all in order and leaves the channel as it is. *)
Lemma notify_from_undisturbed (envelope : OpenClawEnvelope)
  (c : Channel.WebexChannel) (rest : list Handler) :
  forall (done : list Handler) (fuel : nat) (w : World),
    Channel.messageHandlers c = (done ++ rest)%list ->
    (forall h h', In h rest ->
                  In h' (handler_unsubscribes w h envelope) ->
                  ~ In h' (Channel.messageHandlers c)) ->
    (List.length rest <= fuel)%nat ->
    exists w',
      Channel.notify_from fuel (List.length done) envelope (c, w)
      = (Return tt, (c, w'))
      /\ notified w'
         = (List.rev (List.map (fun h => (h, envelope)) rest)
              ++ notified w)%list
      /\ fetched w' = fetched w.
Proof.
  induction rest as [| h rest IH]; intros done fuel w M U F.
  - exists w. split; [| split; reflexivity].
    destruct fuel as [| fuel]; [reflexivity |].
    cbn [Channel.notify_from]. unfold bind, Channel.this_. cbn [fst snd].
    rewrite M, app_nil_r.
    rewrite (proj2 (nth_error_None done (List.length done)) (le_n _)).
    reflexivity.
  - destruct fuel as [| fuel]; [cbn in F; lia |].
    cbn [Channel.notify_from]. unfold bind at 1, Channel.this_.
    cbn [fst snd].
    assert (N : nth_error (Channel.messageHandlers c) (List.length done)
                = Some h).
    { rewrite M, nth_error_app2, Nat.sub_diag by lia. reflexivity. }
    rewrite N. unfold bind at 1.
    destruct (run_subscriber_run h envelope c w) as (l1 & E & _ & _ & D).
    rewrite E.
    assert (K : l1 = Channel.messageHandlers c).
    { apply D. intros h' I. apply (U h h'); [left; reflexivity | exact I]. }
    subst l1.
    replace (Channel.mkChannel (Channel.config c) (Channel.sender c)
               (Channel.webhookHandler c) (Channel.messageHandlers c)
               (Channel.initialized c)) with c by (destruct c; reflexivity).
    destruct (call_handler_world h envelope w) as (NT & FT & HU).
    destruct (IH (done ++ [h])%list fuel (snd (call_handler h envelope w)))
      as (w' & E' & NT' & FT').
    + rewrite <- app_assoc. exact M.
    + intros x x' I. rewrite HU. apply U. right. exact I.
    + cbn in F. lia.
    + rewrite length_app, Nat.add_1_r in E'.
      exists w'. split; [exact E' |]. split.
      * rewrite NT', NT. cbn [List.map List.rev].
        rewrite <- app_assoc. reflexivity.
      * rewrite FT', FT. reflexivity.
Qed.

Section Lifecycle.

Variable URL_parses : string -> bool.
Variable base64_decode : string -> option string.

(** *** Operations on an uninitialized channel *)

Lemma ensureInitialized_uninitialized (c : Channel.WebexChannel) (w : World) :
  Channel.initialized c = false ->
  Channel.ensureInitialized (c, w)
  = (Throw Channel.not_initialized_error, (c, w)).
Proof.
  intros H. unfold Channel.ensureInitialized, bind, Channel.this_.
  cbn [fst]. rewrite H. reflexivity.
Qed.

Lemma ensureInitialized_state (s : Channel.St) :
  snd (Channel.ensureInitialized s) = s.
Proof.
  unfold Channel.ensureInitialized, bind, Channel.this_.
  destruct (Channel.initialized (fst s)), (Channel.config (fst s)),
    (Channel.sender (fst s)), (Channel.webhookHandler (fst s)); reflexivity.
Qed.

(** *** Effects of the operations *)

Lemma initialize_effect (config : WebexChannelConfig)
  (c : Channel.WebexChannel) (w : World) :
  Channel.messageHandlers
    (fst (snd (Channel.initialize URL_parses config (c, w))))
  = Channel.messageHandlers c
  /\ notified (snd (snd (Channel.initialize URL_parses config (c, w))))
     = notified w.
Proof.
  unfold Channel.initialize, Channel.validateConfig.
  destruct (negb (Js.truthy (token config))); [split; reflexivity |].
  destruct (negb (Js.truthy (webhookUrl config))); [split; reflexivity |].
  destruct (negb (Js.present (dmPolicy config))); [split; reflexivity |].
  destruct (_ && _); [split; reflexivity |].
  destruct (negb (URL_parses (webhookUrl config))); [split; reflexivity |].
  unfold bind, Channel.assign, Channel.await, ret. cbn [fst snd].
  pose proof (quiet_initialize
                (Webhook.new_WebexWebhookHandler
                   (Channel.merge_defaults config)) w) as Q.
  destruct (Webhook.initialize _ w) as [[h' | e] w']; cbn [fst snd] in *;
    split; (reflexivity || exact Q).
Qed.

Lemma send_effect (message : OpenClawOutboundMessage)
  (c : Channel.WebexChannel) (w : World) :
  fst (snd (Channel.send base64_decode message (c, w))) = c
  /\ notified (snd (snd (Channel.send base64_decode message (c, w))))
     = notified w.
Proof.
  unfold Channel.send, bind.
  pose proof (ensureInitialized_state (c, w)) as E.
  destruct (Channel.ensureInitialized (c, w)) as [[[s h] | e] s'];
    cbn [snd] in E; subst s'; [| split; reflexivity].
  unfold Channel.await. cbn [fst snd].
  pose proof (quiet_send base64_decode s message w) as Q.
  destruct (Send.send base64_decode s message w) as [r w'].
  split; [reflexivity | exact Q].
Qed.

Lemma registerWebhooks_effect (c : Channel.WebexChannel) (w : World) :
  fst (snd (Channel.registerWebhooks (c, w))) = c
  /\ notified (snd (snd (Channel.registerWebhooks (c, w)))) = notified w.
Proof.
  unfold Channel.registerWebhooks, bind.
  pose proof (ensureInitialized_state (c, w)) as E.
  destruct (Channel.ensureInitialized (c, w)) as [[[s h] | e] s'];
    cbn [snd] in E; subst s'; [| split; reflexivity].
  unfold Channel.await. cbn [fst snd].
  pose proof (quiet_registerWebhooks h w) as Q.
  destruct (Webhook.registerWebhooks h w) as [r w'].
  split; [reflexivity | exact Q].
Qed.

(** A webhook invokes subscribers of the current list only, and leaves a
    part of that list. *)
Lemma handleWebhook_effect (payload : WebexWebhookPayload)
  (signature : option string) (c : Channel.WebexChannel) (w : World) :
  (forall h,
      In h (Channel.messageHandlers
              (fst (snd (Channel.handleWebhook payload signature (c, w))))) ->
      In h (Channel.messageHandlers c))
  /\ exists new,
      notified (snd (snd (Channel.handleWebhook payload signature (c, w))))
      = (new ++ notified w)%list
      /\ forall h, In h (List.map fst new) ->
                   In h (Channel.messageHandlers c).
Proof.
  unfold Channel.handleWebhook, bind.
  pose proof (ensureInitialized_state (c, w)) as E.
  destruct (Channel.ensureInitialized (c, w)) as [[[s h] | e] s'];
    cbn [snd] in E; subst s';
    [| split; [auto | exists []; split; [reflexivity | contradiction]]].
  unfold Channel.notifyHandlers, bind, Channel.this_, Channel.await, ret.
  cbn [fst snd].
  pose proof (quiet_handleWebhook h payload w) as Q.
  destruct (Webhook.handleWebhook h payload w) as [[[envelope |] | e] w'];
    cbn [snd] in Q;
    try (split; [auto
                | exists []; split; [exact Q | contradiction]]).
  cbn [fst snd].
  destruct (notify_from_effect envelope
              (List.length (Channel.messageHandlers c)) 0 c w')
    as (l & w'' & new & R & S & N & M).
  rewrite R. cbn [fst snd Channel.messageHandlers].
  split; [exact S |].
  exists new. split; [rewrite N, Q; reflexivity | exact M].
Qed.

(** *** Shutdown *)

Lemma shutdown_resets (c : Channel.WebexChannel) (w : World) :
  Channel.shutdown (c, w) = (Return tt, (Channel.createWebexChannel, w)).
Proof. reflexivity. Qed.

(** *** A subscriber that is not in the list and is not registered again
        is not invoked *)

Lemma run_op_keeps_out (h : Handler) (op : Spec.Op) (s : Channel.St) :
  ~ Spec.registers h op ->
  ~ In h (Channel.messageHandlers (fst s)) ->
  ~ In h (Channel.messageHandlers
            (fst (Spec.run_op URL_parses base64_decode op s)))
  /\ Spec.not_invoked h (snd s) (snd (Spec.run_op URL_parses base64_decode op s)).
Proof.
  intros R H. destruct s as [c w]. cbn [fst snd] in *.
  destruct op as [config | h' | h' | payload signature | message | |];
    cbn [Spec.run_op Spec.registers] in *.
  - destruct (initialize_effect config c w) as [E N]. rewrite E.
    split; [exact H | exists []; split; [exact N | simpl; tauto]].
  - split; [| exists []; split; [reflexivity | simpl; tauto]].
    cbn. rewrite in_app_iff. simpl. intuition congruence.
  - split; [| exists []; split; [reflexivity | simpl; tauto]].
    cbn. intros I. apply H. exact (remove_first_subset _ _ _ I).
  - destruct (handleWebhook_effect payload signature c w)
      as [E (new & N & S)].
    split; [intros I; apply H, E, I |].
    exists new. split; [exact N | intros I; apply H, S, I].
  - destruct (send_effect message c w) as [E N]. rewrite E.
    split; [exact H | exists []; split; [exact N | simpl; tauto]].
  - destruct (registerWebhooks_effect c w) as [E N]. rewrite E.
    split; [exact H | exists []; split; [exact N | simpl; tauto]].
  - split; [simpl; tauto | exists []; split; [reflexivity | simpl; tauto]].
Qed.

Lemma not_invoked_trans (h : Handler) (w1 w2 w3 : World) :
  Spec.not_invoked h w1 w2 -> Spec.not_invoked h w2 w3 -> Spec.not_invoked h w1 w3.
Proof.
  intros (n1 & E1 & H1) (n2 & E2 & H2). exists (n2 ++ n1)%list.
  split.
  - rewrite E2, E1, app_assoc. reflexivity.
  - rewrite map_app, in_app_iff. tauto.
Qed.

Lemma run_ops_keep_out (h : Handler) (ops : list Spec.Op) :
  forall s,
    (forall op, In op ops -> ~ Spec.registers h op) ->
    ~ In h (Channel.messageHandlers (fst s)) ->
    Spec.not_invoked h (snd s) (snd (Spec.run_ops URL_parses base64_decode ops s)).
Proof.
  induction ops as [| op ops IH]; intros s R H.
  - exists []. split; [reflexivity | simpl; tauto].
  - destruct (run_op_keeps_out h op s) as [H' N];
      [apply R; left; reflexivity | exact H |].
    cbn [Spec.run_ops fold_left].
    apply (not_invoked_trans h _ _ _ N).
    apply IH; [intros op' I; apply R; right; exact I | exact H'].
Qed.

Lemma not_invoked_since (h : Handler) (w w' : World) :
  Spec.not_invoked h w w' -> ~ In h (Spec.invoked_since w w').
Proof.
  intros (new & E & H). unfold Spec.invoked_since.
  rewrite E, length_app, Nat.add_sub, firstn_app, Nat.sub_diag.
  rewrite firstn_all, firstn_O, app_nil_r. exact H.
Qed.

(** C9: an operational method called on an uninitialized channel raises at
    once, touching neither the channel nor the world; [shutdown] leaves the
    channel as a new one (no subscriber, no sender, no webhook handler, no
    configuration, uninitialized); and whatever is done after a shutdown
    (initializing again, handling webhooks), a subscriber that is not
    registered again is not invoked. *)
Theorem channel_lifecycle (c : Channel.WebexChannel) (w : World) :
  (Channel.initialized c = false ->
   forall (message : OpenClawOutboundMessage)
          (payload : WebexWebhookPayload) (signature : option string),
     Channel.send base64_decode message (c, w)
     = (Throw Channel.not_initialized_error, (c, w))
     /\ Channel.handleWebhook payload signature (c, w)
        = (Throw Channel.not_initialized_error, (c, w))
     /\ Channel.registerWebhooks (c, w)
        = (Throw Channel.not_initialized_error, (c, w))
     /\ Channel.getSender (c, w)
        = (Throw Channel.not_initialized_error, (c, w))
     /\ Channel.getWebhookHandler (c, w)
        = (Throw Channel.not_initialized_error, (c, w)))
  /\ Channel.shutdown (c, w)
     = (Return tt, (Channel.mkChannel None None None [] false, w))
  /\ (forall (h : Handler) (ops : list Spec.Op),
         (forall op, In op ops -> ~ Spec.registers h op) ->
         ~ In h (Spec.invoked_since w
                   (snd (Spec.run_ops URL_parses base64_decode
                           (Spec.OpShutdown :: ops) (c, w))))).
Proof.
  split; [| split].
  - intros U message payload signature.
    unfold Channel.send, Channel.handleWebhook, Channel.registerWebhooks,
      Channel.getSender, Channel.getWebhookHandler, bind.
    rewrite (ensureInitialized_uninitialized c w U).
    repeat split.
  - reflexivity.
  - intros h ops R. apply not_invoked_since.
    cbn [Spec.run_ops fold_left Spec.run_op].
    rewrite shutdown_resets. cbn [snd].
    apply (run_ops_keep_out h ops (Channel.createWebexChannel, w) R).
    simpl. tauto.
Qed.

End Lifecycle.

Lemma channel_lifecycle_witness :
  Channel.send Node.base64_decode
    (Fixtures.outbound_text "room-123" "Hello!") Scenario.fresh
  = (Throw Channel.not_initialized_error, Scenario.fresh)
  /\ ~ In 7%nat
       (Spec.invoked_since (snd Scenario.subscribed)
          (snd (Scenario.run
                  [Spec.OpShutdown; Spec.OpInitialize Fixtures.config;
                   Scenario.webhook]
                  (fst Scenario.subscribed, snd Scenario.subscribed)))).
Proof.
  split.
  - destruct (channel_lifecycle Node.URL_parses Node.base64_decode
                Channel.createWebexChannel
                (Fixtures.world_of Scenario.script (1 # 2))) as (U & _).
    destruct (U eq_refl (Fixtures.outbound_text "room-123" "Hello!")
                (Fixtures.createPayload group) None) as (S & _).
    exact S.
  - destruct (channel_lifecycle Node.URL_parses Node.base64_decode
                (fst Scenario.subscribed) (snd Scenario.subscribed))
      as (_ & _ & N).
    apply (N 7%nat [Spec.OpInitialize Fixtures.config; Scenario.webhook]).
    intros op [<- | [<- | []]]; simpl; tauto.
Defined.

(** The scenario, evaluated: the webhook handled after the second
    initialization invokes nobody; without the shutdown it invokes
    subscriber 7, and a subscriber registered after the shutdown is invoked
    alone. *)
Example shutdown_scenario :
  Spec.invoked_since (snd Scenario.subscribed)
    (snd (Scenario.run
            [Spec.OpShutdown; Spec.OpInitialize Fixtures.config;
             Scenario.webhook] Scenario.subscribed)) = []
  /\ Spec.invoked_since (snd Scenario.subscribed)
       (snd (Scenario.run [Spec.OpInitialize Fixtures.config; Scenario.webhook]
               Scenario.subscribed)) = [7%nat]
  /\ Spec.invoked_since (snd Scenario.subscribed)
       (snd (Scenario.run
               [Spec.OpShutdown; Spec.OpInitialize Fixtures.config;
                Spec.OpOnMessage 8%nat; Scenario.webhook]
               Scenario.subscribed)) = [8%nat].
Proof. repeat split; vm_compute; reflexivity. Qed.

(* ================================================================== *)
(** * More on the retry loop: what every run leaves behind *)

Lemma repeat_snoc {A : Type} (x : A) (n : nat) (l : list A) :
  (List.repeat x n ++ x :: l = List.repeat x (S n) ++ l)%list.
Proof.
  induction n as [| n IH]; simpl; [reflexivity |].
  rewrite IH. reflexivity.
Qed.

Lemma firstn_length_app {A : Type} (l l' : list A) :
  firstn (List.length (l ++ l') - List.length l') (l ++ l') = l.
Proof.
  rewrite length_app, Nat.add_sub, firstn_app, Nat.sub_diag, firstn_all.
  simpl. apply app_nil_r.
Qed.

Section RetryTrace.

Variable this : Send.WebexSender.
Variable options : RequestOptions.

Let M := this.(Send.sender_retryOptions).(ro_maxRetries).
Let req := Spec.http_request this options.

Lemma retry_events_snoc (n : nat) :
  forall (ds : list Float.number) (d : Float.number),
    (1 <= n)%nat ->
    List.length ds = Nat.pred n ->
    Spec.retry_events req (S n) (ds ++ [d])
    = (Spec.retry_events req n ds ++ [Slept d; Drew; Fetched req])%list.
Proof.
  induction n as [| n IH]; intros ds d Hn Hl; [lia |].
  destruct n as [| n].
  - destruct ds; [reflexivity | discriminate Hl].
  - destruct ds as [| d0 ds]; [discriminate Hl |].
    cbn [Nat.pred List.length] in Hl.
    change (Spec.retry_events req (S (S (S n))) ((d0 :: ds) ++ [d]))
      with (Fetched req :: Slept d0 :: Drew
              :: Spec.retry_events req (S (S n)) (ds ++ [d])).
    rewrite IH by (cbn [Nat.pred]; lia). reflexivity.
Qed.

(** The same events in the order they happened. *)
Lemma rev_retry_events (n : nat) :
  forall ds : list Float.number,
    List.length ds = Nat.pred n ->
    List.rev (Spec.retry_events req n ds)
    = match n with
      | O => []
      | S _ =>
          Fetched req
            :: flat_map (fun d => [Drew; Slept d; Fetched req]) (List.rev ds)
      end.
Proof.
  induction n as [| n IH]; intros ds Hl; [reflexivity |].
  destruct n as [| n].
  - destruct ds; [reflexivity | discriminate Hl].
  - destruct ds as [| d ds]; [discriminate Hl |].
    cbn [Nat.pred List.length] in Hl.
    change (Spec.retry_events req (S (S n)) (d :: ds))
      with (Fetched req :: Slept d :: Drew
              :: Spec.retry_events req (S n) ds).
    cbn [List.rev]. rewrite IH by (cbn [Nat.pred]; lia).
    rewrite flat_map_app. cbn [flat_map app].
    rewrite <- !app_assoc. reflexivity.
Qed.

(** With the fuel [request] supplies, every run of the loop leaves the
    trace described by [Spec.loop_trace]. *)
Lemma loop_leaves_trace (fuel : nat) :
  forall (a : Z) (last : option Error) (w : World),
    (Z.to_nat (M + 1 - a) < fuel)%nat ->
    exists n,
      Spec.loop_trace this options a w
        (fst (Send.request_loop fuel this options a last w))
        (snd (Send.request_loop fuel this options a last w)) n.
Proof.
  induction fuel as [| fuel IH]; intros a last w Hf; [lia |].
  unfold Spec.loop_trace. fold M. fold req.
  cbn [Send.request_loop]. fold M.
  destruct (a <=? M) eqn:Ha.
  - apply Z.leb_le in Ha.
    unfold try_catch. rewrite (executeRequest_run this options). fold req.
    destruct (Spec.attempt_result (Spec.outcome w req 0)) as [j | e] eqn:R.
    + exists 1%nat. cbn [fst snd]. unfold Spec.after_fetch.
      cbn [net fetched slept drawn notified events List.repeat app Nat.pred].
      repeat split; try reflexivity; try lia.
      * exists []. repeat split. constructor.
      * intros _. symmetry. exact R.
    + destruct (a + 1 >? M) eqn:G;
        [| destruct (Send.shouldRetry e (a + 1)) eqn:SR].
      * exists 1%nat. cbn [fst snd Send.throw_last throw].
        unfold Spec.after_fetch.
        cbn [net fetched slept drawn notified events List.repeat app Nat.pred].
        repeat split; try reflexivity; try lia.
        -- exists []. repeat split. constructor.
        -- intros _. symmetry. exact R.
      * cbn [negb].
        change ((delay <- Send.calculateBackoff this (a + 1);;
                 sleep delay;;;
                 Send.request_loop fuel this options (a + 1) (Some e))
                  (Spec.after_fetch req w))
          with (Send.request_loop fuel this options (a + 1) (Some e)
                  (Spec.after_backoff this (a + 1) (Spec.after_fetch req w))).
        rewrite Z.gtb_ltb in G. apply Z.ltb_ge in G.
        set (w2 := Spec.after_backoff this (a + 1) (Spec.after_fetch req w)).
        destruct (IH (a + 1) (Some e) w2 ltac:(lia))
          as (n & N & F & B & P & (ds & SL & LD & FD & EV) & D & NT & RS).
        specialize (P G).
        exists (S n).
        split; [rewrite N; reflexivity |].
        split; [rewrite F; unfold w2;
                rewrite (after_backoff_fetched this);
                unfold Spec.after_fetch; cbn [fetched];
                apply repeat_snoc |].
        split; [lia |].
        split; [lia |].
        split.
        { destruct (calculateBackoff_capped this (a + 1)
                      (Spec.after_fetch req w)) as (d & CB & Hd).
          exists (ds ++ [d])%list. rewrite SL, EV.
          unfold w2, Spec.after_backoff, bind.
          rewrite CB. cbn [sleep snd slept events].
          unfold Spec.after_fetch. cbn [slept events].
          rewrite <- !app_assoc. split; [reflexivity |].
          split; [rewrite length_app; simpl; lia |].
          split; [apply Forall_app; split;
                  [exact FD | constructor; [exact Hd | constructor]] |].
          rewrite retry_events_snoc by lia.
          rewrite <- app_assoc. reflexivity. }
        split; [rewrite D; unfold w2; simpl; lia |].
        split; [rewrite NT; reflexivity |].
        intros _. rewrite (RS P). unfold w2.
        rewrite (outcome_after_retry this options).
        f_equal. f_equal. cbn [Nat.pred]. lia.
      * exists 1%nat. cbn [negb fst snd Send.throw_last throw].
        unfold Spec.after_fetch.
        cbn [net fetched slept drawn notified events List.repeat app Nat.pred].
        repeat split; try reflexivity; try lia.
        -- exists []. repeat split. constructor.
        -- intros _. symmetry. exact R.
  - apply Z.leb_gt in Ha. exists 0%nat.
    cbn [fst snd Send.throw_last throw List.repeat app Nat.pred].
    repeat split; try reflexivity; try lia.
    exists []. repeat split. constructor.
Qed.

Lemma request_leaves_trace (w : World) :
  exists n,
    Spec.loop_trace this options 0 w
      (fst (Send.request this options w))
      (snd (Send.request this options w)) n.
Proof.
  unfold Send.request. fold M. apply loop_leaves_trace.
  rewrite Z.sub_0_r. lia.
Qed.

End RetryTrace.

Section RequestProperties.

Variable this : Send.WebexSender.
Variable options : RequestOptions.
Variable w : World.

Let M := this.(Send.sender_retryOptions).(ro_maxRetries).
Let req := Spec.http_request this options.
Let w' := snd (Send.request this options w).

Lemma request_trace_calls (n : nat) (r : Result Json) :
  Spec.loop_trace this options 0 w r w' n ->
  Spec.calls w w' = Z.of_nat n
  /\ Spec.fetched_since w w' = List.repeat req n.
Proof.
  intros (_ & F & _). unfold Spec.calls, Spec.fetched_since.
  rewrite F. fold req. rewrite firstn_length_app.
  rewrite length_app, repeat_length. split; [lia | reflexivity].
Qed.

(** X1: whatever the network answers, a request makes at most
    [maxRetries + 1] calls, and none when the budget is negative. *)
Theorem request_call_bound :
  0 <= Spec.calls w w' <= Z.max 0 (M + 1).
Proof.
  destruct (request_leaves_trace this options w) as (n & T).
  destruct (request_trace_calls n _ T) as [C _].
  destruct T as (_ & _ & B & _). fold M in B. rewrite Z.sub_0_r in B.
  fold w' in C. lia.
Qed.

(** X2: the attempts of one request all send the same HTTP request: the
    URL is the API base followed by the path, the method and body are those
    of the options, and the headers carry the bearer token. *)
Theorem request_repeats_one_request :
  Spec.fetched_since w w'
  = List.repeat
      (mkHttpRequest
         (this.(Send.sender_apiBaseUrl) ++ options.(path))%string
         options.(method)
         [("Authorization",
           ("Bearer " ++ this.(Send.sender_config).(token))%string);
          ("Content-Type", "application/json")]
         options.(body))
      (Z.to_nat (Spec.calls w w')).
Proof.
  destruct (request_leaves_trace this options w) as (n & T).
  destruct (request_trace_calls n _ T) as [C F].
  rewrite F, C, Nat2Z.id. reflexivity.
Qed.

(** X3: what a request does, in the order it does it: a call; then, for
    each further call, a draw of [Math.random], a sleep and the call.  So
    it sleeps exactly once between two consecutive calls, after drawing
    the one random number its delay is computed from, and never before
    the first call or after the last.  No sleep exceeds 30000 ms, and no
    subscriber is invoked. *)
Theorem request_sleeps_between_calls :
  exists delays : list Float.number,
    List.rev (Spec.events_since w w')
    = match Z.to_nat (Spec.calls w w') with
      | O => []
      | S _ =>
          Fetched req
            :: flat_map (fun d => [Drew; Slept d; Fetched req]) delays
      end
    /\ List.length delays = Nat.pred (Z.to_nat (Spec.calls w w'))
    /\ Forall (fun d => Float.exceeds d (Float.nearest 30000) = false)
              delays
    /\ List.rev (Spec.slept_since w w') = delays
    /\ drawn w' = (drawn w + List.length delays)%nat
    /\ notified w' = notified w.
Proof.
  destruct (request_leaves_trace this options w) as (n & T).
  destruct (request_trace_calls n _ T) as [C _].
  destruct T as (_ & _ & _ & _ & (ds & SL & LD & FD & EV) & D & NT & _).
  fold w' in SL, D, NT, EV. fold req in EV. rewrite C, Nat2Z.id.
  exists (List.rev ds).
  unfold Spec.events_since, Spec.slept_since.
  rewrite EV, SL, !firstn_length_app.
  split; [apply (rev_retry_events this options); exact LD |].
  split; [rewrite length_rev; exact LD |].
  split; [apply Forall_rev; exact FD |].
  split; [reflexivity |].
  split; [rewrite length_rev, LD; exact D | exact NT].
Qed.

(** X4: with a budget that is not negative, a request returns or raises
    exactly what its last call returned or raised. *)
Theorem request_result_is_last_attempt :
  0 <= M ->
  fst (Send.request this options w)
  = Spec.attempt_result
      (Spec.outcome w req (Nat.pred (Z.to_nat (Spec.calls w w')))).
Proof.
  intros HM.
  destruct (request_leaves_trace this options w) as (n & T).
  destruct (request_trace_calls n _ T) as [C _].
  destruct T as (_ & _ & _ & P & _ & _ & _ & R).
  fold M in P. specialize (P HM).
  rewrite C, Nat2Z.id. fold req in R. exact (R P).
Qed.

(** X5: with a negative retry budget a request makes no call at all and
    raises the generic error. *)
Theorem request_without_budget :
  M < 0 ->
  Send.request this options w
  = (Throw (GenericError "Request failed after retries"), w).
Proof.
  intros HM. unfold Send.request. fold M.
  replace (Z.to_nat (M + 1)) with 0%nat by lia.
  cbn [Send.request_loop]. fold M.
  assert (L : (0 <=? M) = false) by (apply Z.leb_gt; exact HM).
  rewrite L. reflexivity.
Qed.

End RequestProperties.

(** Two rate-limited replies and then a success, with base delay 10 and
    draws of one half: call, draw, sleep 11.5 ms, call, draw, sleep 23 ms,
    call. *)
Example request_events_in_order :
  let w := Fixtures.world_of
             [Fixtures.rate_limited; Fixtures.rate_limited;
              Fixtures.ok_response (JsonMessage Fixtures.mockMessage)]
             (1 # 2) in
  let req := Spec.http_request (Fixtures.fastSender 3)
               Fixtures.post_message in
  List.rev (Spec.events_since w
              (snd (Send.request (Fixtures.fastSender 3)
                      Fixtures.post_message w)))
  = [Fetched req; Drew; Slept (Float.Finite (23 # 2)); Fetched req;
     Drew; Slept (Float.Finite 23); Fetched req].
Proof. vm_compute. reflexivity. Qed.

Lemma request_result_is_last_attempt_witness :
  fst (Send.request (Fixtures.fastSender 3) Fixtures.post_message
         (Fixtures.world_of
            [Fixtures.rate_limited; Fixtures.bad_request] (1 # 2)))
  = Throw (WebexApiRequestError "Bad Request" 400 None None).
Proof.
  rewrite (request_result_is_last_attempt (Fixtures.fastSender 3)
             Fixtures.post_message
             (Fixtures.world_of
                [Fixtures.rate_limited; Fixtures.bad_request] (1 # 2))).
  - reflexivity.
  - simpl. lia.
Defined.

Lemma request_without_budget_witness :
  Send.request (Fixtures.fastSender (-1)) Fixtures.post_message
    (Fixtures.world_of [Fixtures.rate_limited] (1 # 2))
  = (Throw (GenericError "Request failed after retries"),
     Fixtures.world_of [Fixtures.rate_limited] (1 # 2)).
Proof.
  apply (request_without_budget (Fixtures.fastSender (-1))
           Fixtures.post_message
           (Fixtures.world_of [Fixtures.rate_limited] (1 # 2))).
  simpl. lia.
Defined.

(* ================================================================== *)
(** * Validation happens before the network *)

Section Validation.

Variable base64_decode : string -> option string.
Variable this : Send.WebexSender.
Variable w : World.

(** X6: a message with a target but no content (no non-empty text or
    markdown, no file, no card) is rejected by [send] with the content
    error, and the world is untouched: no call is made. *)
Theorem send_without_content_is_rejected_locally
  (message : OpenClawOutboundMessage) :
  Js.truthy message.(to) = true ->
  Js.truthy_opt message.(content).(c_text) = false ->
  Js.truthy_opt message.(content).(c_markdown) = false ->
  Send.no_length message.(content).(c_files) = true ->
  message.(content).(c_card) = None ->
  Send.send base64_decode this message w
  = (Throw (GenericError
       "Message must have content: text, markdown, files, or attachments"),
     w).
Proof.
  intros HT HX HM HF HC.
  unfold Send.send, Send.createMessage, bind, Send.validateMessageRequest,
    Send.buildMessageRequest.
  rewrite HX, HM, HC.
  destruct (c_files (content message)) as [[| f0 fs] |];
    try discriminate HF;
    destruct (Js.truthy_opt (out_parentId message));
    destruct (Js.includes (to message) "@");
    destruct (Js.startsWith (to message) "Y2lzY29zcGFyazovL3");
    destruct (base64_decode (to message)) as [decoded |];
    try destruct (Js.includes decoded "/ROOM/");
    try destruct (Js.includes decoded "/PEOPLE/");
    cbn; rewrite ?HT; reflexivity.
Qed.

(** X7: a message whose [to] is empty is rejected by [send] with the
    target error, whatever its content, and no call is made. *)
Theorem send_without_target_is_rejected_locally
  (message : OpenClawOutboundMessage) :
  message.(to) = "" ->
  Send.send base64_decode this message w
  = (Throw (GenericError
       "Message must have a target: roomId, toPersonId, or toPersonEmail"),
     w).
Proof.
  intros HT.
  unfold Send.send, Send.createMessage, bind, Send.validateMessageRequest,
    Send.buildMessageRequest.
  rewrite HT.
  destruct (Js.truthy_opt (c_text (content message)));
    destruct (Js.truthy_opt (c_markdown (content message)));
    destruct (c_files (content message)) as [[| f0 fs] |];
    destruct (c_card (content message));
    destruct (Js.truthy_opt (out_parentId message));
    reflexivity.
Qed.

(** X8: on the paths that set [text], the limit is on the byte length and
    is inclusive: [sendToRoom] rejects a text of more than 7439 bytes
    before any call, and takes a non-empty text of at most 7439 bytes to
    the network. *)
Theorem sendToRoom_text_limit (room text_ : string)
  (markdown_ : option string) :
  Js.truthy room = true ->
  Js.truthy text_ = true ->
  (7439 < Z.of_nat (String.length text_) ->
   Send.sendToRoom this room text_ markdown_ w
   = (Throw (GenericError "Message text exceeds maximum size of 7439 bytes"),
      w))
  /\ (Z.of_nat (String.length text_) <= 7439 ->
      Send.sendToRoom this room text_ markdown_ w
      = Send.request this
          (mkOptions POST "/messages"
             (Some (MessageBody
                      (mkRequest (Some room) None None (Some text_)
                                 markdown_ None None None)))) w).
Proof.
  intros HR HT.
  unfold Send.sendToRoom, Send.createMessage, bind,
    Send.validateMessageRequest.
  cbn [roomId toPersonId toPersonEmail text markdown files attachments
       Js.truthy_opt Js.nullish].
  rewrite HR, HT. cbn [negb andb].
  split; intros HL.
  - assert (G : (Z.of_nat (String.length text_) >? 7439) = true)
      by (apply Z.gtb_lt; lia).
    rewrite G. reflexivity.
  - assert (G : (Z.of_nat (String.length text_) >? 7439) = false)
      by (rewrite Z.gtb_ltb; apply Z.ltb_ge; lia).
    rewrite G. reflexivity.
Qed.

(** X9: a reply 204 ends [deleteMessage] successfully after a single call
    and without reading the body, which need not be JSON. *)
Theorem deleteMessage_no_content (messageId : string) (r : Response) :
  0 <= this.(Send.sender_retryOptions).(ro_maxRetries) ->
  Spec.outcome w
    (Spec.http_request this
       (mkOptions DELETE ("/messages/" ++ messageId) None)) 0
  = Resolved r ->
  ok r = true ->
  status r = 204 ->
  fst (Send.deleteMessage this messageId w) = Return tt
  /\ Spec.calls w (snd (Send.deleteMessage this messageId w)) = 1.
Proof.
  intros HM HO HK HS.
  unfold Send.deleteMessage, bind, Send.request.
  rewrite (loop_returns this _ _ _ _ _ JsonUndefined);
    [| exact HM
     | rewrite HO; cbn [Spec.attempt_result]; rewrite HK, HS; reflexivity].
  split; [reflexivity |].
  unfold Spec.calls, Spec.after_fetch. cbn [ret snd fetched List.length]. lia.
Qed.

End Validation.

Lemma send_without_content_is_rejected_locally_witness :
  Send.send Node.base64_decode (Send.new_WebexSender Fixtures.config)
    (mkOutbound "room-123" Fixtures.no_content None)
    (Fixtures.world_of [] (1 # 2))
  = (Throw (GenericError
       "Message must have content: text, markdown, files, or attachments"),
     Fixtures.world_of [] (1 # 2)).
Proof.
  apply (send_without_content_is_rejected_locally Node.base64_decode
           (Send.new_WebexSender Fixtures.config)
           (Fixtures.world_of [] (1 # 2))
           (mkOutbound "room-123" Fixtures.no_content None));
    reflexivity.
Defined.

Lemma send_without_target_is_rejected_locally_witness :
  Send.send Node.base64_decode (Send.new_WebexSender Fixtures.config)
    (Fixtures.outbound_text "" "Hello!") (Fixtures.world_of [] (1 # 2))
  = (Throw (GenericError
       "Message must have a target: roomId, toPersonId, or toPersonEmail"),
     Fixtures.world_of [] (1 # 2)).
Proof.
  apply (send_without_target_is_rejected_locally Node.base64_decode
           (Send.new_WebexSender Fixtures.config)
           (Fixtures.world_of [] (1 # 2))
           (Fixtures.outbound_text "" "Hello!")).
  reflexivity.
Defined.

Lemma sendToRoom_text_limit_witness :
  Send.sendToRoom (Send.new_WebexSender Fixtures.config) "room-123"
    (Js.repeat "x" (Z.to_nat 7440)) None (Fixtures.world_of [] (1 # 2))
  = (Throw (GenericError "Message text exceeds maximum size of 7439 bytes"),
     Fixtures.world_of [] (1 # 2)).
Proof.
  destruct (sendToRoom_text_limit (Send.new_WebexSender Fixtures.config)
              (Fixtures.world_of [] (1 # 2)) "room-123"
              (Js.repeat "x" (Z.to_nat 7440)) None) as [H _].
  - reflexivity.
  - vm_compute. reflexivity.
  - apply H. vm_compute. reflexivity.
Defined.

Lemma deleteMessage_no_content_witness :
  fst (Send.deleteMessage (Send.new_WebexSender Fixtures.config) "message-123"
         (Fixtures.world_of [Fixtures.no_content_reply] (1 # 2)))
  = Return tt
  /\ Spec.calls (Fixtures.world_of [Fixtures.no_content_reply] (1 # 2))
       (snd (Send.deleteMessage (Send.new_WebexSender Fixtures.config)
               "message-123"
               (Fixtures.world_of [Fixtures.no_content_reply] (1 # 2)))) = 1.
Proof.
  apply (deleteMessage_no_content (Send.new_WebexSender Fixtures.config)
           (Fixtures.world_of [Fixtures.no_content_reply] (1 # 2))
           "message-123"
           (mkResponse true 204 "No Content"
              (Throw (GenericError "Unexpected end of JSON input")) ""));
    try reflexivity.
  vm_compute. discriminate.
Defined.

(* ================================================================== *)
(** * More on the webhook handler *)

Section HandlerProperties.

Variable this : Webhook.WebexWebhookHandler.
Variable payload : WebexWebhookPayload.
Variable w : World.

(** What [fetchMessage] does on each outcome of its one call. *)
Lemma fetchMessage_run :
  Webhook.fetchMessage this payload.(data).(data_id) w
  = (match Spec.outcome w (Spec.message_request this payload) 0 with
     | Rejected e => Throw e
     | Resolved r =>
         if ok r then
           match json r with
           | Return j => Return (Webhook.as_message j)
           | Throw e => Throw e
           end
         else Throw (GenericError
                       ("Failed to fetch message: " ++ Webhook.status_line r))
     end,
     Spec.after_fetch (Spec.message_request this payload) w).
Proof.
  unfold Spec.outcome. rewrite Nat.add_0_r.
  unfold Webhook.fetchMessage, bind, fetch.
  fold (Spec.message_request this payload).
  destruct (net w _ _) as [r | e]; [| reflexivity].
  destruct (ok r); cbn [negb]; [| reflexivity].
  unfold response_json, ret. destruct (json r); reflexivity.
Qed.

(** X10: a notification that is not about a created message, or whose
    sender is the bot itself, yields [null] without any network call. *)
Theorem handleWebhook_filters_without_network :
  payload.(resource) <> messages
  \/ payload.(event) <> created
  \/ this.(Webhook.botId) = Some payload.(data).(data_personId) ->
  Webhook.handleWebhook this payload w = (Return None, w).
Proof.
  intros H. unfold Webhook.handleWebhook.
  destruct (Webhook.resource_eqb (resource payload) messages) eqn:R;
    [| reflexivity].
  destruct (Webhook.event_eqb (event payload) created) eqn:E;
    [| reflexivity].
  cbn [negb orb].
  destruct H as [H | [H | H]].
  - destruct (resource payload); try discriminate R. contradiction.
  - destruct (event payload); try discriminate E. contradiction.
  - rewrite H. unfold Webhook.is_bot. rewrite String.eqb_refl. reflexivity.
Qed.

(** X11: [handleWebhook] makes at most one call, and that call is the GET
    of the notified message with the bearer token. *)
Theorem handleWebhook_at_most_one_call :
  Spec.fetched_since w (snd (Webhook.handleWebhook this payload w)) = []
  \/ Spec.fetched_since w (snd (Webhook.handleWebhook this payload w))
     = [mkHttpRequest
          (this.(Webhook.handler_apiBaseUrl) ++ "/messages/"
             ++ payload.(data).(data_id))%string
          GET
          [("Authorization",
            ("Bearer " ++ this.(Webhook.handler_config).(token))%string);
           ("Content-Type", "application/json")]
          None].
Proof.
  unfold Webhook.handleWebhook.
  destruct (_ || _);
    [left; unfold Spec.fetched_since; cbn; rewrite Nat.sub_diag; reflexivity |].
  destruct (Webhook.is_bot _ _);
    [left; unfold Spec.fetched_since; cbn; rewrite Nat.sub_diag; reflexivity |].
  destruct (_ && _);
    [left; unfold Spec.fetched_since; cbn; rewrite Nat.sub_diag; reflexivity |].
  right. unfold bind. rewrite fetchMessage_run.
  assert (F : forall (r : Result (option OpenClawEnvelope)) ,
             Spec.fetched_since w
               (Spec.after_fetch (Spec.message_request this payload) w)
             = [Spec.message_request this payload]).
  { intros _. unfold Spec.fetched_since, Spec.after_fetch.
    cbn [fetched List.length].
    replace (S (List.length (fetched w)) - List.length (fetched w))%nat
      with 1%nat by lia.
    reflexivity. }
  destruct (match Spec.outcome w _ 0 with Resolved _ => _ | Rejected _ => _ end);
    cbn [snd ret]; apply (F (Return None)).
Qed.

(** X12: an envelope returned by [handleWebhook] is built from the reply to
    the one call: it carries the fetched message's id, room, text and
    markdown unchanged, keeps the message itself as [raw], and is never
    marked as coming from a bot. *)
Theorem handleWebhook_envelope_carries_message
  (envelope : OpenClawEnvelope) (w' : World) :
  Webhook.handleWebhook this payload w = (Return (Some envelope), w') ->
  exists r j,
    Spec.outcome w (Spec.message_request this payload) 0 = Resolved r
    /\ ok r = true
    /\ json r = Return j
    /\ w' = Spec.after_fetch (Spec.message_request this payload) w
    /\ forall m, j = JsonMessage m ->
         env_id envelope = msg_id m
         /\ env_conversationId envelope = msg_roomId m
         /\ env_roomId envelope = msg_roomId m
         /\ env_author_id envelope = msg_personId m
         /\ env_text envelope = msg_text m
         /\ env_markdown envelope = msg_markdown m
         /\ env_parentId envelope = msg_parentId m
         /\ env_mentions envelope = msg_mentionedPeople m
         /\ env_raw envelope = m
         /\ env_author_isBot envelope = false.
Proof.
  unfold Webhook.handleWebhook.
  destruct (_ || _); [discriminate |].
  destruct (Webhook.is_bot _ _); [discriminate |].
  destruct (_ && _); [discriminate |].
  unfold bind. rewrite fetchMessage_run.
  destruct (Spec.outcome w _ 0) as [r | e] eqn:O; [| discriminate].
  destruct (ok r) eqn:K; [| discriminate].
  destruct (json r) as [j | e] eqn:J; [| discriminate].
  cbn [ret]. intros H. injection H as <- <-.
  exists r, j. split; [reflexivity |]. split; [exact K |].
  split; [exact J |]. split; [reflexivity |].
  intros m ->. cbn. repeat split.
Qed.

End HandlerProperties.

Lemma handleWebhook_filters_without_network_witness :
  Webhook.handleWebhook (Fixtures.handler_with Fixtures.config)
    (mkPayload "webhook-id" "Test Webhook" "https://example.com/webhook"
       messages created "org-123" "user-123" "app-123" "creator" "active"
       "2024-01-01T00:00:00.000Z" "actor-123"
       (mkData "message-123" "room-123" group "bot-123" "bot@example.com"
               "2024-01-01T00:00:00.000Z"))
    (Fixtures.world_of [] (1 # 2))
  = (Return None, Fixtures.world_of [] (1 # 2)).
Proof.
  apply (handleWebhook_filters_without_network
           (Fixtures.handler_with Fixtures.config)).
  right. right. reflexivity.
Defined.

Lemma handleWebhook_envelope_carries_message_witness :
  exists r j,
    Spec.outcome
      (Fixtures.world_of
         [Fixtures.ok_response (JsonMessage Fixtures.mockMessage)] (1 # 2))
      (Spec.message_request (Fixtures.handler_with Fixtures.config)
         (Fixtures.createPayload group)) 0 = Resolved r
    /\ ok r = true
    /\ json r = Return j
    /\ snd (Webhook.handleWebhook (Fixtures.handler_with Fixtures.config)
              (Fixtures.createPayload group)
              (Fixtures.world_of
                 [Fixtures.ok_response (JsonMessage Fixtures.mockMessage)]
                 (1 # 2)))
       = Spec.after_fetch
           (Spec.message_request (Fixtures.handler_with Fixtures.config)
              (Fixtures.createPayload group))
           (Fixtures.world_of
              [Fixtures.ok_response (JsonMessage Fixtures.mockMessage)]
              (1 # 2))
    /\ forall m, j = JsonMessage m ->
         env_id (Webhook.normalizeMessage Fixtures.mockMessage) = msg_id m
         /\ env_conversationId (Webhook.normalizeMessage Fixtures.mockMessage)
            = msg_roomId m
         /\ env_roomId (Webhook.normalizeMessage Fixtures.mockMessage)
            = msg_roomId m
         /\ env_author_id (Webhook.normalizeMessage Fixtures.mockMessage)
            = msg_personId m
         /\ env_text (Webhook.normalizeMessage Fixtures.mockMessage)
            = msg_text m
         /\ env_markdown (Webhook.normalizeMessage Fixtures.mockMessage)
            = msg_markdown m
         /\ env_parentId (Webhook.normalizeMessage Fixtures.mockMessage)
            = msg_parentId m
         /\ env_mentions (Webhook.normalizeMessage Fixtures.mockMessage)
            = msg_mentionedPeople m
         /\ env_raw (Webhook.normalizeMessage Fixtures.mockMessage) = m
         /\ env_author_isBot (Webhook.normalizeMessage Fixtures.mockMessage)
            = false.
Proof.
  apply (handleWebhook_envelope_carries_message
           (Fixtures.handler_with Fixtures.config)
           (Fixtures.createPayload group)
           (Fixtures.world_of
              [Fixtures.ok_response (JsonMessage Fixtures.mockMessage)] (1 # 2))
           (Webhook.normalizeMessage Fixtures.mockMessage)).
  reflexivity.
Defined.

(* ================================================================== *)
(** * Signatures that verify *)

(** X13: with a secret configured, [verifySignature] returns [true] for the
    hex-encoded HMAC-SHA1 of the body under that secret and for no other
    signature. *)
Theorem verifySignature_true_iff_digest
  (JSON_stringify : WebexWebhookPayload -> string)
  (this : Webhook.WebexWebhookHandler) (payload : WebexWebhookPayload)
  (signature : string) (body : option string) :
  Js.truthy_opt this.(Webhook.handler_config).(webhookSecret) = true ->
  (Webhook.verifySignature JSON_stringify this payload signature body
   = Return true
   <-> signature
       = Crypto.createHmac_sha1_hex
           (Js.nullish this.(Webhook.handler_config).(webhookSecret) "")
           (Js.nullish body (JSON_stringify payload))).
Proof.
  intros H. unfold Webhook.verifySignature. rewrite H. cbn [negb].
  unfold Webhook.timingSafeEqual.
  destruct (String.length signature =? _)%nat eqn:L.
  - split.
    + intros E. injection E as E. apply String.eqb_eq. exact E.
    + intros E. f_equal. apply String.eqb_eq. exact E.
  - split; [discriminate |].
    intros E. rewrite <- E, Nat.eqb_refl in L. discriminate L.
Qed.

Lemma verifySignature_true_iff_digest_witness :
  Webhook.verifySignature Node.JSON_stringify Fixtures.secretHandler
    (Fixtures.createPayload group)
    "96c1e06c65530b3312bef2064879c86652378620" None
  = Return true.
Proof.
  apply (verifySignature_true_iff_digest Node.JSON_stringify
           Fixtures.secretHandler (Fixtures.createPayload group)
           "96c1e06c65530b3312bef2064879c86652378620" None).
  - reflexivity.
  - vm_compute. reflexivity.
Defined.

(* ================================================================== *)
(** * Registering webhooks with the provider *)

Section RegisterWebhooks.

Variable this : Webhook.WebexWebhookHandler.

Let targetUrl := this.(Webhook.handler_config).(webhookUrl).
Let del (webhook : WebexWebhook) : HttpRequest :=
  Spec.delete_request this webhook.(wh_id).

Lemma deleteWebhook_run (webhookId : string) (w : World) :
  snd (Webhook.deleteWebhook this webhookId w)
  = Spec.after_fetch (Spec.delete_request this webhookId) w.
Proof.
  unfold Webhook.deleteWebhook, bind, fetch.
  fold (Spec.delete_request this webhookId).
  destruct (net w _ _) as [r | e]; [| reflexivity].
  destruct (_ && _); reflexivity.
Qed.

(** The deletions go through the duplicates in order and stop at the first
    failure. *)
Lemma delete_matching_trace (existing : list WebexWebhook) :
  forall w res w',
    Webhook.delete_matching this targetUrl existing w = (res, w') ->
    exists k,
      fetched w'
      = (List.rev (List.map del (firstn k (Spec.duplicates this existing)))
           ++ fetched w)%list
      /\ net w' = net w
      /\ (res = Return tt ->
          firstn k (Spec.duplicates this existing)
          = Spec.duplicates this existing).
Proof.
  unfold Spec.duplicates. fold targetUrl.
  induction existing as [| webhook rest IH]; intros w res w' H.
  - injection H as <- <-. exists 0%nat. repeat split.
  - cbn [Webhook.delete_matching List.filter] in *.
    destruct (String.eqb (wh_targetUrl webhook) targetUrl).
    + unfold bind in H.
      pose proof (deleteWebhook_run (wh_id webhook) w) as D.
      destruct (Webhook.deleteWebhook this (wh_id webhook) w) as [[[] | e] w1];
        cbn [snd] in D; subst w1.
      * destruct (IH _ _ _ H) as (k & F & N & R).
        exists (S k). cbn [firstn List.map List.rev].
        rewrite F, N. unfold Spec.after_fetch. cbn [fetched net].
        rewrite <- app_assoc. repeat split.
        intros E. rewrite (R E). reflexivity.
      * injection H as <- <-.
        exists 1%nat. cbn [firstn List.map List.rev app].
        unfold Spec.after_fetch. cbn [fetched net].
        repeat split. discriminate.
    + unfold bind in H. cbn [ret] in H. exact (IH _ _ _ H).
Qed.

(** The calls of [registerWebhooks], newest first: the listing, then the
    deletions of duplicates, then at most one creation. *)
Lemma registerWebhooks_trace (w : World) :
  forall res w',
    Webhook.registerWebhooks this w = (res, w') ->
    exists k creates,
      Spec.fetched_since w w'
      = (creates
           ++ List.rev (List.map del
                (firstn k (Spec.duplicates this (Spec.listed this w))))
           ++ [Spec.list_request this])%list
      /\ (creates = [] \/ creates = [Spec.create_request this])
      /\ (forall webhooks,
             res = Return webhooks ->
             creates = [Spec.create_request this]
             /\ firstn k (Spec.duplicates this (Spec.listed this w))
                = Spec.duplicates this (Spec.listed this w)
             /\ exists j, webhooks = [j]).
Proof.
  intros res w' H.
  assert (FS : forall l w3, fetched w3 = (l ++ fetched w)%list ->
                            Spec.fetched_since w w3 = l).
  { intros l w3 E. unfold Spec.fetched_since. rewrite E.
    apply firstn_length_app. }
  assert (Stop : forall e0 w3,
             (res, w') = (@Throw (list Json) e0, w3) ->
             fetched w3 = Spec.list_request this :: fetched w ->
             exists k creates,
               Spec.fetched_since w w'
               = (creates
                    ++ List.rev (List.map del
                         (firstn k (Spec.duplicates this (Spec.listed this w))))
                    ++ [Spec.list_request this])%list
               /\ (creates = [] \/ creates = [Spec.create_request this])
               /\ (forall webhooks,
                      res = Return webhooks ->
                      creates = [Spec.create_request this]
                      /\ firstn k (Spec.duplicates this (Spec.listed this w))
                         = Spec.duplicates this (Spec.listed this w)
                      /\ exists j, webhooks = [j])).
  { intros e0 w3 E F. injection E as -> ->.
    exists 0%nat, []. cbn [firstn List.map List.rev app].
    split; [apply FS; rewrite F; reflexivity |].
    split; [left; reflexivity | discriminate]. }
  unfold Webhook.registerWebhooks, Webhook.listWebhooks in H.
  unfold bind at 1 2 in H. unfold fetch at 1 in H.
  fold (Spec.list_request this) in H.
  destruct (net w (List.length (fetched w)) (Spec.list_request this))
    as [r | e] eqn:O; [| symmetry in H; exact (Stop _ _ H eq_refl)].
  destruct (ok r); cbn [negb] in H;
    [| symmetry in H; exact (Stop _ _ H eq_refl)].
  unfold response_json at 1 in H. unfold bind at 1 in H.
  destruct (json r) as [data_ | e] eqn:J; cbn [ret] in H;
    [| symmetry in H; exact (Stop _ _ H eq_refl)].
  destruct data_ as [m | ae | b | wh | items | |];
    cbn [Webhook.json_items] in H; unfold bind at 1 in H;
    try (symmetry in H; exact (Stop _ _ H eq_refl)).
  assert (L : Spec.listed this w = items).
  { unfold Spec.listed, Spec.outcome. rewrite Nat.add_0_r, O, J.
    reflexivity. }
  rewrite L. clear Stop.
  fold targetUrl in H.
  set (w1 := mkWorld (net w) (Spec.list_request this :: fetched w)
               (random_source w) (drawn w) (slept w)
               (handler_fails w) (handler_unsubscribes w) (notified w)
             (Fetched (Spec.list_request this) :: events w)) in H.
  destruct (Webhook.delete_matching this targetUrl items w1)
    as [[[] | e] w2] eqn:DM;
    destruct (delete_matching_trace items _ _ _ DM) as (k & F & N & R).
  - unfold Webhook.createWebhook, bind, fetch in H.
    fold targetUrl in H. fold (Spec.create_request this) in H.
    exists k, [Spec.create_request this].
    assert (G : forall w3,
               fetched w3 = Spec.create_request this :: fetched w2 ->
               Spec.fetched_since w w3
               = ([Spec.create_request this]
                    ++ List.rev (List.map del
                         (firstn k (Spec.duplicates this items)))
                    ++ [Spec.list_request this])%list).
    { intros w3 E. apply FS. rewrite E, F. unfold w1. cbn [fetched].
      rewrite <- !app_assoc. reflexivity. }
    destruct (net w2 _ _) as [r2 | e2].
    + destruct (ok r2); cbn [negb throw] in H.
      * unfold response_json in H. destruct (json r2) as [j | e3];
          cbn [ret] in H; injection H as <- <-.
        -- split; [apply G; reflexivity |].
           split; [right; reflexivity |].
           intros webhooks E. injection E as <-.
           split; [reflexivity |].
           split; [apply R; reflexivity | exists j; reflexivity].
        -- split; [apply G; reflexivity |].
           split; [right; reflexivity | discriminate].
      * injection H as <- <-.
        split; [apply G; reflexivity |].
        split; [right; reflexivity | discriminate].
    + injection H as <- <-.
      split; [apply G; reflexivity |].
      split; [right; reflexivity | discriminate].
  - injection H as <- <-. exists k, []. cbn [app].
    split; [| split; [left; reflexivity | discriminate]].
    apply FS. rewrite F. unfold w1. cbn [fetched].
    rewrite <- app_assoc. reflexivity.
Qed.

End RegisterWebhooks.

Lemma In_firstn_In {A : Type} (x : A) (k : nat) :
  forall l : list A, In x (firstn k l) -> In x l.
Proof.
  induction k as [| k IH]; intros [| y l]; simpl; try contradiction.
  intros [-> | I]; [left; reflexivity | right; exact (IH _ I)].
Qed.

Section RegisterWebhooksProperties.

Variable this : Webhook.WebexWebhookHandler.
Variable w : World.

(** X14: [registerWebhooks] deletes nothing but duplicates: every DELETE it
    sends, on any run, is for a webhook the provider listed with the
    configured target URL. *)
Theorem registerWebhooks_deletes_only_duplicates (q : HttpRequest) :
  In q (Spec.fetched_since w (snd (Webhook.registerWebhooks this w))) ->
  Spec.is_delete q = true ->
  exists webhook,
    In webhook (Spec.listed this w)
    /\ webhook.(wh_targetUrl) = this.(Webhook.handler_config).(webhookUrl)
    /\ q = mkHttpRequest
             (this.(Webhook.handler_apiBaseUrl) ++ "/webhooks/"
                ++ webhook.(wh_id))%string
             DELETE
             [("Authorization",
               ("Bearer " ++ this.(Webhook.handler_config).(token))%string)]
             None.
Proof.
  intros I D.
  destruct (Webhook.registerWebhooks this w) as [res w'] eqn:E.
  destruct (registerWebhooks_trace this w res w' E)
    as (k & creates & F & C & _).
  cbn [snd] in I. rewrite F in I.
  apply in_app_or in I. destruct I as [I | I].
  - destruct C as [-> | ->]; [contradiction |].
    destruct I as [<- | []]. discriminate D.
  - apply in_app_or in I. destruct I as [I | [<- | []]];
      [| discriminate D].
    apply in_rev, in_map_iff in I. destruct I as (webhook & <- & I).
    exists webhook.
    assert (I' : In webhook (Spec.duplicates this (Spec.listed this w)))
      by exact (In_firstn_In _ _ _ I).
    apply filter_In in I'. destruct I' as [I' T].
    apply String.eqb_eq in T. repeat split; assumption.
Qed.

(** X15: when [registerWebhooks] returns, it has listed the webhooks,
    deleted every duplicate once, in the order listed, and then created one
    webhook for created messages with the configured target URL and secret;
    it returns that single webhook. *)
Theorem registerWebhooks_success (webhooks : list Json) (w' : World) :
  Webhook.registerWebhooks this w = (Return webhooks, w') ->
  (exists j, webhooks = [j])
  /\ List.rev (Spec.fetched_since w w')
     = (Spec.list_request this
          :: List.map (fun webhook => Spec.delete_request this webhook.(wh_id))
               (Spec.duplicates this (Spec.listed this w))
          ++ [mkHttpRequest
                (this.(Webhook.handler_apiBaseUrl) ++ "/webhooks")%string
                POST
                [("Authorization",
                  ("Bearer " ++ this.(Webhook.handler_config).(token))%string);
                 ("Content-Type", "application/json")]
                (Some (WebhookBody
                         (mkWebhookRequest "OpenClaw Message Handler"
                            this.(Webhook.handler_config).(webhookUrl)
                            messages created
                            this.(Webhook.handler_config).(webhookSecret))))])%list.
Proof.
  intros E.
  destruct (registerWebhooks_trace this w _ _ E)
    as (k & creates & F & _ & S).
  destruct (S webhooks eq_refl) as (-> & K & J).
  split; [exact J |].
  rewrite F, K, !rev_app_distr, rev_involutive. reflexivity.
Qed.

(** X16: on every run of [registerWebhooks] the listing is the first call,
    a creation is made at most once and only as the last call, and
    everything in between is a deletion. *)
Theorem registerWebhooks_call_order :
  exists creates deletions,
    List.rev (Spec.fetched_since w (snd (Webhook.registerWebhooks this w)))
    = (Spec.list_request this :: deletions ++ creates)%list
    /\ (creates = [] \/ creates = [Spec.create_request this])
    /\ Forall (fun q => Spec.is_delete q = true) deletions.
Proof.
  destruct (Webhook.registerWebhooks this w) as [res w'] eqn:E.
  destruct (registerWebhooks_trace this w res w' E)
    as (k & creates & F & C & _).
  exists creates,
    (List.map (fun webhook => Spec.delete_request this webhook.(wh_id))
       (firstn k (Spec.duplicates this (Spec.listed this w)))).
  split; [| split; [exact C |]].
  - cbn [snd]. rewrite F, !rev_app_distr, rev_involutive.
    destruct C as [-> | ->]; reflexivity.
  - apply Forall_forall. intros q I. apply in_map_iff in I.
    destruct I as (webhook & <- & _). reflexivity.
Qed.

End RegisterWebhooksProperties.

Lemma registerWebhooks_deletes_only_duplicates_witness :
  exists webhook,
    In webhook
       (Spec.listed (Fixtures.handler_with Fixtures.config)
          (Fixtures.world_of Fixtures.register_script (1 # 2)))
    /\ webhook.(wh_targetUrl) = "https://example.com/webhook"
    /\ Spec.delete_request (Fixtures.handler_with Fixtures.config)
         "old-webhook-1"
       = mkHttpRequest
           ("https://webexapis.com/v1" ++ "/webhooks/" ++ webhook.(wh_id))%string
           DELETE [("Authorization", "Bearer test-token")] None.
Proof.
  apply (registerWebhooks_deletes_only_duplicates
           (Fixtures.handler_with Fixtures.config)
           (Fixtures.world_of Fixtures.register_script (1 # 2))
           (Spec.delete_request (Fixtures.handler_with Fixtures.config)
              "old-webhook-1")).
  - vm_compute. right. left. reflexivity.
  - reflexivity.
Defined.

Lemma registerWebhooks_success_witness :
  (exists j, [JsonWebhook Fixtures.new_webhook] = [j])
  /\ List.rev
       (Spec.fetched_since
          (Fixtures.world_of Fixtures.register_script (1 # 2))
          (snd (Webhook.registerWebhooks
                  (Fixtures.handler_with Fixtures.config)
                  (Fixtures.world_of Fixtures.register_script (1 # 2)))))
     = [Spec.list_request (Fixtures.handler_with Fixtures.config);
        Spec.delete_request (Fixtures.handler_with Fixtures.config)
          "old-webhook-1";
        Spec.create_request (Fixtures.handler_with Fixtures.config)].
Proof.
  apply (registerWebhooks_success (Fixtures.handler_with Fixtures.config)
           (Fixtures.world_of Fixtures.register_script (1 # 2))
           [JsonWebhook Fixtures.new_webhook]).
  reflexivity.
Defined.

(* ================================================================== *)
(** * The identity of the bot *)

(** X17: when the provider answers the identity request with the bot's
    record, [initialize] keeps the configuration and remembers the bot's id,
    and from then on every notification sent by that id yields [null]
    without a network call. *)
Theorem initialize_then_own_messages_are_dropped
  (this : Webhook.WebexWebhookHandler) (w : World) (r : Response)
  (bot : BotInfo) :
  Spec.outcome w (Spec.identity_request this) 0 = Resolved r ->
  ok r = true ->
  json r = Return (JsonBotInfo bot) ->
  exists this',
    Webhook.initialize this w
    = (Return this', Spec.after_fetch (Spec.identity_request this) w)
    /\ Webhook.getBotId this' = Some bot.(bot_id)
    /\ Webhook.getConfig this' = Webhook.getConfig this
    /\ forall payload w2,
        payload.(data).(data_personId) = bot.(bot_id) ->
        Webhook.handleWebhook this' payload w2 = (Return None, w2).
Proof.
  intros O K J. unfold Spec.outcome in O. rewrite Nat.add_0_r in O.
  eexists. split.
  - unfold Webhook.initialize, Webhook.getBotInfo, bind, fetch.
    fold (Spec.identity_request this). rewrite O, K. cbn [negb].
    unfold response_json. rewrite J. reflexivity.
  - cbn [Webhook.getBotId Webhook.getConfig Webhook.botId
         Webhook.handler_config Webhook.json_id].
    split; [reflexivity |]. split; [reflexivity |].
    intros payload w2 P. unfold Webhook.handleWebhook.
    cbn [Webhook.botId]. rewrite P. unfold Webhook.is_bot.
    rewrite String.eqb_refl.
    destruct (_ || _); reflexivity.
Qed.

Lemma initialize_then_own_messages_are_dropped_witness :
  exists this',
    Webhook.initialize (Webhook.new_WebexWebhookHandler Fixtures.config)
      (Fixtures.world_of
         [Fixtures.ok_response (JsonBotInfo Fixtures.mockBotInfo)] (1 # 2))
    = (Return this',
       Spec.after_fetch
         (Spec.identity_request
            (Webhook.new_WebexWebhookHandler Fixtures.config))
         (Fixtures.world_of
            [Fixtures.ok_response (JsonBotInfo Fixtures.mockBotInfo)] (1 # 2)))
    /\ Webhook.getBotId this' = Some "bot-123"
    /\ Webhook.getConfig this'
       = Webhook.getConfig (Webhook.new_WebexWebhookHandler Fixtures.config)
    /\ forall payload w2,
        payload.(data).(data_personId) = "bot-123" ->
        Webhook.handleWebhook this' payload w2 = (Return None, w2).
Proof.
  apply (initialize_then_own_messages_are_dropped
           (Webhook.new_WebexWebhookHandler Fixtures.config)
           (Fixtures.world_of
              [Fixtures.ok_response (JsonBotInfo Fixtures.mockBotInfo)] (1 # 2))
           (mkResponse true 200 "OK"
              (Return (JsonBotInfo Fixtures.mockBotInfo)) "")
           Fixtures.mockBotInfo);
    reflexivity.
Defined.

(* ================================================================== *)
(** * More on the channel *)

Lemma handler_initialize_run
  (this : Webhook.WebexWebhookHandler) (w : World) (r : Response)
  (bot : BotInfo) :
  Spec.outcome w (Spec.identity_request this) 0 = Resolved r ->
  ok r = true ->
  json r = Return (JsonBotInfo bot) ->
  Webhook.initialize this w
  = (Return (Webhook.mkHandler this.(Webhook.handler_config)
               this.(Webhook.handler_apiBaseUrl) (Some bot.(bot_id))),
     Spec.after_fetch (Spec.identity_request this) w).
Proof.
  intros O K J. unfold Spec.outcome in O. rewrite Nat.add_0_r in O.
  unfold Webhook.initialize, Webhook.getBotInfo, bind, fetch.
  fold (Spec.identity_request this). rewrite O, K. cbn [negb].
  unfold response_json. rewrite J. reflexivity.
Qed.

(** What the merged configuration reads at the keys that have a default:
    the default for a key the given configuration lacks, and otherwise
    what the given configuration holds there, [undefined] included. *)
Lemma merge_defaults_reads (config : WebexChannelConfig) :
  let merged := Channel.merge_defaults config in
  dmPolicy merged
  = match config.(own_dmPolicy) with
    | Js.Missing => Some allow
    | Js.Held v => v
    end
  /\ apiBaseUrl merged
     = match config.(own_apiBaseUrl) with
       | Js.Missing => Some "https://webexapis.com/v1"
       | Js.Held v => v
       end
  /\ maxRetries merged
     = match config.(own_maxRetries) with
       | Js.Missing => Some 3
       | Js.Held v => v
       end
  /\ retryDelayMs merged
     = match config.(own_retryDelayMs) with
       | Js.Missing => Some (1000 : Q)
       | Js.Held v => v
       end
  /\ token merged = token config
  /\ webhookUrl merged = webhookUrl config
  /\ allowFrom merged = allowFrom config
  /\ webhookSecret merged = webhookSecret config.
Proof.
  destruct config as [t u p a s b m d]. unfold dmPolicy, apiBaseUrl,
    maxRetries, retryDelayMs. cbn.
  destruct p, b, m, d; repeat split; reflexivity.
Qed.

(** A configuration that holds [maxRetries] and [retryDelayMs] with the
    value [undefined]: the merged configuration reads [undefined] there,
    not the defaults.  The sender applies its own defaults when it is
    built, so it retries 3 times from 1000 ms all the same. *)
Example merge_defaults_keeps_undefined :
  let merged := Channel.merge_defaults Scenario.undefined_retries in
  maxRetries merged = None
  /\ retryDelayMs merged = None
  /\ apiBaseUrl merged = Some "https://webexapis.com/v1"
  /\ maxRetries (Channel.merge_defaults Fixtures.config) = Some 3
  /\ Send.sender_retryOptions (Send.new_WebexSender merged)
     = mkRetryOptions 3 1000.
Proof. repeat split; reflexivity. Qed.

Section ChannelProperties.

Variable URL_parses : string -> bool.
Variable base64_decode : string -> option string.
Variable c : Channel.WebexChannel.
Variable w : World.

Lemma validateConfig_accepted (config : WebexChannelConfig) :
  Spec.config_accepted URL_parses config = true ->
  Channel.validateConfig URL_parses config (c, w) = (Return tt, (c, w)).
Proof.
  unfold Spec.config_accepted, Channel.validateConfig.
  intros H. apply andb_prop in H. destruct H as [H U].
  apply andb_prop in H. destruct H as [H A].
  apply andb_prop in H. destruct H as [H P].
  apply andb_prop in H. destruct H as [T V].
  rewrite T, V, P, U. cbn [negb].
  apply negb_true_iff in A. rewrite A. reflexivity.
Qed.

(** X18: [initialize] with a configuration that lacks a token, a webhook
    URL or a policy, asks for an allow-list without giving one, or has a
    webhook URL that does not parse, raises before anything happens: the
    channel and the world are as before, and no call is made. *)
Theorem initialize_rejects_invalid_config (config : WebexChannelConfig) :
  Spec.config_accepted URL_parses config = false ->
  exists message,
    Channel.initialize URL_parses config (c, w)
    = (Throw (GenericError message), (c, w)).
Proof.
  unfold Spec.config_accepted, Channel.initialize, Channel.validateConfig.
  intros H. unfold bind.
  destruct (Js.truthy (token config)); cbn [negb andb] in *;
    [| eexists; reflexivity].
  destruct (Js.truthy (webhookUrl config)); cbn [negb andb] in *;
    [| eexists; reflexivity].
  destruct (Js.present (dmPolicy config)); cbn [negb andb] in *;
    [| eexists; reflexivity].
  destruct (Channel.policy_is_allowlisted (dmPolicy config)
            && Send.no_length (allowFrom config));
    cbn [negb andb] in *; [eexists; reflexivity |].
  rewrite H. cbn [negb]. eexists. reflexivity.
Qed.

(** X19: [initialize] with an accepted configuration, when the provider
    answers the identity request with the bot's record: the channel holds
    the configuration spread over the defaults (a default fills a key the
    configuration lacks, not one it holds with the value [undefined]), a
    sender and a webhook handler built from it, the handler knows the
    bot's id, the subscribers registered before are kept, and the channel
    is initialized. *)
Theorem initialize_success (config : WebexChannelConfig) (r : Response)
  (bot : BotInfo) :
  let merged := Channel.merge_defaults config in
  let handler := Webhook.new_WebexWebhookHandler merged in
  Spec.config_accepted URL_parses config = true ->
  Spec.outcome w (Spec.identity_request handler) 0 = Resolved r ->
  ok r = true ->
  json r = Return (JsonBotInfo bot) ->
  Channel.initialize URL_parses config (c, w)
  = (Return tt,
     (Channel.mkChannel
        (Some merged)
        (Some (Send.new_WebexSender merged))
        (Some (Webhook.mkHandler merged
                 (Js.or_else (apiBaseUrl merged)
                    Webhook.DEFAULT_API_BASE_URL)
                 (Some bot.(bot_id))))
        (Channel.messageHandlers c)
        true,
      Spec.after_fetch (Spec.identity_request handler) w)).
Proof.
  intros merged handler A O K J.
  pose proof (handler_initialize_run handler w r bot
                O K J) as E.
  unfold Channel.initialize, bind.
  rewrite (validateConfig_accepted config A).
  unfold Channel.assign, Channel.await. cbn [fst snd].
  fold merged. fold handler. rewrite E. reflexivity.
Qed.

(** X20: [initialize] with an accepted configuration, when the identity
    request fails: the error is raised, the [initialized] flag and the
    subscribers are as before, and the channel holds the new configuration,
    sender and a handler that does not know the bot's id. A new channel so
    stays uninitialized; a channel that was initialized stays so. *)
Theorem initialize_failure_keeps_flag (config : WebexChannelConfig)
  (e : Error) (w1 : World) :
  let merged := Channel.merge_defaults config in
  let handler := Webhook.new_WebexWebhookHandler merged in
  Spec.config_accepted URL_parses config = true ->
  Webhook.initialize handler w = (Throw e, w1) ->
  Channel.initialize URL_parses config (c, w)
  = (Throw e,
     (Channel.mkChannel (Some merged) (Some (Send.new_WebexSender merged))
        (Some handler) (Channel.messageHandlers c) (Channel.initialized c),
      w1))
  /\ Webhook.getBotId handler = None.
Proof.
  intros merged handler A E.
  split; [| reflexivity].
  unfold Channel.initialize, bind.
  rewrite (validateConfig_accepted config A).
  unfold Channel.assign, Channel.await. cbn [fst snd].
  fold merged. fold handler. rewrite E. reflexivity.
Qed.

(** X21: when an initialized channel handles a webhook for which its
    handler produces an envelope, and no registered subscriber takes a
    registered handler off the channel while it runs, every registered
    subscriber is invoked with that envelope, once per registration and in
    registration order, whether or not subscribers raise; the channel
    returns the envelope and is itself unchanged. *)
Theorem handleWebhook_notifies_in_order (config : WebexChannelConfig)
  (sender : Send.WebexSender) (handler : Webhook.WebexWebhookHandler)
  (payload : WebexWebhookPayload) (signature : option string)
  (envelope : OpenClawEnvelope) (w1 : World) :
  Channel.initialized c = true ->
  Channel.config c = Some config ->
  Channel.sender c = Some sender ->
  Channel.webhookHandler c = Some handler ->
  Webhook.handleWebhook handler payload w = (Return (Some envelope), w1) ->
  (forall h h',
      In h (Channel.messageHandlers c) ->
      In h' (handler_unsubscribes w h envelope) ->
      ~ In h' (Channel.messageHandlers c)) ->
  exists w2,
    Channel.handleWebhook payload signature (c, w)
    = (Return (Some envelope), (c, w2))
    /\ List.rev (firstn (List.length (notified w2) - List.length (notified w))
                        (notified w2))
       = List.map (fun h => (h, envelope)) (Channel.messageHandlers c)
    /\ fetched w2 = fetched w1.
Proof.
  intros I C S H E U.
  unfold Channel.handleWebhook, Channel.ensureInitialized, bind,
    Channel.this_, Channel.await, Channel.notifyHandlers, ret.
  cbn [fst snd]. rewrite I, C, S, H. cbn [fst snd]. rewrite E.
  unfold bind, Channel.this_. cbn [fst snd].
  pose proof (quiet_handleWebhook handler payload w) as Q.
  pose proof (same_subscribers_handleWebhook handler payload w) as K.
  rewrite E in Q, K. cbn [snd] in Q, K.
  destruct (notify_from_undisturbed envelope c (Channel.messageHandlers c)
              [] (List.length (Channel.messageHandlers c)) w1)
    as (w2 & R & N & F);
    [reflexivity | rewrite K; exact U | apply le_n |].
  cbn [List.length] in R. rewrite R.
  exists w2. split; [reflexivity |]. split; [| exact F].
  rewrite N, Q, firstn_length_app. apply rev_involutive.
Qed.

(** The assumption matters: the loop walks the very array [offMessage]
    splices.  A subscriber that takes itself off moves its successor
    into its own place, and the loop, which goes on at the next place,
    never calls that successor; here subscriber 8 is still registered
    and has not been invoked. *)
Example self_unsubscribing_skips_next :
  let s := Scenario.self_unsubscribing in
  let after :=
    snd (Channel.handleWebhook (Fixtures.createPayload group) None s) in
  Channel.messageHandlers (fst s) = [7%nat; 8%nat]
  /\ Spec.invoked_since (snd s) (snd after) = [7%nat]
  /\ Channel.messageHandlers (fst after) = [8%nat].
Proof. vm_compute. repeat split. Qed.

(** X22: [offMessage] removes the earliest registration of the handler and
    nothing else, keeping the order of the others; a handler that is not
    registered leaves the list as it is. *)
Theorem offMessage_removes_earliest_registration (h : Handler)
  (before after_ : list Handler) :
  ~ In h before ->
  (Channel.messageHandlers c = (before ++ h :: after_)%list ->
   Channel.messageHandlers (fst (snd (Channel.offMessage h (c, w))))
   = (before ++ after_)%list)
  /\ (Channel.messageHandlers c = before ->
      Channel.messageHandlers (fst (snd (Channel.offMessage h (c, w))))
      = before).
Proof.
  intros N. cbn.
  assert (G : forall l, Channel.remove_first h (before ++ l)
                        = (before ++ Channel.remove_first h l)%list).
  { intros l. induction before as [| y b IH]; [reflexivity |].
    cbn. destruct (Nat.eqb_spec y h) as [-> | _].
    - exfalso. apply N. left. reflexivity.
    - rewrite IH; [reflexivity |]. intros I. apply N. right. exact I. }
  split; intros ->.
  - rewrite G. cbn. rewrite Nat.eqb_refl. reflexivity.
  - rewrite <- (app_nil_r before) at 1. rewrite G. cbn.
    apply app_nil_r.
Qed.

End ChannelProperties.

Lemma initialize_rejects_invalid_config_witness :
  exists message,
    Channel.initialize Node.URL_parses Scenario.missing_token Scenario.fresh
    = (Throw (GenericError message), Scenario.fresh).
Proof.
  apply (initialize_rejects_invalid_config Node.URL_parses
           Channel.createWebexChannel
           (Fixtures.world_of Scenario.script (1 # 2))
           Scenario.missing_token).
  reflexivity.
Defined.

Lemma initialize_success_witness :
  Channel.initialized
    (fst (snd (Channel.initialize Node.URL_parses Scenario.undefined_retries
                 Scenario.fresh))) = true
  /\ option_map maxRetries
       (Channel.config
          (fst (snd (Channel.initialize Node.URL_parses
                       Scenario.undefined_retries Scenario.fresh))))
     = Some None
  /\ option_map Send.sender_retryOptions
       (Channel.sender
          (fst (snd (Channel.initialize Node.URL_parses
                       Scenario.undefined_retries Scenario.fresh))))
     = Some (mkRetryOptions 3 1000).
Proof.
  unfold Scenario.fresh.
  rewrite (initialize_success Node.URL_parses Channel.createWebexChannel
             (Fixtures.world_of Scenario.script (1 # 2))
             Scenario.undefined_retries
             (mkResponse true 200 "OK"
                (Return (JsonBotInfo Fixtures.mockBotInfo)) "")
             Fixtures.mockBotInfo); repeat split; reflexivity.
Defined.

Lemma initialize_failure_keeps_flag_witness :
  fst (Channel.initialize Node.URL_parses Fixtures.config
         (Channel.createWebexChannel, Fixtures.world_of [] (1 # 2)))
  = Throw (GenericError "no reply scripted")
  /\ Channel.initialized
       (fst (snd (Channel.initialize Node.URL_parses Fixtures.config
                    (Channel.createWebexChannel,
                     Fixtures.world_of [] (1 # 2))))) = false.
Proof.
  destruct (initialize_failure_keeps_flag Node.URL_parses
              Channel.createWebexChannel (Fixtures.world_of [] (1 # 2))
              Fixtures.config (GenericError "no reply scripted")
              (snd (Webhook.initialize
                      (Webhook.new_WebexWebhookHandler
                         (Channel.merge_defaults Fixtures.config))
                      (Fixtures.world_of [] (1 # 2)))))
    as [E _]; [reflexivity | reflexivity |].
  rewrite E. split; reflexivity.
Defined.

Lemma handleWebhook_notifies_in_order_witness :
  exists w2,
    Channel.handleWebhook (Fixtures.createPayload group) None
      (fst Scenario.two_subscribers, snd Scenario.two_subscribers)
    = (Return (Some (Webhook.normalizeMessage Fixtures.mockMessage)),
       (fst Scenario.two_subscribers, w2))
    /\ List.rev
         (firstn (List.length (notified w2)
                  - List.length (notified (snd Scenario.two_subscribers)))
                 (notified w2))
       = List.map
           (fun h => (h, Webhook.normalizeMessage Fixtures.mockMessage))
           (Channel.messageHandlers (fst Scenario.two_subscribers))
    /\ fetched w2
       = fetched
           (snd (Webhook.handleWebhook
                   (Fixtures.handler_with
                      (Channel.merge_defaults Fixtures.config))
                   (Fixtures.createPayload group)
                   (snd Scenario.two_subscribers))).
Proof.
  apply (handleWebhook_notifies_in_order (fst Scenario.two_subscribers)
           (snd Scenario.two_subscribers)
           (Channel.merge_defaults Fixtures.config)
           (Send.new_WebexSender (Channel.merge_defaults Fixtures.config))
           (Fixtures.handler_with (Channel.merge_defaults Fixtures.config))
           (Fixtures.createPayload group) None
           (Webhook.normalizeMessage Fixtures.mockMessage));
    try (vm_compute; reflexivity).
  intros h h' _ T. vm_compute in T. destruct T.
Defined.

Lemma offMessage_removes_earliest_registration_witness :
  Channel.messageHandlers
    (fst (snd (Channel.offMessage 7%nat
                 (Channel.mkChannel None None None [8; 7; 9; 7]%nat false,
                  Fixtures.world_of [] (1 # 2)))))
  = [8; 9; 7]%nat.
Proof.
  destruct (offMessage_removes_earliest_registration
              (Channel.mkChannel None None None [8; 7; 9; 7]%nat false)
              (Fixtures.world_of [] (1 # 2)) 7%nat [8]%nat [9; 7]%nat)
    as [H _].
  - simpl. intros [E | []]. discriminate E.
  - apply H. reflexivity.
Defined.

(* ================================================================== *)
(** * Webhook paths *)

Lemma list_ascii_of_string_app (a b : string) :
  list_ascii_of_string (a ++ b)
  = (list_ascii_of_string a ++ list_ascii_of_string b)%list.
Proof.
  induction a as [|c a IH]; simpl; [reflexivity|]. now rewrite IH.
Qed.

Lemma string_of_list_ascii_app (l1 l2 : list ascii) :
  string_of_list_ascii (l1 ++ l2)
  = string_of_list_ascii l1 ++ string_of_list_ascii l2.
Proof.
  induction l1 as [|c l1 IH]; simpl; [reflexivity|]. now rewrite IH.
Qed.

Lemma reverse_involutive (s : string) : Trim.reverse (Trim.reverse s) = s.
Proof.
  unfold Trim.reverse.
  rewrite list_ascii_of_string_of_list_ascii, List.rev_involutive.
  apply string_of_list_ascii_of_string.
Qed.

Lemma reverse_app (a b : string) :
  Trim.reverse (a ++ b) = Trim.reverse b ++ Trim.reverse a.
Proof.
  unfold Trim.reverse.
  now rewrite list_ascii_of_string_app, List.rev_app_distr,
    string_of_list_ascii_app.
Qed.

Lemma reverse_length (s : string) :
  String.length (Trim.reverse s) = String.length s.
Proof.
  unfold Trim.reverse.
  rewrite <- (string_of_list_ascii_of_string s) at 2.
  generalize (list_ascii_of_string s) as l. intro l.
  assert (L : forall l', String.length (string_of_list_ascii l')
                         = List.length l').
  { induction l' as [|c l' IH]; simpl; congruence. }
  now rewrite !L, List.length_rev.
Qed.

Lemma app_length_string (a b : string) :
  String.length (a ++ b) = (String.length a + String.length b)%nat.
Proof.
  induction a as [|c a IH]; simpl; [reflexivity|]. now rewrite IH.
Qed.

Lemma app_empty_r (s : string) : s ++ "" = s.
Proof.
  induction s as [|c s IH]; simpl; [reflexivity|]. now rewrite IH.
Qed.

Lemma app_assoc_string (a b c : string) : (a ++ b) ++ c = a ++ (b ++ c).
Proof.
  induction a as [|x a IH]; simpl; [reflexivity|]. now rewrite IH.
Qed.

(** A string is empty or ends with a last byte. *)
Lemma string_snoc_cases (s : string) :
  s = "" \/ exists s' c, s = s' ++ String c "".
Proof.
  rewrite <- (reverse_involutive s).
  destruct (Trim.reverse s) as [|c t].
  - now left.
  - right. exists (Trim.reverse t), c.
    change (String c t) with (String c "" ++ t).
    now rewrite reverse_app.
Qed.

Lemma drop_last_snoc (s : string) (c : ascii) :
  Plugin.drop_last (s ++ String c "") = s.
Proof.
  unfold Plugin.drop_last. rewrite reverse_app. simpl.
  apply reverse_involutive.
Qed.

Lemma startsWith_slash_cons (a : ascii) (s : string) :
  Js.startsWith (String a s) "/" = Ascii.eqb "/" a.
Proof.
  unfold Js.startsWith. cbn [String.prefix].
  destruct (ascii_dec "/" a) as [<-|N].
  - now destruct s.
  - symmetry. now apply Ascii.eqb_neq.
Qed.

Lemma endsWith_snoc (s : string) (c : ascii) :
  Plugin.endsWith (s ++ String c "") "/" = Ascii.eqb "/" c.
Proof.
  unfold Plugin.endsWith. rewrite reverse_app.
  change (Trim.reverse (String c "")) with (String c "").
  change (Trim.reverse "/") with "/".
  cbn [append]. apply startsWith_slash_cons.
Qed.

Lemma startsWith_slash_app (s t : string) :
  s <> "" ->
  Js.startsWith (s ++ t) "/" = Js.startsWith s "/".
Proof.
  destruct s as [|a s]; [congruence|]. intros _. cbn [append].
  now rewrite !startsWith_slash_cons.
Qed.

Section PathShape.

Variable raw : string.

(** X23: a normalized webhook path always begins with a slash, whatever
    the input; in particular it is never empty, and white space alone gives
    the root path. *)
Theorem normalizeWebhookPath_begins_with_slash :
  Js.startsWith (Plugin.normalizeWebhookPath raw) "/" = true
  /\ (Trim.trim raw = "" -> Plugin.normalizeWebhookPath raw = "/").
Proof.
  unfold Plugin.normalizeWebhookPath.
  destruct (Trim.trim raw) as [|a t] eqn:T; simpl Js.truthy; cbn [negb].
  - split; reflexivity.
  - split; [|discriminate].
    set (withSlash := if Js.startsWith (String a t) "/"
                      then String a t else "/" ++ String a t).
    assert (W : exists rest, withSlash = String "/" rest).
    { unfold withSlash. rewrite startsWith_slash_cons.
      destruct (Ascii.eqb "/" a) eqn:E.
      - apply Ascii.eqb_eq in E. subst a. eauto.
      - cbn [append]. eauto. }
    destruct W as [rest ->].
    destruct ((1 <? String.length (String "/" rest))%nat
              && Plugin.endsWith (String "/" rest) "/") eqn:C;
      [|apply startsWith_slash_cons].
    destruct (string_snoc_cases rest) as [->|(r0 & c & ->)].
    + cbn in C. discriminate.
    + change (String "/" (r0 ++ String c ""))
        with (String "/" r0 ++ String c "").
      rewrite drop_last_snoc. apply startsWith_slash_cons.
Qed.

End PathShape.

(** ** Trimming *)

Section Strip.

Variable step : string -> option string.
Hypothesis step_shrinks :
  forall s r, step s = Some r -> (String.length r < String.length s)%nat.

Lemma strip_length (fuel : nat) :
  forall s,
    (String.length (Trim.strip step fuel s) <= String.length s)%nat.
Proof.
  induction fuel as [|fuel IH]; intro s; cbn [Trim.strip]; [lia|].
  destruct (step s) as [r|] eqn:E; [|lia].
  specialize (IH r). apply step_shrinks in E. lia.
Qed.

Lemma strip_none (fuel : nat) (s : string) :
  step s = None -> Trim.strip step fuel s = s.
Proof.
  intro E. destruct fuel; cbn [Trim.strip]; [reflexivity|]. now rewrite E.
Qed.

Lemma strip_same_length (fuel : nat) (s : string) :
  String.length (Trim.strip step fuel s) = String.length s ->
  step s = None \/ fuel = O.
Proof.
  destruct fuel as [|fuel]; [now right|]. cbn [Trim.strip].
  destruct (step s) as [r|] eqn:E; [|now left].
  intro L. pose proof (strip_length fuel r) as B.
  apply step_shrinks in E. lia.
Qed.

End Strip.

Lemma after_space_shrinks (s r : string) :
  Trim.after_space s = Some r -> (String.length r < String.length s)%nat.
Proof.
  destruct s as [|a [|b [|c t]]]; cbn [Trim.after_space];
    repeat match goal with
           | |- context [if ?b then _ else _] => destruct b
           end;
    intro E; inversion E; subst; cbn [String.length]; lia.
Qed.

Lemma before_space_rev_shrinks (s r : string) :
  Trim.before_space_rev s = Some r ->
  (String.length r < String.length s)%nat.
Proof.
  destruct s as [|a [|b [|c t]]]; cbn [Trim.before_space_rev];
    repeat match goal with
           | |- context [if ?b then _ else _] => destruct b
           end;
    intro E; inversion E; subst; cbn [String.length]; lia.
Qed.

Lemma ws2_slash (a : ascii) : Trim.ws2 a "/" = false.
Proof.
  unfold Trim.ws2. change (Trim.code "/") with 47.
  apply andb_false_r.
Qed.

Lemma ws3_slash (a b : ascii) : Trim.ws3 a b "/" = false.
Proof.
  unfold Trim.ws3. change (Trim.code "/") with 47.
  generalize (Trim.code a), (Trim.code b). intros x y. cbn.
  now rewrite !andb_false_r.
Qed.

Lemma after_space_slash (p : string) :
  Trim.after_space p = None -> Trim.after_space (p ++ "/") = None.
Proof.
  destruct p as [|a [|b [|c t]]]; cbn [append Trim.after_space].
  - reflexivity.
  - destruct (Trim.ws1 a); [discriminate|]. now rewrite ws2_slash.
  - destruct (Trim.ws1 a); [discriminate|].
    destruct (Trim.ws2 a b); [discriminate|]. now rewrite ws3_slash.
  - destruct (Trim.ws1 a); [discriminate|].
    destruct (Trim.ws2 a b); [discriminate|].
    now destruct (Trim.ws3 a b c).
Qed.

Lemma before_space_rev_slash (t : string) :
  Trim.before_space_rev (String "/" t) = None.
Proof.
  cbn [Trim.before_space_rev].
  change (Trim.ws1 "/") with false. cbn iota.
  destruct t as [|b [|c t]]; [reflexivity| |];
    rewrite ws2_slash; [reflexivity|]. now rewrite ws3_slash.
Qed.

(** A string that [trim] leaves alone neither begins nor ends with white
    space. *)
Lemma trim_fixed (p : string) :
  Trim.trim p = p ->
  Trim.after_space p = None
  /\ Trim.before_space_rev (Trim.reverse p) = None.
Proof.
  intro T.
  destruct p as [|a p']; [split; reflexivity|].
  set (p := String a p') in *.
  assert (P : (0 < String.length p)%nat) by (cbn; lia).
  pose proof (strip_length _ after_space_shrinks (String.length p) p) as L1.
  pose proof (strip_length _ before_space_rev_shrinks
                (String.length (Trim.trimStart p))
                (Trim.reverse (Trim.trimStart p))) as L2.
  assert (L : String.length (Trim.trim p) = String.length p) by now rewrite T.
  unfold Trim.trim, Trim.trimEnd in L. rewrite reverse_length in L.
  rewrite reverse_length in L2. fold (Trim.trimStart p) in L1.
  assert (S1 : String.length (Trim.trimStart p) = String.length p) by lia.
  destruct (strip_same_length _ after_space_shrinks _ _ S1) as [A|Z];
    [|lia].
  assert (TS : Trim.trimStart p = p) by now apply strip_none.
  rewrite TS in L. split; [exact A|].
  rewrite <- (reverse_length p) in L at 2.
  destruct (strip_same_length _ before_space_rev_shrinks _ _ L) as [B|Z];
    [exact B|lia].
Qed.

Lemma trim_app_slash (p : string) :
  Trim.trim p = p -> Trim.trim (p ++ "/") = p ++ "/".
Proof.
  intro T. destruct (trim_fixed p T) as [A _].
  unfold Trim.trim, Trim.trimEnd.
  assert (TS : Trim.trimStart (p ++ "/") = p ++ "/").
  { apply strip_none. now apply after_space_slash. }
  rewrite TS, strip_none; [apply reverse_involutive|].
  rewrite reverse_app. change (Trim.reverse "/") with "/". cbn [append].
  apply before_space_rev_slash.
Qed.

Lemma trim_intro (s : string) :
  Trim.after_space s = None ->
  Trim.before_space_rev (Trim.reverse s) = None ->
  Trim.trim s = s.
Proof.
  intros A B. unfold Trim.trim, Trim.trimEnd.
  assert (TS : Trim.trimStart s = s) by now apply strip_none.
  rewrite TS, strip_none by exact B. apply reverse_involutive.
Qed.

(** The key of a path without surrounding white space or trailing slash:
    the path itself, with a slash in front if it has none; and the same
    key for the path followed by a slash. *)
Lemma normalizeWebhookPath_canonical (p : string) :
  Trim.trim p = p ->
  p <> "" ->
  Plugin.endsWith p "/" = false ->
  Plugin.normalizeWebhookPath (p ++ "/")
  = (if Js.startsWith p "/" then p else "/" ++ p)
  /\ Plugin.normalizeWebhookPath p
     = (if Js.startsWith p "/" then p else "/" ++ p).
Proof.
  intros T NE E. unfold Plugin.normalizeWebhookPath.
  rewrite (trim_app_slash p T), T.
  assert (TR : Js.truthy (p ++ "/") = true) by now destruct p.
  assert (TP : Js.truthy p = true) by now destruct p.
  rewrite TR, TP. cbn [negb].
  rewrite (startsWith_slash_app p "/" NE).
  set (withSlash := if Js.startsWith p "/" then p else "/" ++ p).
  assert (W : (if Js.startsWith p "/" then p ++ "/" else "/" ++ p ++ "/")
              = withSlash ++ "/").
  { unfold withSlash. destruct (Js.startsWith p "/"); [reflexivity|].
    now rewrite app_assoc_string. }
  rewrite W, drop_last_snoc, endsWith_snoc, app_length_string.
  assert (WL : (0 < String.length withSlash)%nat).
  { unfold withSlash. destruct (Js.startsWith p "/"), p; cbn; try lia.
    congruence. }
  assert (C : (1 <? String.length withSlash + String.length "/")%nat
              = true).
  { apply Nat.ltb_lt. cbn [String.length]. lia. }
  rewrite C. change (Ascii.eqb "/" "/") with true. cbn [andb].
  assert (WE : Plugin.endsWith withSlash "/" = false).
  { unfold withSlash. destruct (Js.startsWith p "/"); [exact E|].
    destruct (string_snoc_cases p) as [->|(s' & c & Hp)]; [congruence|].
    rewrite Hp in E |- *. rewrite endsWith_snoc in E.
    rewrite <- app_assoc_string. now rewrite endsWith_snoc. }
  rewrite WE, andb_false_r. split; reflexivity.
Qed.

(** X24: a trailing slash does not matter.  For a path without surrounding
    white space that does not itself end with a slash, the path and the
    path followed by a slash normalize to the same key; and when such a
    path begins with a slash it is its own key. *)
Theorem normalizeWebhookPath_trailing_slash (p : string) :
  Trim.trim p = p ->
  Plugin.endsWith p "/" = false ->
  Plugin.normalizeWebhookPath (p ++ "/") = Plugin.normalizeWebhookPath p
  /\ (Js.startsWith p "/" = true -> Plugin.normalizeWebhookPath p = p).
Proof.
  intros T E. destruct p as [|a p'].
  - split; [reflexivity|discriminate].
  - assert (NE : String a p' <> "") by discriminate.
    destruct (normalizeWebhookPath_canonical _ T NE E) as [A B].
    split; [congruence|]. intro S. now rewrite B, S.
Qed.

Lemma normalizeWebhookPath_trailing_slash_witness :
  Plugin.normalizeWebhookPath "/webhooks/webex/default/"
  = Plugin.normalizeWebhookPath "/webhooks/webex/default"
  /\ (Js.startsWith "/webhooks/webex/default" "/" = true ->
      Plugin.normalizeWebhookPath "/webhooks/webex/default"
      = "/webhooks/webex/default").
Proof.
  apply (normalizeWebhookPath_trailing_slash "/webhooks/webex/default");
    vm_compute; reflexivity.
Defined.

(** ** The path of an account *)

Lemma ws2_slash_l (a : ascii) : Trim.ws2 "/" a = false.
Proof.
  reflexivity.
Qed.

Lemma ws3_slash_l (a b : ascii) : Trim.ws3 "/" a b = false.
Proof.
  reflexivity.
Qed.

Lemma ws3_slash_m (a b : ascii) : Trim.ws3 a "/" b = false.
Proof.
  unfold Trim.ws3. change (Trim.code "/") with 47.
  generalize (Trim.code a), (Trim.code b). intros x y. cbn.
  now rewrite !andb_false_r.
Qed.

Lemma before_space_rev_app_slash (r t : string) :
  r <> "" ->
  Trim.before_space_rev r = None ->
  Trim.before_space_rev (r ++ String "/" t) = None.
Proof.
  destruct r as [|a [|b [|c r']]]; [congruence| | |]; intros _;
    cbn [append Trim.before_space_rev].
  - destruct (Trim.ws1 a); [discriminate|]. intros _.
    rewrite ws2_slash_l. destruct t; [reflexivity|].
    now rewrite ws3_slash_m.
  - destruct (Trim.ws1 a); [discriminate|].
    destruct (Trim.ws2 b a); [discriminate|]. intros _.
    now rewrite ws3_slash_l.
  - destruct (Trim.ws1 a); [discriminate|].
    destruct (Trim.ws2 b a); [discriminate|].
    now destruct (Trim.ws3 c b a).
Qed.

Lemma startsWith_app (p s : string) : Js.startsWith (p ++ s) p = true.
Proof.
  unfold Js.startsWith.
  induction p as [|a p IH]; cbn [append String.prefix].
  - now destruct s.
  - destruct (ascii_dec a a); [exact IH|congruence].
Qed.

(** An account whose id is not empty, has no surrounding white space and
    no trailing slash is registered under [/webhooks/webex/<id>], a key
    the router looks up. *)
Lemma account_path_key (id : string) :
  id <> "" ->
  Trim.trim id = id ->
  Plugin.endsWith id "/" = false ->
  Plugin.normalizeWebhookPath ("/webhooks/webex/" ++ id)
  = "/webhooks/webex/" ++ id
  /\ Js.startsWith (Plugin.normalizeWebhookPath ("/webhooks/webex/" ++ id))
                   "/webhooks/webex/" = true.
Proof.
  intros NE T E.
  assert (K : Plugin.normalizeWebhookPath ("/webhooks/webex/" ++ id)
              = "/webhooks/webex/" ++ id).
  { destruct (trim_fixed id T) as [_ B].
    assert (TP : Trim.trim ("/webhooks/webex/" ++ id)
                 = "/webhooks/webex/" ++ id).
    { apply trim_intro; [reflexivity|].
      rewrite reverse_app.
      change (Trim.reverse "/webhooks/webex/") with "/xebew/skoohbew/".
      apply before_space_rev_app_slash; [|exact B].
      intro R. apply (f_equal Trim.reverse) in R.
      rewrite reverse_involutive in R. now apply NE. }
    assert (EP : Plugin.endsWith ("/webhooks/webex/" ++ id) "/" = false).
    { destruct (string_snoc_cases id) as [->|(s' & c & Hid)]; [congruence|].
      rewrite Hid in E |- *. rewrite endsWith_snoc in E.
      rewrite <- app_assoc_string. now rewrite endsWith_snoc. }
    assert (NP : "/webhooks/webex/" ++ id <> "") by discriminate.
    destruct (normalizeWebhookPath_canonical _ TP NP EP) as [_ C].
    exact C. }
  split; [exact K|]. rewrite K. apply startsWith_app.
Qed.

(* ================================================================== *)
(** * The webhook router *)

Lemma concat_cons (x : string) (xs : list string) :
  String.concat "" (x :: xs) = x ++ String.concat "" xs.
Proof.
  destruct xs; cbn [String.concat append]; [|reflexivity].
  symmetry. apply app_empty_r.
Qed.

Lemma concat_app (l1 l2 : list string) :
  String.concat "" (l1 ++ l2)
  = String.concat "" l1 ++ String.concat "" l2.
Proof.
  induction l1 as [|x l1 IH]; [reflexivity|].
  change ((x :: l1) ++ l2)%list with (x :: (l1 ++ l2))%list.
  now rewrite !concat_cons, IH, app_assoc_string.
Qed.

Section ReadJsonBody.

Variable JSON_parse : string -> option Plugin.ParsedBody.
Variable maxBytes : Z.

(** What the stream's end resolves the promise with. *)
Let at_close (whole : string) (close : Plugin.StreamEnd)
  : Plugin.BodyResult :=
  match close with
  | Plugin.stream_end =>
      match JSON_parse whole with
      | Some parsed => Plugin.body_value parsed
      | None => Plugin.body_error "invalid json"
      end
  | Plugin.stream_error message => Plugin.body_error message
  end.

Lemma read_events_run (close : Plugin.StreamEnd) (incoming : list string) :
  forall total chunks,
    total <= maxBytes ->
    Plugin.read_events JSON_parse maxBytes total chunks incoming close
    = if total + Z.of_nat (String.length (String.concat "" incoming))
         >? maxBytes
      then Plugin.body_error "payload too large"
      else at_close (String.concat "" (chunks ++ incoming)) close.
Proof.
  induction incoming as [|chunk rest IH]; intros total chunks B.
  - cbn [Plugin.read_events String.concat String.length].
    rewrite List.app_nil_r.
    replace (total + Z.of_nat 0 >? maxBytes) with false
      by (symmetry; rewrite Z.gtb_ltb; apply Z.ltb_ge; lia).
    reflexivity.
  - cbn [Plugin.read_events]. rewrite concat_cons, app_length_string.
    destruct (total + Z.of_nat (String.length chunk) >? maxBytes) eqn:C.
    + replace (total
               + Z.of_nat (String.length chunk
                           + String.length (String.concat "" rest))
               >? maxBytes) with true; [reflexivity|].
      symmetry. rewrite Z.gtb_ltb in C |- *.
      apply Z.ltb_lt in C. apply Z.ltb_lt. lia.
    + rewrite Z.gtb_ltb in C. apply Z.ltb_ge in C.
      rewrite (IH _ _ C), <- List.app_assoc. cbn [List.app].
      now rewrite Nat2Z.inj_add, Z.add_assoc.
Qed.

Lemma read_events_total (req : Plugin.IncomingMessage) :
  0 <= maxBytes ->
  Plugin.readJsonBody JSON_parse req maxBytes
  = if Z.of_nat (String.length (String.concat "" req.(Plugin.req_chunks)))
       >? maxBytes
    then Plugin.body_error "payload too large"
    else at_close (String.concat "" req.(Plugin.req_chunks))
                  req.(Plugin.req_close).
Proof.
  intro B. unfold Plugin.readJsonBody.
  now rewrite (read_events_run _ _ 0 [] B).
Qed.

(** X27: what [readJsonBody] resolves with depends on the body as a whole,
    not on how the stream cuts it into chunks: a body of more than
    [maxBytes] bytes gives the error [payload too large], even when the
    stream would have failed later; otherwise a stream error gives its
    message, a body that does not parse gives [invalid json], and a body
    that parses gives its value. *)
Theorem readJsonBody_outcomes (req : Plugin.IncomingMessage) :
  0 <= maxBytes ->
  let whole := String.concat "" req.(Plugin.req_chunks) in
  Plugin.readJsonBody JSON_parse req maxBytes
  = if Z.of_nat (String.length whole) >? maxBytes
    then Plugin.body_error "payload too large"
    else match req.(Plugin.req_close) with
         | Plugin.stream_end =>
             match JSON_parse whole with
             | Some parsed => Plugin.body_value parsed
             | None => Plugin.body_error "invalid json"
             end
         | Plugin.stream_error message => Plugin.body_error message
         end.
Proof.
  intros B whole. now rewrite read_events_total.
Qed.

End ReadJsonBody.

Section Router.

Variable URL_pathname : string -> option string.
Variable JSON_parse : string -> option Plugin.ParsedBody.
Variable base64_decode : string -> option string.

Let handle := Plugin.createWebhookHandler URL_pathname JSON_parse base64_decode.

Variable req : Plugin.IncomingMessage.
Variable res : Plugin.ServerResponse.
Variable st : Plugin.State.
Variable w : World.

Ltac run_router :=
  unfold handle, Plugin.createWebhookHandler, bind, try_catch, Plugin.await,
    Plugin.get_state, ret, throw;
  cbn [fst snd].

(** Case analysis on the innermost scrutinee first. *)
Ltac split_matches :=
  repeat (match goal with
          | |- context [match ?x with _ => _ end] =>
              lazymatch x with
              | context [match _ with _ => _ end] => fail
              | _ => destruct x eqn:?
              end
          end; cbn [fst snd]).

(** X28: the router raises only when the request URL does not parse.
    Otherwise it either declines the request, leaving the response and the
    world as they are, or answers it: the response is ended with one of
    the status codes 200, 400, 405, 413 and 500.  Whatever the account's
    handler and the host's functions do, their exceptions do not escape,
    and the registry and the runtime of the module are unchanged. *)
Theorem createWebhookHandler_always_answers :
  match URL_pathname (Js.nullish req.(Plugin.req_url) "/") with
  | None =>
      handle req res (st, w) = (Throw (TypeError "Invalid URL"), (st, w))
  | Some _ =>
      exists handled res' w',
        handle req res (st, w) = (Return (handled, res'), (st, w'))
        /\ (handled = false -> res' = res /\ w' = w)
        /\ (handled = true ->
            Plugin.ended res' <> None
            /\ In (Plugin.statusCode res') [200; 400; 405; 413; 500])
  end.
Proof.
  run_router.
  destruct (URL_pathname (Js.nullish (Plugin.req_url req) "/"));
    [|reflexivity].
  split_matches;
    do 3 eexists; (split; [reflexivity|]);
    (split; [intro H; try discriminate H; now split|]);
    intro H; try discriminate H;
    (split; [discriminate|cbn; tauto]).
Qed.


(** ** Requests for a registered path *)

Section Registered.

Variable pathname : string.
Variable target : Plugin.WebexWebhookTarget.

Hypothesis url_parses :
  URL_pathname (Js.nullish req.(Plugin.req_url) "/") = Some pathname.
Hypothesis under_prefix :
  Js.startsWith (Plugin.normalizeWebhookPath pathname) "/webhooks/webex/"
  = true.
Hypothesis registered :
  Plugin.map_get (Plugin.normalizeWebhookPath pathname)
                 st.(Plugin.webhookTargets) = Some target.

Let whole : string := String.concat "" req.(Plugin.req_chunks).

Lemma router_at_target :
  handle req res (st, w)
  = (if negb (Plugin.string_opt_eqb req.(Plugin.req_method) "POST") then
       ret (true,
            Plugin.res_end "Method Not Allowed"
              (Plugin.setHeader "Allow" "POST"
                 (Plugin.set_statusCode 405 res)))
     else
       match Plugin.readJsonBody JSON_parse req (1024 * 1024) with
       | Plugin.body_error error =>
           ret (true,
                Plugin.res_end error
                  (Plugin.set_statusCode
                     (if String.eqb error "payload too large"
                      then 413 else 400) res))
       | Plugin.body_value value =>
           try_catch
             (envelope <-
                Plugin.await
                  match value with
                  | Plugin.PayloadValue payload =>
                      Webhook.handleWebhook target.(Plugin.webhookHandler)
                                            payload
                  | Plugin.OtherValue run => run target.(Plugin.webhookHandler)
                  end ;;
              st' <- Plugin.get_state ;;
              match envelope, st'.(Plugin.pluginRuntime) with
              | Some envelope, Some runtime =>
                  cfg <- Plugin.await
                           match runtime.(Plugin.loadConfig) with
                           | Some load =>
                               loaded <- load ;;
                               ret (Js.nullish loaded Plugin.EmptyObject)
                           | None => ret Plugin.EmptyObject
                           end ;;
                  match
                    runtime.(Plugin.dispatchReplyWithBufferedBlockDispatcher)
                  with
                  | Some dispatchReply =>
                      Plugin.await
                        (dispatchReply
                           (Plugin.mkDispatch
                              (Plugin.ctxPayload target.(Plugin.account)
                                                 envelope)
                              cfg
                              (Plugin.deliver_reply base64_decode
                                 (Send.new_WebexSender
                                    target.(Plugin.account)
                                      .(Plugin.account_config))
                                 envelope)))
                  | None => ret tt
                  end
              | _, _ => ret tt
              end ;;;
              ret (true,
                   Plugin.res_end Plugin.ok_body
                     (Plugin.setHeader "Content-Type" "application/json"
                        (Plugin.set_statusCode 200 res))))
             (fun err =>
                ret (true,
                     Plugin.res_end Plugin.error_body
                       (Plugin.setHeader "Content-Type" "application/json"
                          (Plugin.set_statusCode 500 res))))
       end) (st, w).
Proof.
  unfold handle, Plugin.createWebhookHandler.
  rewrite url_parses, under_prefix. cbn [negb].
  unfold bind at 1. unfold Plugin.get_state at 1. cbn [fst snd].
  now rewrite registered.
Qed.

Lemma string_opt_eqb_POST (o : option string) :
  Plugin.string_opt_eqb o "POST" = true <-> o = Some "POST".
Proof.
  destruct o as [m|]; cbn [Plugin.string_opt_eqb].
  - rewrite String.eqb_eq. split; congruence.
  - split; discriminate.
Qed.

(** X26: what the router answers without involving the account's handler
    or the host.  For a registered path: a request that is not a POST is
    answered 405 with the header [Allow: POST]; a POST whose body is larger
    than 1048576 bytes is answered 413; a POST whose body is not JSON is
    answered 400.  In each case the world is unchanged: no call is made. *)
Theorem createWebhookHandler_rejections :
  (req.(Plugin.req_method) <> Some "POST" ->
   handle req res (st, w)
   = (Return (true,
              Plugin.mkServerResponse 405
                (res.(Plugin.header_calls) ++ [("Allow", "POST")])
                (Some "Method Not Allowed")),
      (st, w)))
  /\ (req.(Plugin.req_method) = Some "POST" ->
      1048576 < Z.of_nat (String.length whole) ->
      handle req res (st, w)
      = (Return (true,
                 Plugin.mkServerResponse 413 res.(Plugin.header_calls)
                   (Some "payload too large")),
         (st, w)))
  /\ (req.(Plugin.req_method) = Some "POST" ->
      Z.of_nat (String.length whole) <= 1048576 ->
      req.(Plugin.req_close) = Plugin.stream_end ->
      JSON_parse whole = None ->
      handle req res (st, w)
      = (Return (true,
                 Plugin.mkServerResponse 400 res.(Plugin.header_calls)
                   (Some "invalid json")),
         (st, w))).
Proof.
  rewrite router_at_target.
  split; [|split].
  - intro M.
    destruct (Plugin.string_opt_eqb (Plugin.req_method req) "POST") eqn:E.
    + apply string_opt_eqb_POST in E. contradiction.
    + reflexivity.
  - intros M L. apply string_opt_eqb_POST in M. rewrite M. cbn [negb].
    rewrite read_events_total by lia. fold whole.
    replace (Z.of_nat (String.length whole) >? 1024 * 1024) with true
      by (symmetry; rewrite Z.gtb_ltb; apply Z.ltb_lt; lia).
    reflexivity.
  - intros M L C P. apply string_opt_eqb_POST in M. rewrite M. cbn [negb].
    rewrite read_events_total by lia. fold whole.
    replace (Z.of_nat (String.length whole) >? 1024 * 1024) with false
      by (symmetry; rewrite Z.gtb_ltb; apply Z.ltb_ge; lia).
    now rewrite C, P.
Qed.

Section Notification.

Variable payload : WebexWebhookPayload.
Variable w1 : World.

Hypothesis is_post : req.(Plugin.req_method) = Some "POST".
Hypothesis fits : Z.of_nat (String.length whole) <= 1048576.
Hypothesis complete : req.(Plugin.req_close) = Plugin.stream_end.
Hypothesis parses : JSON_parse whole = Some (Plugin.PayloadValue payload).

Let handler := target.(Plugin.webhookHandler).
Let acknowledged : Plugin.ServerResponse :=
  Plugin.mkServerResponse 200
    (res.(Plugin.header_calls) ++ [("Content-Type", "application/json")])
    (Some Plugin.ok_body).
Let failed : Plugin.ServerResponse :=
  Plugin.mkServerResponse 500
    (res.(Plugin.header_calls) ++ [("Content-Type", "application/json")])
    (Some Plugin.error_body).

(** X29: the status of the answer to a notification reflects what happened
    behind the router.  When the account's handler raises, the answer is
    500 and the error goes no further.  When the handler filters the
    notification out, the answer is 200 and the host is not involved.  When
    the handler yields an envelope and the host has a dispatch function,
    that function is run once, on the context built from the envelope and
    a [deliver] callback bound to the account's configuration, and the
    answer is 200 if it returns and 500 if it raises; without a runtime
    the answer is 200. *)
Theorem createWebhookHandler_status_reflects_outcome :
  (forall e,
      Webhook.handleWebhook handler payload w = (Throw e, w1) ->
      handle req res (st, w) = (Return (true, failed), (st, w1)))
  /\ (Webhook.handleWebhook handler payload w = (Return None, w1) ->
      handle req res (st, w) = (Return (true, acknowledged), (st, w1)))
  /\ (forall envelope,
         Webhook.handleWebhook handler payload w
         = (Return (Some envelope), w1) ->
         (st.(Plugin.pluginRuntime) = None ->
          handle req res (st, w) = (Return (true, acknowledged), (st, w1)))
         /\ (forall dispatchReply,
                st.(Plugin.pluginRuntime)
                = Some (Plugin.mkRuntime None (Some dispatchReply)) ->
                handle req res (st, w)
                = match
                    dispatchReply
                      (Plugin.mkDispatch
                         (Plugin.ctxPayload target.(Plugin.account) envelope)
                         Plugin.EmptyObject
                         (Plugin.deliver_reply base64_decode
                            (Send.new_WebexSender
                               target.(Plugin.account)
                                 .(Plugin.account_config))
                            envelope))
                      w1
                  with
                  | (Return _, w2) => (Return (true, acknowledged), (st, w2))
                  | (Throw _, w2) => (Return (true, failed), (st, w2))
                  end)).
Proof.
  assert (B : Plugin.readJsonBody JSON_parse req (1024 * 1024)
              = Plugin.body_value (Plugin.PayloadValue payload)).
  { rewrite read_events_total by lia. fold whole.
    replace (Z.of_nat (String.length whole) >? 1024 * 1024) with false
      by (symmetry; rewrite Z.gtb_ltb; apply Z.ltb_ge; lia).
    now rewrite complete, parses. }
  rewrite router_at_target.
  apply string_opt_eqb_POST in is_post. rewrite is_post, B. cbn [negb].
  fold handler.
  unfold try_catch, bind, Plugin.await, Plugin.get_state, ret.
  cbn [fst snd].
  split; [|split].
  - intros e H. now rewrite H.
  - intro H. now rewrite H.
  - intros envelope H. rewrite H. cbn [fst snd]. split.
    + intro R. now rewrite R.
    + intros dispatchReply R. rewrite R.
      cbn [Plugin.loadConfig Plugin.dispatchReplyWithBufferedBlockDispatcher
           Js.nullish fst snd].
      now destruct (dispatchReply _ w1) as [[[]|e] w2].
Qed.

End Notification.

End Registered.

End Router.

(* ================================================================== *)
(** * Starting and stopping an account *)

Lemma map_get_set {V : Type} (key : string) (v : V)
  (m : list (string * V)) :
  Plugin.map_get key (Plugin.map_set key v m) = Some v.
Proof.
  induction m as [|[k x] m IH]; cbn [Plugin.map_set Plugin.map_get].
  - now rewrite String.eqb_refl.
  - destruct (String.eqb k key) eqn:E; cbn [Plugin.map_get]; now rewrite E.
Qed.

Lemma map_get_delete {V : Type} (key : string) (m : list (string * V)) :
  Plugin.map_get key (Plugin.map_delete key m) = None.
Proof.
  unfold Plugin.map_delete.
  induction m as [|[k x] m IH]; cbn [List.filter fst]; [reflexivity|].
  destruct (String.eqb k key) eqn:E; cbn [negb Plugin.map_get];
    [exact IH|]. now rewrite E.
Qed.

Section AccountLifecycle.

Variable URL_pathname : string -> option string.
Variable JSON_parse : string -> option Plugin.ParsedBody.
Variable base64_decode : string -> option string.

Let handle := Plugin.createWebhookHandler URL_pathname JSON_parse base64_decode.

Lemma router_declines (req : Plugin.IncomingMessage)
  (res : Plugin.ServerResponse) (pathname : string) (s : Plugin.St) :
  URL_pathname (Js.nullish req.(Plugin.req_url) "/") = Some pathname ->
  Plugin.map_get (Plugin.normalizeWebhookPath pathname)
                 (fst s).(Plugin.webhookTargets) = None ->
  handle req res s = (Return (false, res), s).
Proof.
  intros U G. unfold handle, Plugin.createWebhookHandler. rewrite U.
  destruct (negb (Js.startsWith (Plugin.normalizeWebhookPath pathname)
                                "/webhooks/webex/")); [reflexivity|].
  unfold bind, Plugin.get_state. now rewrite G.
Qed.

(** X25: [registerWebexWebhookTarget] stores the target under the
    normalized path without touching the world, and the closure it returns
    closes the route whenever it is run: afterwards a request for that key
    is declined, with the response and the world untouched.  This holds in
    any later state, so also when the path has been registered again in
    between: the closure of an earlier registration removes the later
    one. *)
Theorem unregister_closes_the_route (path_ pathname : string)
  (target : Plugin.WebexWebhookTarget) (req : Plugin.IncomingMessage)
  (res : Plugin.ServerResponse) (s0 : Plugin.St) :
  URL_pathname (Js.nullish req.(Plugin.req_url) "/") = Some pathname ->
  Plugin.normalizeWebhookPath pathname = Plugin.normalizeWebhookPath path_ ->
  exists unregister s1,
    Plugin.registerWebexWebhookTarget path_ target s0
    = (Return unregister, s1)
    /\ snd s1 = snd s0
    /\ Plugin.map_get (Plugin.normalizeWebhookPath pathname)
                      (fst s1).(Plugin.webhookTargets) = Some target
    /\ forall s, exists s',
         unregister s = (Return tt, s')
         /\ snd s' = snd s
         /\ (fst s').(Plugin.pluginRuntime) = (fst s).(Plugin.pluginRuntime)
         /\ handle req res s' = (Return (false, res), s').
Proof.
  intros U K. unfold Plugin.registerWebexWebhookTarget.
  do 2 eexists. split; [reflexivity|].
  cbn [fst snd Plugin.webhookTargets]. split; [reflexivity|].
  split; [rewrite K; apply map_get_set|].
  intro s. eexists. split; [reflexivity|].
  cbn [fst snd Plugin.pluginRuntime]. split; [reflexivity|].
  split; [reflexivity|].
  apply (router_declines _ _ pathname); [exact U|].
  cbn [fst Plugin.webhookTargets]. rewrite K. apply map_get_delete.
Qed.

(** X30: [startAccount], once the host's [setStatus] has returned.  When
    the identity request fails, the error is raised and nothing is
    registered.  When it succeeds, the account is registered under the key
    of [/webhooks/webex/<account id>] with a handler that knows the bot's
    id, whether or not the webhooks could be registered with the provider;
    the runtime and the other routes are kept, and the cleanup function
    returned removes the route again.  For an id that is not empty and has
    neither surrounding white space nor a trailing slash, the key is that
    path itself and is one the router serves. *)
Theorem startAccount_serves_the_account (ctx : Plugin.StartContext)
  (st : Plugin.State) (w w0 : World) :
  let account_ := ctx.(Plugin.ctx_account) in
  let config_ := account_.(Plugin.account_config) in
  let handler := Webhook.new_WebexWebhookHandler config_ in
  let key := Plugin.normalizeWebhookPath
               ("/webhooks/webex/" ++ account_.(Plugin.accountId)) in
  ctx.(Plugin.setStatus) account_.(Plugin.accountId)
    (Js.nullish (apiBaseUrl config_) "https://webexapis.com/v1") w
  = (Return tt, w0) ->
  (forall e w1,
      Webhook.initialize handler w0 = (Throw e, w1) ->
      Plugin.startAccount ctx (st, w) = (Throw e, (st, w1)))
  /\ (forall r bot,
         Spec.outcome w0 (Spec.identity_request handler) 0 = Resolved r ->
         ok r = true ->
         json r = Return (JsonBotInfo bot) ->
         let handler' :=
           Webhook.mkHandler config_ handler.(Webhook.handler_apiBaseUrl)
                             (Some bot.(bot_id)) in
         let target := Plugin.mkTarget account_ config_ handler' in
         exists stop,
           Plugin.startAccount ctx (st, w)
           = (Return stop,
              (Plugin.mkState st.(Plugin.pluginRuntime)
                 (Plugin.map_set key target st.(Plugin.webhookTargets)),
               snd (Webhook.registerWebhooks handler'
                      (Spec.after_fetch (Spec.identity_request handler)
                                        w0))))
           /\ Plugin.map_get key
                (Plugin.map_set key target st.(Plugin.webhookTargets))
              = Some target
           /\ forall s, exists s',
                stop s = (Return tt, s')
                /\ snd s' = snd s
                /\ Plugin.map_get key (fst s').(Plugin.webhookTargets)
                   = None)
  /\ (account_.(Plugin.accountId) <> "" ->
      Trim.trim account_.(Plugin.accountId) = account_.(Plugin.accountId) ->
      Plugin.endsWith account_.(Plugin.accountId) "/" = false ->
      key = "/webhooks/webex/" ++ account_.(Plugin.accountId)
      /\ Js.startsWith key "/webhooks/webex/" = true).
Proof.
  intros account_ config_ handler key H.
  split; [|split].
  - intros e w1 I.
    unfold Plugin.startAccount, bind, Plugin.await. cbn [fst snd].
    fold account_. fold config_. rewrite H. cbn [fst snd].
    fold handler. now rewrite I.
  - intros r bot O K J handler' target.
    assert (I : Webhook.initialize handler w0
                = (Return handler',
                   Spec.after_fetch (Spec.identity_request handler) w0))
      by exact (handler_initialize_run handler w0 r bot O K J).
    unfold Plugin.startAccount, Plugin.registerWebexWebhookTarget, bind,
      try_catch, Plugin.await, Plugin.assign, ret.
    cbn [fst snd].
    fold account_. fold config_. rewrite H. cbn [fst snd].
    fold handler. rewrite I. cbn [fst snd].
    fold handler'. fold target. fold key.
    destruct (Webhook.registerWebhooks handler' _) as [[webhooks|e] w2];
      cbn [fst snd];
      (eexists; split; [reflexivity|]; split; [apply map_get_set|];
       intro s; eexists; split; [reflexivity|]; split; [reflexivity|];
       cbn [fst Plugin.webhookTargets]; apply map_get_delete).
  - intros NE T E. unfold key. now apply account_path_key.
Qed.

End AccountLifecycle.

(** ** The router on examples *)

Lemma unregister_closes_the_route_witness :
  exists unregister s1,
    Plugin.registerWebexWebhookTarget "/webhooks/webex/default" Host.target
      (Plugin.initial_state, Fixtures.world_of [] (1 # 2))
    = (Return unregister, s1)
    /\ snd s1 = Fixtures.world_of [] (1 # 2)
    /\ Plugin.map_get
         (Plugin.normalizeWebhookPath "/webhooks/webex/default/")
         (fst s1).(Plugin.webhookTargets) = Some Host.target
    /\ forall s, exists s',
         unregister s = (Return tt, s')
         /\ snd s' = snd s
         /\ (fst s').(Plugin.pluginRuntime) = (fst s).(Plugin.pluginRuntime)
         /\ Plugin.createWebhookHandler Host.URL_pathname Host.JSON_parse
              Node.base64_decode (Host.request "POST" [])
              Plugin.fresh_response s'
            = (Return (false, Plugin.fresh_response), s').
Proof.
  apply (unregister_closes_the_route Host.URL_pathname Host.JSON_parse
           Node.base64_decode "/webhooks/webex/default"
           "/webhooks/webex/default/" Host.target (Host.request "POST" [])
           Plugin.fresh_response
           (Plugin.initial_state, Fixtures.world_of [] (1 # 2)));
    reflexivity.
Defined.

Lemma createWebhookHandler_rejections_witness :
  Plugin.createWebhookHandler Host.URL_pathname Host.JSON_parse
    Node.base64_decode (Host.request "GET" []) Plugin.fresh_response
    (Host.serving, Fixtures.world_of [] (1 # 2))
  = (Return (true,
             Plugin.mkServerResponse 405 [("Allow", "POST")]
               (Some "Method Not Allowed")),
     (Host.serving, Fixtures.world_of [] (1 # 2)))
  /\ Plugin.createWebhookHandler Host.URL_pathname Host.JSON_parse
       Node.base64_decode (Host.request "POST" ["{not"; " json"])
       Plugin.fresh_response (Host.serving, Fixtures.world_of [] (1 # 2))
     = (Return (true,
                Plugin.mkServerResponse 400 [] (Some "invalid json")),
        (Host.serving, Fixtures.world_of [] (1 # 2))).
Proof.
  split.
  - destruct (createWebhookHandler_rejections Host.URL_pathname
                Host.JSON_parse Node.base64_decode (Host.request "GET" [])
                Plugin.fresh_response Host.serving
                (Fixtures.world_of [] (1 # 2)) "/webhooks/webex/default/"
                Host.target) as [H _]; [reflexivity..|].
    apply H. discriminate.
  - destruct (createWebhookHandler_rejections Host.URL_pathname
                Host.JSON_parse Node.base64_decode
                (Host.request "POST" ["{not"; " json"])
                Plugin.fresh_response Host.serving
                (Fixtures.world_of [] (1 # 2)) "/webhooks/webex/default/"
                Host.target) as (_ & _ & H); [reflexivity..|].
    apply H; [reflexivity|vm_compute; discriminate|reflexivity..].
Defined.

Lemma readJsonBody_outcomes_witness :
  Plugin.readJsonBody Host.JSON_parse
    (Host.request "POST" Host.notification_chunks) (1024 * 1024)
  = Plugin.body_value (Plugin.PayloadValue Host.notification).
Proof.
  rewrite (readJsonBody_outcomes Host.JSON_parse (1024 * 1024)
             (Host.request "POST" Host.notification_chunks));
    [reflexivity|vm_compute; discriminate].
Defined.

Lemma createWebhookHandler_status_reflects_outcome_witness :
  fst (Plugin.createWebhookHandler Host.URL_pathname Host.JSON_parse
         Node.base64_decode (Host.request "POST" Host.notification_chunks)
         Plugin.fresh_response
         (Host.serving,
          Fixtures.world_of
            [Fixtures.ok_response (JsonMessage Fixtures.mockMessage);
             Fixtures.ok_response (JsonMessage Fixtures.mockMessage)]
            (1 # 2)))
  = Return (true,
            Plugin.mkServerResponse 200
              [("Content-Type", "application/json")]
              (Some Plugin.ok_body)).
Proof.
  destruct (createWebhookHandler_status_reflects_outcome Host.URL_pathname
              Host.JSON_parse Node.base64_decode
              (Host.request "POST" Host.notification_chunks)
              Plugin.fresh_response Host.serving
              (Fixtures.world_of
                 [Fixtures.ok_response (JsonMessage Fixtures.mockMessage);
                  Fixtures.ok_response (JsonMessage Fixtures.mockMessage)]
                 (1 # 2))
              "/webhooks/webex/default/" Host.target eq_refl eq_refl eq_refl
              Host.notification
              (Spec.after_fetch
                 (Spec.message_request
                    (Fixtures.handler_with Fixtures.config)
                    Host.notification)
                 (Fixtures.world_of
                    [Fixtures.ok_response (JsonMessage Fixtures.mockMessage);
                     Fixtures.ok_response (JsonMessage Fixtures.mockMessage)]
                    (1 # 2))))
    as (_ & _ & H);
    [reflexivity|vm_compute; discriminate|reflexivity|reflexivity|].
  destruct (H (Webhook.normalizeMessage Fixtures.mockMessage)) as [_ D];
    [reflexivity|].
  rewrite (D _ eq_refl). reflexivity.
Defined.

Lemma startAccount_serves_the_account_witness :
  Plugin.map_get "/webhooks/webex/default"
    (Plugin.webhookTargets
       (fst (snd (Plugin.startAccount Host.start_context
                    (Plugin.initial_state,
                     Fixtures.world_of
                       (Fixtures.ok_response (JsonBotInfo Fixtures.mockBotInfo)
                          :: Fixtures.register_script) (1 # 2))))))
  = Some Host.target.
Proof.
  destruct (startAccount_serves_the_account Host.start_context
              Plugin.initial_state
              (Fixtures.world_of
                 (Fixtures.ok_response (JsonBotInfo Fixtures.mockBotInfo)
                    :: Fixtures.register_script) (1 # 2))
              (Fixtures.world_of
                 (Fixtures.ok_response (JsonBotInfo Fixtures.mockBotInfo)
                    :: Fixtures.register_script) (1 # 2)))
    as (_ & H & K); [reflexivity|].
  destruct (H (mkResponse true 200 "OK"
                 (Return (JsonBotInfo Fixtures.mockBotInfo)) "")
              Fixtures.mockBotInfo) as (stop & E & G & _);
    [reflexivity..|].
  destruct K as [Key _]; [discriminate|reflexivity..|].
  rewrite E. cbn [fst snd Plugin.webhookTargets].
  rewrite Key in G. exact G.
Defined.
